(** * MindWell mood tracker: a shallow embedding of the client-side pipeline

    The development follows the mood-tracking script of the repository
    (constants [MOOD_CONFIG] and [MOOD_MAPPINGS], classes [ApiClient],
    [MoodCache] and [MoodTracker]) and proves properties of the history
    processor, the retry loop, the cache and the [logMood] orchestration.

    Conventions of the embedding:
    - an instant is the time value of a JavaScript [Date], in milliseconds
      since the epoch, as a [Z]; an invalid [Date] is [None];
    - local time is given by a [TimeZone], the offset of the browser's
      local time from UTC at every instant;
    - a string is its sequence of bytes in UTF-8; a number is the integer
      it denotes (rounding to a double is not modelled);
    - an asynchronous method is a state transformer over the fields of the
      tracker and its environment that returns a value or throws an error;
      the network is an oracle that gives the reply to each call of
      [fetch], numbered from 0; what a call does to the network, the
      timers, the cache, the page and the console is appended to a trace,
      and the fields of the tracker are recorded each time the call is
      suspended, which is when other calls can run;
    - of the arguments of [logMood], [mood] is a string or a value of
      another type, and [value] is given by its conversion to a string,
      which is all that [parseInt] reads of it; a record of the history is
      given by the time value of its date and by its value;
    - the page (buttons, chart, notifications) is seen through the events
      of the trace only. *)

From Stdlib Require Import Ascii.
From stdpp Require Import gmap strings list pretty.

Local Open Scope string_scope.
Local Open Scope list_scope.
Local Open Scope Z_scope.

(** ** Constants and configuration *)

Module MOOD_CONFIG.
Definition API_ENDPOINT : string := "/api/mood".
Definition HISTORY_ENDPOINT : string := "/api/mood/history".
Definition RETRY_ATTEMPTS : nat := 3.
Definition RETRY_DELAY : Z := 1000.
Definition CACHE_DURATION : Z := 5 * 60 * 1000.
Definition NOTIFICATION_DURATION : Z := 3000.
End MOOD_CONFIG.

(** ** Values *)

(** The primitive values a history record can carry in its [value]
    property, and the slots of the chart series ([JsNull] is the absent
    slot, distinct from [JsNumber 0]). *)
Inductive JsValue :=
| JsUndefined
| JsNull
| JsNumber (z : Z)
| JsString (s : string).

(** One element of the raw history: [date] is the time value of
    [new Date(h.date)] ([None] when that is an invalid date), [value] is
    [h.value]. *)
Record HistoryRecord := mkRecord {
  date : option Z;
  value : JsValue
}.

(** The object returned by [processHistoryData]. *)
Record ChartData := mkChartData {
  labels : list string;
  dataPoints : list JsValue;
  rawHistory : list HistoryRecord
}.

(** ** Dates *)

Definition msPerDay : Z := 86400000.

(** The local time of the browser, as the abstract operations LocalTime
    and UTC of ECMAScript: [offsetAt t] is the offset of the local time from
    UTC at the instant [t], and [utcOf l] is the instant at which the local
    clock shows the local time value [l]. *)
Record TimeZone := mkZone {
  offsetAt : Z → Z;
  utcOf : Z → Z
}.

(** A zone with a constant offset from UTC. *)
Definition fixedOffset (offset : Z) : TimeZone :=
  mkZone (λ _, offset) (λ l, l - offset).

Definition LocalTime (tz : TimeZone) (t : Z) : Z := t + offsetAt tz t.
Definition Day (t : Z) : Z := t `div` msPerDay.
Definition TimeWithinDay (t : Z) : Z := t `mod` msPerDay.
Definition MakeDate (day time : Z) : Z := day * msPerDay + time.

(** [d.setHours(0, 0, 0, 0)] followed by [d.getTime()], for a date whose
    time value is [t]: the local midnight of the day of [t]. *)
Definition setHours0 (tz : TimeZone) (t : Z) : Z :=
  utcOf tz (MakeDate (Day (LocalTime tz t)) 0).

(** [d.setDate(d.getDate() - i)] followed by [d.getTime()], for a date
    whose time value is [t]: the same local time of day, [i] days
    earlier. *)
Definition setDateBack (tz : TimeZone) (t : Z) (i : nat) : Z :=
  let l := LocalTime tz t in
  utcOf tz (MakeDate (Day l - Z.of_nat i) (TimeWithinDay l)).

Definition weekdayShort (w : Z) : string :=
  if decide (w = 0) then "Sun" else if decide (w = 1) then "Mon"
  else if decide (w = 2) then "Tue" else if decide (w = 3) then "Wed"
  else if decide (w = 4) then "Thu" else if decide (w = 5) then "Fri"
  else "Sat".

Definition monthShort (m : Z) : string :=
  if decide (m = 1) then "Jan" else if decide (m = 2) then "Feb"
  else if decide (m = 3) then "Mar" else if decide (m = 4) then "Apr"
  else if decide (m = 5) then "May" else if decide (m = 6) then "Jun"
  else if decide (m = 7) then "Jul" else if decide (m = 8) then "Aug"
  else if decide (m = 9) then "Sep" else if decide (m = 10) then "Oct"
  else if decide (m = 11) then "Nov" else "Dec".

(** Month and day of month of the proleptic Gregorian calendar for a day
    number counted from 1970-01-01. *)
Definition monthDay (dayNumber : Z) : Z * Z :=
  let z := dayNumber + 719468 in
  let era := z `div` 146097 in
  let doe := z - era * 146097 in
  let yoe := (doe - doe `div` 1460 + doe `div` 36524 - doe `div` 146096) `div` 365 in
  let doy := doe - (365 * yoe + yoe `div` 4 - yoe `div` 100) in
  let mp := (5 * doy + 2) `div` 153 in
  let d := doy - (153 * mp + 2) `div` 5 + 1 in
  let m := if decide (mp < 10) then mp + 3 else mp - 9 in
  (m, d).

(** [d.toLocaleDateString('en-US', { weekday: 'short', month: 'short',
    day: 'numeric' })], e.g. ["Wed, Jan 10"]. *)
Definition toLocaleDateString (tz : TimeZone) (t : Z) : string :=
  let dayNumber := Day (LocalTime tz t) in
  let '(m, d) := monthDay dayNumber in
  weekdayShort ((dayNumber + 4) `mod` 7) +:+ ", " +:+ monthShort m +:+ " " +:+ pretty d.

(** ** History processor *)

(** The callback of [history.find]: the record's date, truncated to local
    midnight, has the same time value as [day]. An invalid date has the
    time value NaN, which is equal to nothing. *)
Definition sameDay (tz : TimeZone) (day : Z) (h : HistoryRecord) : bool :=
  match date h with
  | Some t => bool_decide (setHours0 tz t = day)
  | None => false
  end.

(** The body of the loop of [processHistoryData] for one value of [i]:
    push the label of the day [i] days before [today], then the value of
    the first record of that day, or [null]. *)
Definition pushDay (tz : TimeZone) (today : Z) (history : list HistoryRecord)
    (i : nat) (acc : list string * list JsValue) : list string * list JsValue :=
  let day := setDateBack tz today i in
  let label := toLocaleDateString tz day in
  let entry := List.find (sameDay tz day) history in
  (acc.1 ++ [label],
   acc.2 ++ [match entry with Some e => value e | None => JsNull end]).

(** [for (let i = n; i >= 0; i--) body]. *)
Fixpoint forDownTo0 {A} (body : nat → A → A) (i : nat) (acc : A) : A :=
  let acc' := body i acc in
  match i with
  | O => acc'
  | S j => forDownTo0 body j acc'
  end.

(** [processHistoryData(history)], where [now] is the time value of the
    [new Date()] it starts from. *)
Definition processHistoryData (tz : TimeZone) (now : Z) (history : list HistoryRecord)
    : ChartData :=
  let today := setHours0 tz now in
  let '(labels, dataPoints) := forDownTo0 (pushDay tz today history) 6 ([], []) in
  {| labels := labels; dataPoints := dataPoints; rawHistory := history |}.

(** ** Strings *)

Definition charCode (c : ascii) : Z := Z.of_N (Ascii.N_of_ascii c).

Definition bytes (codes : list nat) : string :=
  foldr (λ n s, String (Ascii.ascii_of_nat n) s) "" codes.

(** [s.includes(needle)]. *)
Fixpoint includes (needle s : string) : bool :=
  String.prefix needle s ||
  match s with
  | EmptyString => false
  | String _ s' => includes needle s'
  end.

(** [stripPrefix p s] is the rest of [s] after its prefix [p]. *)
Fixpoint stripPrefix (p s : string) : option string :=
  match p, s with
  | EmptyString, _ => Some s
  | String a p', String b s' => if decide (a = b) then stripPrefix p' s' else None
  | String _ _, EmptyString => None
  end.

(** The white space and line terminator characters of ECMAScript, in
    UTF-8: TAB, LF, VT, FF, CR, SP, U+00A0, U+1680, U+2000 to U+200A,
    U+2028, U+2029, U+202F, U+205F, U+3000 and U+FEFF. *)
Definition whiteSpace : list string :=
  (bytes <$> [[9]; [10]; [11]; [12]; [13]; [32]; [194; 160]; [225; 154; 128]]%nat)
  ++ ((λ n, bytes [226; 128; n]%nat) <$> seq 128 11)
  ++ (bytes <$> [[226; 128; 168]; [226; 128; 169]; [226; 128; 175];
                 [226; 129; 159]; [227; 128; 128]; [239; 187; 191]]%nat).

(** The rest of [s] after one leading white space character, if any. *)
Definition skipWhiteSpace (s : string) : option string :=
  list_find is_Some ((λ w, stripPrefix w s) <$> whiteSpace) ≫= snd.

Fixpoint trimStartN (n : nat) (s : string) : string :=
  match n with
  | O => s
  | S n' => match skipWhiteSpace s with
            | Some s' => trimStartN n' s'
            | None => s
            end
  end.

(** [s.trimStart()]. *)
Definition trimStart (s : string) : string := trimStartN (String.length s) s.

(** [s.trimEnd()]. *)
Fixpoint trimEnd (s : string) : string :=
  match s with
  | EmptyString => EmptyString
  | String c s' => if decide (trimStart s = "") then "" else String c (trimEnd s')
  end.

(** [s.trim()]. *)
Definition trim (s : string) : string := trimEnd (trimStart s).

Definition digitValue (c : ascii) : option Z :=
  let n := charCode c in
  if decide (48 ≤ n ≤ 57) then Some (n - 48)
  else if decide (97 ≤ n ≤ 122) then Some (n - 87)
  else if decide (65 ≤ n ≤ 90) then Some (n - 55)
  else None.

(** The value of the longest prefix of [s] made of digits of radix [R],
    continuing from [acc]; [None] when [acc] is [None] and [s] starts with
    no such digit. *)
Fixpoint digitsValue (R : Z) (s : string) (acc : option Z) : option Z :=
  match s with
  | EmptyString => acc
  | String c s' =>
      match digitValue c with
      | Some d => if decide (d < R) then digitsValue R s' (Some (default 0 acc * R + d))
                  else acc
      | None => acc
      end
  end.

(** [parseInt(s)] for a string [s], without a radix: [None] is NaN,
    [Some n] is the mathematical integer that was read (its rounding to a
    Number is not modelled; it leaves comparisons with 1 and 5 as they
    are). *)
Definition parseInt (s : string) : option Z :=
  let s0 := trimStart s in
  let '(sign, s1) :=
    match s0 with
    | String "-"%char r => (-1, r)
    | String "+"%char r => (1, r)
    | _ => (1, s0)
    end in
  let '(R, s2) :=
    match s1 with
    | String "0"%char (String "x"%char r)
    | String "0"%char (String "X"%char r) => (16, r)
    | _ => (10, s1)
    end in
  (λ n, sign * n) <$> digitsValue R s2 None.

(** ** The mood table *)

Record MoodAttributes := mkMood {
  moodValue : Z;
  emoji : string;
  color : string
}.

(** The own properties of the object literal [MOOD_MAPPINGS]. *)
Definition MOOD_MAPPINGS : list (string * MoodAttributes) :=
  [ ("Happy",   mkMood 5 "😊" "#10B981");
    ("Good",    mkMood 4 "🙂" "#059669");
    ("Okay",    mkMood 3 "😐" "#F59E0B");
    ("Worried", mkMood 2 "😟" "#EF4444");
    ("Sad",     mkMood 1 "😢" "#DC2626") ].

(** The properties every object literal inherits from [Object.prototype]. *)
Definition ObjectPrototype : list string :=
  [ "constructor"; "__defineGetter__"; "__defineSetter__"; "hasOwnProperty";
    "__lookupGetter__"; "__lookupSetter__"; "isPrototypeOf";
    "propertyIsEnumerable"; "toString"; "valueOf"; "__proto__";
    "toLocaleString" ].

(** What [MOOD_MAPPINGS[key]] evaluates to: the attributes of an own
    property, a member of [Object.prototype] (a function, or the prototype
    itself for [__proto__]), or [undefined]. *)
Inductive Property :=
| OwnProperty (attrs : MoodAttributes)
| Inherited (name : string)
| Undefined.

Fixpoint assoc {A} (key : string) (l : list (string * A)) : option A :=
  match l with
  | [] => None
  | (k, a) :: l' => if decide (k = key) then Some a else assoc key l'
  end.

Definition getProperty (key : string) : Property :=
  match assoc key MOOD_MAPPINGS with
  | Some attrs => OwnProperty attrs
  | None => if decide (key ∈ ObjectPrototype) then Inherited key else Undefined
  end.

(** ToBoolean of a property value: objects and functions are truthy. *)
Definition truthy (p : Property) : bool :=
  match p with
  | OwnProperty _ | Inherited _ => true
  | Undefined => false
  end.

(** The first argument of [logMood] and [validateMoodInput]: a string, or
    a value of another type, of which [image] is the conversion to a
    string. *)
Inductive MoodArg :=
| MoodString (s : string)
| NotAString (image : string).

Definition moodText (mood : MoodArg) : string :=
  match mood with
  | MoodString s => s
  | NotAString image => image
  end.

(** [validateMoodInput(mood, value)]; [value] stands for [ToString(value)],
    which is all [parseInt] sees of its argument. *)
Definition validateMoodInput (mood : MoodArg) (value : string) : bool :=
  match mood with
  | NotAString _ => false
  | MoodString s =>
      if decide (s = "") then false
      else match parseInt value with
           | None => false
           | Some numValue =>
               if decide (numValue < 1 ∨ numValue > 5) then false
               else if negb (truthy (getProperty s)) then false
               else true
           end
  end.
(** ** Errors, responses and effects *)

Record JsError := mkError {
  errorName : string;
  message : string
}.

Definition Error (msg : string) : JsError := mkError "Error" msg.
Definition TypeError (msg : string) : JsError := mkError "TypeError" msg.

(** The values a response body parses to, and what [retryRequest] returns. *)
Inductive Value :=
| VUndefined
| VNull
| VArray (records : list HistoryRecord)
| VObject (fields : list (string * string)).

(** The result of a call, or of a promise once settled. *)
Inductive Outcome (A : Type) :=
| Return (a : A)
| Throw (e : JsError).
Arguments Return {A} a.
Arguments Throw {A} e.

(** What the code reads of a [Response]; [json] is what [response.json()]
    settles to. *)
Record Response := mkResponse {
  ok : bool;
  status : Z;
  statusText : string;
  json : Outcome Value
}.

(** What a [fetch] promise settles to, and after how many milliseconds. *)
Record Reply := mkReply {
  settled : Outcome Response;
  latency : nat
}.

(** The object that [logMood] serialises into the body of its request. *)
Record MoodData := mkMoodData {
  mood : string;
  numValue : option Z;
  timestamp : Z;
  userAgentInfo : string;
  timezoneInfo : string
}.

(** The [options] argument of [request], and the [config] it hands to
    [fetch]. *)
Record Options := mkOptions {
  method : option string;
  body : option MoodData;
  headers : option (list (string * string))
}.

Definition noOptions : Options := mkOptions None None None.

Record Config := mkConfig {
  configHeaders : list (string * string);
  configMethod : option string;
  configBody : option MoodData
}.

Inductive NotificationType := SuccessType | ErrorType.

Definition typeName (type : NotificationType) : string :=
  match type with SuccessType => "success" | ErrorType => "error" end.

(** What the tracker does, in order: its calls to the network, timers,
    its cache, the page, the notifications and the console. *)
Inductive Event :=
| Fetch (url : string) (config : Config)
| Settled (result : Outcome Response)
| Delay (ms : Z)
| CacheGet (key : string)
| CacheSet (key : string)
| CacheClear
| LoadingState (loading : bool)
| MoodUI (mood : MoodArg)
| Notification (msg : string) (type : NotificationType) (duration : Z)
| ConsoleLog (line : string)
| ConsoleError (prefix : string) (e : JsError)
| ChartDestroy
| ChartCreate (labels : list string) (dataPoints : list JsValue).

(** ** The cache *)

Module MoodCache.
Record Item (A : Type) := mkItem {
  data : A;
  expiry : Z
}.
Arguments mkItem {A} data expiry.
Arguments data {A} _.
Arguments expiry {A} _.

Section methods.
Context {A : Type}.
(** [now] is the value of [Date.now()] at the call. *)
Context (now : Z).

Definition set (key : string) (data : A) (ttl : Z)
    (cache : gmap string (Item A)) : gmap string (Item A) :=
  let expiry := now + ttl in
  <[key := mkItem data expiry]> cache.

(** [None] is the [null] that [get] returns. *)
Definition get (key : string) (cache : gmap string (Item A))
    : option A * gmap string (Item A) :=
  match cache !! key with
  | None => (None, cache)
  | Some item =>
      if decide (now > expiry item) then (None, delete key cache)
      else (Some (data item), cache)
  end.

Definition clear (cache : gmap string (Item A)) : gmap string (Item A) := ∅.
End methods.
End MoodCache.

(** ** State *)

Record Chart := mkChart {
  chartLabels : list string;
  chartPoints : list JsValue
}.

(** The fields of a [MoodTracker] (with those of its [ApiClient] and
    [MoodCache]). *)
Record Tracker := mkTracker {
  baseUrl : string;
  cache : gmap string (MoodCache.Item ChartData);
  isLoading : bool;
  chartInstance : option Chart
}.

(** What the tracker reads from the page and the browser: the time zone
    offset, the [token] entry of the local storage, the replies of the
    network, whether a global [showNotification] function and the
    [moodChart] element exist, and the client information. *)
Record Env := mkEnv {
  tz : TimeZone;
  token : option string;
  network : nat → Reply;
  showNotificationDefined : bool;
  moodChartElement : bool;
  userAgent : string;
  timeZone : string
}.

(** [clock] is the current [Date.now()], [fetches] counts the calls of
    [fetch], and [suspended] collects the fields of the tracker as they
    were each time a call was suspended on the network or on a timer. *)
Record State := mkState {
  this : Tracker;
  env : Env;
  clock : Z;
  fetches : nat;
  trace : list Event;
  suspended : list Tracker
}.

Definition withThis (f : Tracker → Tracker) (σ : State) : State :=
  mkState (f (this σ)) (env σ) (clock σ) (fetches σ) (trace σ) (suspended σ).

Definition setCache (c : gmap string (MoodCache.Item ChartData)) (t : Tracker) : Tracker :=
  mkTracker (baseUrl t) c (isLoading t) (chartInstance t).

Definition setIsLoading (b : bool) (t : Tracker) : Tracker :=
  mkTracker (baseUrl t) (cache t) b (chartInstance t).

Definition setChartInstance (c : option Chart) (t : Tracker) : Tracker :=
  mkTracker (baseUrl t) (cache t) (isLoading t) c.

Definition addEvent (e : Event) (σ : State) : State :=
  mkState (this σ) (env σ) (clock σ) (fetches σ) (trace σ ++ [e]) (suspended σ).

Definition addSuspension (σ : State) : State :=
  mkState (this σ) (env σ) (clock σ) (fetches σ) (trace σ) (suspended σ ++ [this σ]).

Definition elapse (ms : Z) (σ : State) : State :=
  mkState (this σ) (env σ) (clock σ + ms) (fetches σ) (trace σ) (suspended σ).

Definition countFetch (σ : State) : State :=
  mkState (this σ) (env σ) (clock σ) (S (fetches σ)) (trace σ) (suspended σ).

(** ** The monad of calls: state and exceptions *)

Definition M (A : Type) : Type := State → Outcome A * State.

Global Instance M_ret : MRet M := λ A a σ, (Return a, σ).

Global Instance M_bind : MBind M := λ A B f m σ,
  match m σ with
  | (Return a, σ') => f a σ'
  | (Throw e, σ') => (Throw e, σ')
  end.

Definition throw {A} (e : JsError) : M A := λ σ, (Throw e, σ).

Definition getState : M State := λ σ, (Return σ, σ).

Definition modify (f : State → State) : M unit := λ σ, (Return (), f σ).

(** [try { body } catch (error) { handler }]. *)
Definition tryCatch {A} (body : M A) (handler : JsError → M A) : M A := λ σ,
  match body σ with
  | (Return a, σ') => (Return a, σ')
  | (Throw e, σ') => handler e σ'
  end.

(** [try { body } finally { final }]. *)
Definition tryFinally {A} (body : M A) (final : M unit) : M A := λ σ,
  let '(r, σ') := body σ in
  match final σ' with
  | (Return _, σ'') => (r, σ'')
  | (Throw e, σ'') => (Throw e, σ'')
  end.

Definition emit (e : Event) : M unit := modify (addEvent e).

(** The call is suspended until a promise of the network or a timer
    settles; other calls can run in between. *)
Definition suspend : M unit := modify addSuspension.

(** [await fetch(url, config)]. *)
Definition fetch (url : string) (config : Config) : M Response :=
  σ ← getState;
  let reply := network (env σ) (fetches σ) in
  emit (Fetch url config);;
  suspend;;
  modify countFetch;;
  modify (elapse (Z.of_nat (latency reply)));;
  emit (Settled (settled reply));;
  match settled reply with
  | Return response => mret response
  | Throw e => throw e
  end.

(** [await response.json()]. *)
Definition responseJson (response : Response) : M Value :=
  suspend;;
  match json response with
  | Return v => mret v
  | Throw e => throw e
  end.

(** [await new Promise(resolve => setTimeout(resolve, ms))]. *)
Definition sleep (ms : Z) : M unit :=
  emit (Delay ms);;
  suspend;;
  modify (elapse ms).

(** [v[name]] for a property [name] that no prototype defines. *)
Definition getField (v : Value) (name : string) : M (option string) :=
  match v with
  | VUndefined => throw (TypeError ("Cannot read properties of undefined (reading '" +:+ name +:+ "')"))
  | VNull => throw (TypeError ("Cannot read properties of null (reading '" +:+ name +:+ "')"))
  | VArray _ => mret None
  | VObject fields => mret (assoc name fields)
  end.

(** ToBoolean of an optional string: [undefined] and [""] are falsy. *)
Definition nonEmpty (s : option string) : bool :=
  match s with
  | Some s => negb (bool_decide (s = ""))
  | None => false
  end.

(** ** The HTTP client *)

Module ApiClient.
(** [{ headers: { ...defaultHeaders, ...options.headers }, ...options }]:
    the spread of [options] comes last, so that a [headers] property of
    [options] replaces the merged headers. *)
Definition makeConfig (defaultHeaders : list (string * string)) (options : Options) : Config :=
  let merged := defaultHeaders ++ default [] (headers options) in
  {| configHeaders := match headers options with Some h => h | None => merged end;
     configMethod := method options;
     configBody := body options |}.

Definition request (endpoint : string) (options : Options) : M Value :=
  σ ← getState;
  let token := token (env σ) in
  let defaultHeaders :=
    ("Content-Type", "application/json") ::
    (if nonEmpty token then [("x-auth-token", default "" token)] else []) in
  let config := makeConfig defaultHeaders options in
  response ← fetch (baseUrl (this σ) +:+ endpoint) config;
  if negb (ok response) then
    errorData ← tryCatch (responseJson response) (λ _, mret (VObject []));
    msg1 ← getField errorData "message";
    if nonEmpty msg1 then throw (Error (default "" msg1))
    else
      msg2 ← getField errorData "msg";
      if nonEmpty msg2 then throw (Error (default "" msg2))
      else throw (Error ("HTTP " +:+ pretty (status response) +:+ ": " +:+ statusText response))
  else responseJson response.

(** The loop of [retryRequest] from the index [i], with [remaining]
    iterations to go ([i + remaining = attempts]); leaving the loop, the
    function returns [undefined]. *)
Fixpoint retryLoop (endpoint : string) (options : Options) (attempts : nat)
    (remaining i : nat) : M Value :=
  match remaining with
  | O => mret VUndefined
  | S remaining' =>
      tryCatch (request endpoint options)
        (λ error,
           if decide (i = (attempts - 1)%nat) then throw error
           else
             sleep (MOOD_CONFIG.RETRY_DELAY * (Z.of_nat i + 1));;
             retryLoop endpoint options attempts remaining' (S i))
  end.

Definition retryRequest (endpoint : string) (options : Options) (attempts : nat) : M Value :=
  retryLoop endpoint options attempts attempts 0.
End ApiClient.

(** ** The mood tracker *)

Module MoodTracker.
Import MOOD_CONFIG.

(** [s.toUpperCase()] on ASCII letters. *)
Fixpoint toUpperCase (s : string) : string :=
  match s with
  | EmptyString => EmptyString
  | String c s' =>
      let n := charCode c in
      String (if decide (97 ≤ n ≤ 122) then ascii_of_nat (Z.to_nat (n - 32)) else c)
             (toUpperCase s')
  end.

(** [this.cache.get(key)], [this.cache.set(key, data)] and
    [this.cache.clear()]. *)
Definition cacheGet (key : string) : M (option ChartData) :=
  emit (CacheGet key);;
  σ ← getState;
  let '(result, cache') := MoodCache.get (clock σ) key (cache (this σ)) in
  modify (withThis (setCache cache'));;
  mret result.

Definition cacheSet (key : string) (data : ChartData) : M unit :=
  emit (CacheSet key);;
  σ ← getState;
  modify (withThis (setCache (MoodCache.set (clock σ) key data CACHE_DURATION (cache (this σ))))).

Definition cacheClear : M unit :=
  emit CacheClear;;
  modify (withThis (λ t, setCache (MoodCache.clear (cache t)) t)).

Definition showNotification (msg : string) (type : NotificationType) : M unit :=
  σ ← getState;
  if showNotificationDefined (env σ) then emit (Notification msg type NOTIFICATION_DURATION)
  else emit (ConsoleLog (toUpperCase (typeName type) +:+ ": " +:+ msg)).

Definition showSuccessNotification (msg : string) : M unit :=
  showNotification msg SuccessType.

Definition showErrorNotification (msg : string) : M unit :=
  showNotification msg ErrorType.

Definition showLoadingState (isLoading : bool) : M unit :=
  emit (LoadingState isLoading).

Definition updateMoodUI (mood : MoodArg) (value : string) : M unit :=
  emit (MoodUI mood).

(** The text that [handleMoodLogError] shows for an error message. *)
Definition errorMessageFor (msg : string) : string :=
  "Failed to log mood. " +:+
  (if includes "network" msg || includes "fetch" msg then
     "Please check your internet connection."
   else if includes "401" msg || includes "unauthorized" msg then
     "Please log in again."
   else if includes "429" msg then
     "Too many requests. Please wait a moment."
   else
     "Please try again later.").

Definition handleMoodLogError (error : JsError) (mood : MoodArg) (value : string) : M unit :=
  emit (ConsoleError "Mood logging failed:" error);;
  showErrorNotification (errorMessageFor (message error)).

(** The chart is drawn only where the page has the [moodChart] element. *)
Definition createMoodChart (labels : list string) (dataPoints : list JsValue) : M unit :=
  σ ← getState;
  if negb (moodChartElement (env σ)) then mret ()
  else
    (match chartInstance (this σ) with
     | Some _ => emit ChartDestroy
     | None => mret ()
     end);;
    emit (ChartCreate labels dataPoints);;
    modify (withThis (setChartInstance (Some (mkChart labels dataPoints)))).

(** [this.processHistoryData(history)] on what the request returned:
    [find] exists on arrays only. *)
Definition processHistory (history : Value) : M ChartData :=
  σ ← getState;
  match history with
  | VArray records => mret (processHistoryData (tz (env σ)) (clock σ) records)
  | VObject _ => throw (TypeError "history.find is not a function")
  | VNull => throw (TypeError "Cannot read properties of null (reading 'find')")
  | VUndefined => throw (TypeError "Cannot read properties of undefined (reading 'find')")
  end.

Definition fetchMoodHistory (forceRefresh : bool) : M ChartData :=
  let cacheKey := "mood_history" in
  cachedData ← (if negb forceRefresh then cacheGet cacheKey else mret None);
  match cachedData with
  | Some cachedData =>
      createMoodChart (labels cachedData) (dataPoints cachedData);;
      mret cachedData
  | None =>
      tryCatch
        (history ← ApiClient.retryRequest HISTORY_ENDPOINT noOptions RETRY_ATTEMPTS;
         chartData ← processHistory history;
         cacheSet cacheKey chartData;;
         createMoodChart (labels chartData) (dataPoints chartData);;
         mret chartData)
        (λ error,
           emit (ConsoleError "Failed to fetch mood history:" error);;
           showErrorNotification "Unable to load mood history. Please try again later.";;
           createMoodChart [] [];;
           throw error)
  end.

(** [mood.trim()]. *)
Definition trimMood (mood : MoodArg) : M string :=
  match mood with
  | MoodString s => mret (trim s)
  | NotAString _ => throw (TypeError "mood.trim is not a function")
  end.

(** [MOOD_MAPPINGS[mood]?.emoji || '']. *)
Definition emojiOf (mood : MoodArg) : string :=
  match getProperty (moodText mood) with
  | OwnProperty attrs => emoji attrs
  | Inherited _ | Undefined => ""
  end.

(** The [try], [catch] and [finally] blocks of [logMood]. *)
Definition logMood_try (mood : MoodArg) (value : string) : M Value :=
  trimmed ← trimMood mood;
  σ ← getState;
  let moodData :=
    {| mood := trimmed;
       numValue := parseInt value;
       timestamp := clock σ;
       userAgentInfo := userAgent (env σ);
       timezoneInfo := timeZone (env σ) |} in
  result ← ApiClient.retryRequest API_ENDPOINT
             (mkOptions (Some "POST") (Some moodData) None) RETRY_ATTEMPTS;
  updateMoodUI mood value;;
  cacheClear;;
  fetchMoodHistory false;;
  showSuccessNotification
    ("Mood logged successfully: " +:+ moodText mood +:+ " " +:+ emojiOf mood);;
  mret result.

Definition logMood_catch (mood : MoodArg) (value : string) (error : JsError) : M Value :=
  handleMoodLogError error mood value;;
  throw error.

Definition logMood_finally : M unit :=
  modify (withThis (setIsLoading false));;
  showLoadingState false.

Definition logMood (mood : MoodArg) (value : string) : M Value :=
  if negb (validateMoodInput mood value) then throw (Error "Invalid mood data provided")
  else
    σ ← getState;
    if isLoading (this σ) then
      throw (Error "Please wait for the previous mood entry to complete")
    else
      modify (withThis (setIsLoading true));;
      showLoadingState true;;
      tryFinally
        (tryCatch (logMood_try mood value) (logMood_catch mood value))
        logMood_finally.

(** The reverse lookup of the chart callbacks:
    [Object.keys(MOOD_MAPPINGS).find(key => MOOD_MAPPINGS[key].value === value)]. *)
Definition moodNameOf (value : Z) : option string :=
  fst <$> List.find (λ entry, bool_decide (moodValue entry.2 = value)) MOOD_MAPPINGS.

(** The [label] callback of the tooltip, on [context.parsed.y]; [None] is
    [null]. *)
Definition tooltipLabel (value : option Z) : string :=
  match value with
  | None => "No mood logged"
  | Some value =>
      default "Unknown" (moodNameOf value) +:+ " (" +:+ pretty value +:+ "/5)"
  end.

(** The [callback] of the ticks of the y axis: a text for the value of a
    mood, the value itself otherwise. *)
Definition tickLabel (value : Z) : string + Z :=
  match moodNameOf value with
  | Some moodName => inl (moodName +:+ " (" +:+ pretty value +:+ ")")
  | None => inr value
  end.

(** [destroy()]. *)
Definition destroy : M unit :=
  σ ← getState;
  (match chartInstance (this σ) with
   | Some _ =>
       emit ChartDestroy;;
       modify (withThis (setChartInstance None))
   | None => mret ()
   end);;
  cacheClear.
End MoodTracker.

(** A tracker as its constructor leaves it, and a state in which nothing
    has happened yet. *)
Definition newTracker (apiUrl : string) : Tracker :=
  mkTracker apiUrl ∅ false None.

Definition initialState (t : Tracker) (e : Env) (now : Z) : State :=
  mkState t e now 0 [] [].

(** ** The functions of the page *)

(** The global functions that replace the ones of the page; [moodTracker]
    is the tracker of the state. *)
Module Page.
Definition logMood (mood : MoodArg) (value : string) : M unit :=
  tryCatch
    (MoodTracker.logMood mood value;; mret ())
    (λ error, emit (ConsoleError "Mood logging error:" error)).

Definition fetchMoodHistory : M unit :=
  tryCatch
    (MoodTracker.fetchMoodHistory false;; mret ())
    (λ error, emit (ConsoleError "Mood history fetch error:" error)).

Definition createMoodChart (labels : list string) (dataPoints : list JsValue) : M unit :=
  MoodTracker.createMoodChart labels dataPoints.
End Page.

(** * The vocabulary of the properties

    What follows describes runs of the code above: the outcome of a
    request for a reply of the network, the events of a retry loop, the
    state after a call, and what every call preserves. *)

Import MOOD_CONFIG ApiClient MoodTracker.

(** A record is of the calendar day that starts at [day] when its date,
    truncated to local midnight, is [day]. *)
Definition onDay (tz : TimeZone) (day : Z) (h : HistoryRecord) : Prop :=
  ∃ t, date h = Some t ∧ setHours0 tz t = day.

(** The instant of the local midnight that starts the day number [d]. *)
Definition midnightOf (tz : TimeZone) (d : Z) : Z := utcOf tz (MakeDate d 0).

(** Every calendar day of the zone starts at midnight: no change of
    offset skips the local time 00:00. *)
Definition everyMidnightExists (tz : TimeZone) : Prop :=
  ∀ d, LocalTime tz (midnightOf tz d) = MakeDate d 0.

(** The date that [processHistoryData] starts from, truncated with
    [setHours(0, 0, 0, 0)], is the local midnight of today. *)
Definition todayAtMidnight (tz : TimeZone) (now : Z) : Prop :=
  LocalTime tz (setHours0 tz now) = MakeDate (Day (LocalTime tz now)) 0.

(** The error that [request] throws for a response that is not [ok]. *)
Definition errorOf (response : Response) : JsError :=
  let fallback :=
    Error ("HTTP " +:+ pretty (status response) +:+ ": " +:+ statusText response) in
  match json response with
  | Throw _ => fallback
  | Return VUndefined => TypeError "Cannot read properties of undefined (reading 'message')"
  | Return VNull => TypeError "Cannot read properties of null (reading 'message')"
  | Return (VArray _) => fallback
  | Return (VObject fields) =>
      if nonEmpty (assoc "message" fields) then Error (default "" (assoc "message" fields))
      else if nonEmpty (assoc "msg" fields) then Error (default "" (assoc "msg" fields))
      else fallback
  end.

(** What a call of [request] returns or throws when [fetch] gets [reply]. *)
Definition outcomeOf (reply : Reply) : Outcome Value :=
  match settled reply with
  | Throw e => Throw e
  | Return response => if ok response then json response else Throw (errorOf response)
  end.

Definition isThrow {A} (r : Outcome A) : Prop :=
  match r with Throw _ => True | Return _ => False end.

(** The [config] that [request] builds in the state [σ]. *)
Definition configFor (σ : State) (options : Options) : Config :=
  ApiClient.makeConfig
    (("Content-Type", "application/json") ::
     (if nonEmpty (token (env σ)) then [("x-auth-token", default "" (token (env σ)))] else []))
    options.

Definition urlFor (σ : State) (endpoint : string) : string :=
  baseUrl (this σ) +:+ endpoint.

(** The state after a call of [request] that got [reply]. *)
Definition afterRequest (endpoint : string) (options : Options) (reply : Reply)
    (σ : State) : State :=
  mkState (this σ) (env σ) (clock σ + Z.of_nat (latency reply)) (S (fetches σ))
    (trace σ ++ [Fetch (urlFor σ endpoint) (configFor σ options); Settled (settled reply)])
    (suspended σ ++ this σ :: match settled reply with
                              | Return _ => [this σ]
                              | Throw _ => []
                              end).

(** The events of [calls] attempts of a retry loop, the first with the
    loop index [i] and the reply number [f]: a fetch and its settlement
    for each attempt, and a wait between an attempt and the next. *)
Fixpoint loopEvents (url : string) (config : Config) (net : nat → Reply)
    (f i calls : nat) : list Event :=
  match calls with
  | O => []
  | S calls' =>
      Fetch url config :: Settled (settled (net f)) ::
      match calls' with
      | O => []
      | S _ => Delay (MOOD_CONFIG.RETRY_DELAY * (Z.of_nat i + 1))
               :: loopEvents url config net (S f) (S i) calls'
      end
  end.

(** The durations of the waits in a trace. *)
Definition delays (T : list Event) : list Z :=
  omap (λ e, match e with Delay ms => Some ms | _ => None end) T.

(** The events of a trace that are calls to the network or waits, and, of
    these, the fetches that go to [url]. *)
Definition netEvent (url : string) (e : Event) : Prop :=
  match e with
  | Fetch u _ => u = url
  | Settled _ | Delay _ => True
  | _ => False
  end.

Definition afterSleep (ms : Z) (σ : State) : State :=
  mkState (this σ) (env σ) (clock σ + ms) (fetches σ)
    (trace σ ++ [Delay ms]) (suspended σ ++ [this σ]).

(** What the attempt number [k] of a retry loop that starts in [σ]
    returns or throws. *)
Definition attempt (σ : State) (k : nat) : Outcome Value :=
  outcomeOf (network (env σ) (fetches σ + k)).

(** From [σ] to [σ'] the environment, the base URL and [isLoading] are
    unchanged, the trace has grown, and the tracker was suspended only
    with the same [isLoading]. *)
Definition frame (σ σ' : State) : Prop :=
  env σ' = env σ ∧
  baseUrl (this σ') = baseUrl (this σ) ∧
  isLoading (this σ') = isLoading (this σ) ∧
  (∃ T, trace σ' = trace σ ++ T) ∧
  (∃ S, suspended σ' = suspended σ ++ S ∧
        Forall (λ t, isLoading t = isLoading (this σ)) S).

(** A call that keeps the frame, from every state. *)
Definition Frames {A} (m : M A) : Prop := ∀ σ, frame σ (m σ).2.

(** The events of [createMoodChart(labels, dataPoints)] in the state [σ]. *)
Definition chartEvents (σ : State) (labels : list string) (dataPoints : list JsValue)
    : list Event :=
  if moodChartElement (env σ) then
    match chartInstance (this σ) with
    | Some _ => [ChartDestroy; ChartCreate labels dataPoints]
    | None => [ChartCreate labels dataPoints]
    end
  else [].

(** The event of [showNotification(msg, type)] in the state [σ]. *)
Definition notificationEvent (σ : State) (msg : string) (type : NotificationType) : Event :=
  if showNotificationDefined (env σ)
  then Notification msg type MOOD_CONFIG.NOTIFICATION_DURATION
  else ConsoleLog (MoodTracker.toUpperCase (typeName type) +:+ ": " +:+ msg).

(** An event of the network or of a timer. *)
Definition network_event (e : Event) : Prop :=
  match e with
  | Fetch _ _ | Settled _ | Delay _ => True
  | _ => False
  end.

Definition afterChart (labels : list string) (dataPoints : list JsValue) (σ : State) : State :=
  mkState
    (if moodChartElement (env σ)
     then setChartInstance (Some (mkChart labels dataPoints)) (this σ)
     else this σ)
    (env σ) (clock σ) (fetches σ)
    (trace σ ++ chartEvents σ labels dataPoints) (suspended σ).

Definition afterNotification (msg : string) (type : NotificationType) (σ : State) : State :=
  addEvent (notificationEvent σ msg type) σ.

Definition invalidMood : JsError := Error "Invalid mood data provided".
Definition inProgress : JsError :=
  Error "Please wait for the previous mood entry to complete".

(** The state in which the [try] block of [logMood] starts, and the
    state in which its [finally] block leaves the tracker. *)
Definition submitting (σ : State) : State :=
  addEvent (LoadingState true) (withThis (setIsLoading true) σ).

Definition settledDown (σ : State) : State :=
  addEvent (LoadingState false) (withThis (setIsLoading false) σ).

(** The options of the request that submits a mood in the state [σ]. *)
Definition postOptions (s value : string) (σ : State) : Options :=
  mkOptions (Some "POST")
    (Some {| mood := trim s;
             numValue := parseInt value;
             timestamp := clock σ;
             userAgentInfo := userAgent (env σ);
             timezoneInfo := timeZone (env σ) |})
    None.

Definition successText (mood : MoodArg) : string :=
  "Mood logged successfully: " +:+ moodText mood +:+ " " +:+ emojiOf mood.

(** The instant that the loop of [processHistoryData] compares the
    records with for the index [i]. *)
Definition loopDay (tz : TimeZone) (now : Z) (i : nat) : Z :=
  setDateBack tz (setHours0 tz now) i.

(** The events that a call has added to the trace. *)
Definition newEvents (σ σ' : State) : list Event :=
  drop (length (trace σ)) (trace σ').

(** The headers that [request] sends when its options bring none. *)
Definition defaultHeaders (σ : State) : list (string * string) :=
  ("Content-Type", "application/json") ::
  match token (env σ) with
  | Some t => if decide (t = "") then [] else [("x-auth-token", t)]
  | None => []
  end.

(** What the cache answers in the state [σ] for the key of the history. *)
Definition cached (σ : State) : option ChartData :=
  (MoodCache.get (clock σ) "mood_history" (cache (this σ))).1.

(** The state in which a call of [fetchMoodHistory] that is not forced
    and finds nothing in the cache turns to the network. *)
Definition afterMiss (σ : State) : State :=
  withThis (setCache (MoodCache.get (clock σ) "mood_history" (cache (this σ))).2)
    (addEvent (CacheGet "mood_history") σ).

(** What a refresh makes of the outcome of its request, in the state [σ]
    in which the request has settled. *)
Definition refreshed (σ : State) (r : Outcome Value) : Outcome ChartData :=
  match r with
  | Return history => (MoodTracker.processHistory history σ).1
  | Throw e => Throw e
  end.

Definition historyFailure : string :=
  "Unable to load mood history. Please try again later.".

(** The state in which a refresh ends, from the state [σ] in which its
    request has settled. *)
Definition afterRefresh (σ : State) (r : Outcome ChartData) : State :=
  match r with
  | Return series =>
      afterChart (labels series) (dataPoints series)
        (withThis
           (setCache (MoodCache.set (clock σ) "mood_history" series
                        MOOD_CONFIG.CACHE_DURATION (cache (this σ))))
           (addEvent (CacheSet "mood_history") σ))
  | Throw e =>
      afterChart [] []
        (afterNotification historyFailure ErrorType
           (addEvent (ConsoleError "Failed to fetch mood history:" e) σ))
  end.

(** The state in which [logMood] refreshes the history, from the state
    [σ] in which the submission has settled. *)
Definition afterSubmission (s : string) (σ : State) : State :=
  withThis (λ t, setCache (MoodCache.clear (cache t)) t)
    (addEvent CacheClear (addEvent (MoodUI (MoodString s)) σ)).

(** A call that keeps the invariant [I], whatever it returns or throws. *)
Definition Keeps {A} (I : State → Prop) (m : M A) : Prop :=
  ∀ σ, I σ → I (m σ).2.

(** The charts that a trace has created and not destroyed. *)
Fixpoint liveCharts (T : list Event) : Z :=
  match T with
  | [] => 0
  | ChartCreate _ _ :: T' => 1 + liveCharts T'
  | ChartDestroy :: T' => liveCharts T' - 1
  | _ :: T' => liveCharts T'
  end.

(** The tracker holds the one chart that is alive, if any. *)
Definition chartsBalanced (σ : State) : Prop :=
  liveCharts (trace σ) = match chartInstance (this σ) with Some _ => 1 | None => 0 end.

(** The cache holds no key but that of the history. *)
Definition cacheBounded (σ : State) : Prop :=
  dom (cache (this σ)) ⊆ ({["mood_history"]} : gset string).

(** ** Sample data *)

Definition okResponse (v : Value) : Response := mkResponse true 200 "OK" (Return v).

(** A network that fails twice (a 503 without a body, then a connection
    error), then accepts the mood, then serves one record of history. *)
Definition sampleNetwork (n : nat) : Reply :=
  match n with
  | 0%nat => mkReply (Return (mkResponse false 503 "Service Unavailable"
                                (Throw (mkError "SyntaxError" "Unexpected end of JSON input")))) 40
  | 1%nat => mkReply (Throw (TypeError "Failed to fetch")) 10
  | 2%nat => mkReply (Return (okResponse (VObject [("msg", "Mood saved")]))) 25
  | 3%nat => mkReply (Return (okResponse
                                (VArray [mkRecord (Some 1704844800000) (JsNumber 4)]))) 25
  | _ => mkReply (Throw (TypeError "Failed to fetch")) 10
  end.

Definition sampleEnv : Env :=
  mkEnv (fixedOffset 0) (Some "token") sampleNetwork true true "Mozilla/5.0" "UTC".

Definition offlineEnv : Env :=
  mkEnv (fixedOffset 0) None (λ _, mkReply (Throw (TypeError "Failed to fetch")) 10)
    true true "Mozilla/5.0" "UTC".

(** A new tracker on 2024-01-10 at 13:00 UTC, the same tracker while a
    call of [logMood] is suspended on its first request, and a tracker
    without a network. *)
Definition sampleState : State :=
  initialState (newTracker "http://localhost:5000") sampleEnv 1704891600000.

Definition busyState : State := withThis (setIsLoading true) sampleState.

Definition offlineState : State :=
  initialState (newTracker "http://localhost:5000") offlineEnv 1704891600000.

(** A tracker whose cache holds a series stored one minute ago. *)
Definition cachedSeries : ChartData :=
  processHistoryData (fixedOffset 0) 1704891540000 [mkRecord (Some 1704844800000) (JsNumber 4)].

Definition cachedState : State :=
  withThis (setCache (MoodCache.set 1704891540000 "mood_history" cachedSeries
                        MOOD_CONFIG.CACHE_DURATION ∅)) sampleState.

(** A zone that moves its clocks from 02:00 to 03:00 on 2024-03-10 (at
    07:00 UTC), from five to four hours behind UTC. *)
Definition springForward : TimeZone :=
  mkZone (λ t, if decide (t < 1710054000000) then -18000000 else -14400000)
         (λ l, if decide (l < 1710036000000) then l + 18000000 else l + 14400000).

(** A zone that moves its clocks from 00:00 to 01:00 on 2024-03-10 (at
    05:00 UTC): that day has no midnight, and the local time 00:00 is read
    with the offset before the change. *)
Definition skipsMidnight : TimeZone :=
  mkZone (λ t, if decide (t < 1710046800000) then -18000000 else -14400000)
         (λ l, if decide (l < 1710032400000) then l + 18000000 else l + 14400000).

(** A network that refuses the first request, with a message, and then
    serves one record of history. *)
Definition historyNetwork (n : nat) : Reply :=
  match n with
  | 0%nat => mkReply (Return (mkResponse false 429 "Too Many Requests"
                                (Return (VObject [("message", "Slow down")])))) 30
  | _ => mkReply (Return (okResponse
                            (VArray [mkRecord (Some 1704844800000) (JsNumber 4)]))) 25
  end.

Definition historyState : State :=
  initialState (newTracker "http://localhost:5000")
    (mkEnv (fixedOffset 0) (Some "token") historyNetwork true true "Mozilla/5.0" "UTC")
    1704891600000.

(** A network that accepts a mood and then fails. *)
Definition acceptingNetwork (n : nat) : Reply :=
  match n with
  | 0%nat => mkReply (Return (okResponse (VObject [("msg", "Mood saved")]))) 25
  | _ => mkReply (Throw (TypeError "Failed to fetch")) 10
  end.

Definition acceptingState : State :=
  initialState (newTracker "http://localhost:5000")
    (mkEnv (fixedOffset 0) (Some "token") acceptingNetwork true true "Mozilla/5.0" "UTC")
    1704891600000.

(** The sample tracker with a series that was stored an hour ago. *)
Definition staleState : State :=
  withThis (setCache (MoodCache.set 1704888000000 "mood_history" cachedSeries
                        MOOD_CONFIG.CACHE_DURATION ∅)) offlineState.

(** A network whose replies have the status 200 and a body that does not
    parse. *)
Definition garbledState : State :=
  initialState (newTracker "http://localhost:5000")
    (mkEnv (fixedOffset 0) (Some "token")
       (λ _, mkReply (Return (mkResponse true 200 "OK"
                                (Throw (mkError "SyntaxError"
                                          "Unexpected end of JSON input")))) 20)
       true true "Mozilla/5.0" "UTC")
    1704891600000.

(** * Properties *)

(** ** The history processor *)

Section history.
Context (tz : TimeZone).

Lemma find_first {A} (p : A → bool) (l : list A) (x : A) :
  List.find p l = Some x →
  ∃ pre post, l = pre ++ x :: post ∧ p x = true ∧ Forall (λ y, p y = false) pre.
Proof.
  induction l as [|a l IH]; simpl; [discriminate|].
  destruct (p a) eqn:Hpa.
  - intros [= ->]. exists [], l. split_and!; [done|done|constructor].
  - intros Hf. destruct (IH Hf) as (pre & post & -> & Hx & Hpre).
    exists (a :: pre), post. split_and!; [done|done|by constructor].
Qed.

Lemma find_none_all {A} (p : A → bool) (l : list A) :
  List.find p l = None → Forall (λ y, p y = false) l.
Proof.
  induction l as [|a l IH]; simpl; [constructor|].
  destruct (p a) eqn:Hpa; [discriminate|]. intros Hf. constructor; auto.
Qed.

Lemma sameDay_onDay day h : sameDay tz day h = true ↔ onDay tz day h.
Proof.
  unfold sameDay, onDay. destruct (date h) as [t|].
  - rewrite bool_decide_eq_true. split; [eauto|]. by intros (? & [= <-] & ?).
  - split; [done|]. by intros (? & ? & ?).
Qed.

Lemma sameDay_not_onDay day h : sameDay tz day h = false ↔ ¬ onDay tz day h.
Proof. rewrite <- sameDay_onDay. by destruct (sameDay tz day h). Qed.

Lemma Forall_sameDay_false day (l : list HistoryRecord) :
  Forall (λ h, sameDay tz day h = false) l → Forall (λ h, ¬ onDay tz day h) l.
Proof.
  intros Hall. eapply Forall_impl; [exact Hall|].
  intros h. by rewrite sameDay_not_onDay.
Qed.

(** The loop pushes the seven days from [i = 6] down to [i = 0]. *)
Lemma processHistoryData_unfold now history :
  processHistoryData tz now history =
  {| labels := (λ i, toLocaleDateString tz (setDateBack tz (setHours0 tz now) i))
                 <$> [6; 5; 4; 3; 2; 1; 0]%nat;
     dataPoints := (λ i, match List.find (sameDay tz (setDateBack tz (setHours0 tz now) i))
                                 history with
                         | Some e => value e
                         | None => JsNull
                         end) <$> [6; 5; 4; 3; 2; 1; 0]%nat;
     rawHistory := history |}.
Proof. reflexivity. Qed.

Lemma slots_lookup (k : nat) :
  (k < 7)%nat → [6; 5; 4; 3; 2; 1; 0]%nat !! k = Some (6 - k)%nat.
Proof. intros Hk. do 7 (destruct k as [|k]; [done|]). lia. Qed.

Lemma Day_MakeDate d : Day (MakeDate d 0) = d.
Proof.
  unfold Day, MakeDate. rewrite Z.add_0_r. apply Z.div_mul. unfold msPerDay. lia.
Qed.

Lemma TimeWithinDay_MakeDate d : TimeWithinDay (MakeDate d 0) = 0.
Proof. unfold TimeWithinDay, MakeDate. rewrite Z.add_0_r. apply Z_mod_mult. Qed.

Lemma setHours0_midnightOf t : setHours0 tz t = midnightOf tz (Day (LocalTime tz t)).
Proof. reflexivity. Qed.

Lemma everyMidnightExists_today now :
  everyMidnightExists tz → todayAtMidnight tz now.
Proof. intros Hmid. apply Hmid. Qed.

Lemma setDateBack_from_midnight m d (i : nat) :
  LocalTime tz m = MakeDate d 0 →
  setDateBack tz m i = midnightOf tz (d - Z.of_nat i).
Proof.
  intros Hm. unfold setDateBack. cbv zeta.
  by rewrite Hm, Day_MakeDate, TimeWithinDay_MakeDate.
Qed.

Lemma setDateBack_slot now (k : nat) :
  todayAtMidnight tz now → (k < 7)%nat →
  setDateBack tz (setHours0 tz now) (6 - k)
  = midnightOf tz (Day (LocalTime tz now) - (6 - Z.of_nat k)).
Proof.
  intros Hmid Hk. rewrite (setDateBack_from_midnight _ _ _ Hmid).
  by replace (Z.of_nat (6 - k)) with (6 - Z.of_nat k) by lia.
Qed.

(** Where the truncation of today is a local midnight, the series is
    the one that the specification describes: for every history,
    [processHistoryData] returns seven labels and seven values. Slot [k]
    (from 0 to 6) is the calendar day [6 - k] days before today, so the
    slots run from six days ago to today in chronological order; its
    label is the formatted date of the midnight of that day; its value
    is the value of the first record, in input order, whose date
    truncated to midnight is the midnight of that day, and [null] (not
    zero) when the history has no such record. With an empty history
    all seven values are [null]. *)
Theorem processHistoryData_week now history (k : nat) :
  todayAtMidnight tz now →
  (k < 7)%nat →
  let series := processHistoryData tz now history in
  let today := Day (LocalTime tz now) in
  let day := midnightOf tz (today - (6 - Z.of_nat k)) in
  length (labels series) = 7%nat ∧
  length (dataPoints series) = 7%nat ∧
  labels series !! k = Some (toLocaleDateString tz day) ∧
  ((∃ before e after,
       history = before ++ e :: after ∧
       onDay tz day e ∧
       Forall (λ h, ¬ onDay tz day h) before ∧
       dataPoints series !! k = Some (value e))
   ∨ (Forall (λ h, ¬ onDay tz day h) history ∧
      dataPoints series !! k = Some JsNull)) ∧
  length (labels (processHistoryData tz now [])) = 7%nat ∧
  dataPoints (processHistoryData tz now []) = replicate 7 JsNull ∧
  JsNull ≠ JsNumber 0.
Proof.
  intros Hmid Hk series today day. subst series.
  rewrite processHistoryData_unfold. cbn [labels dataPoints].
  split_and!; [done|done| | |done|done|done].
  - rewrite list_lookup_fmap, (slots_lookup k Hk). cbn [fmap option_fmap option_map].
    by rewrite setDateBack_slot.
  - rewrite list_lookup_fmap, (slots_lookup k Hk). cbn [fmap option_fmap option_map].
    rewrite setDateBack_slot by done. fold today. fold day.
    destruct (List.find (sameDay tz day) history) as [e|] eqn:Hfind.
    + left. destruct (find_first _ _ _ Hfind) as (before & after & -> & He & Hbefore).
      exists before, e, after. split_and!; [done| |by apply Forall_sameDay_false|done].
      by apply sameDay_onDay.
    + right. split; [|done]. by apply Forall_sameDay_false, find_none_all.
Qed.

(** Where every day starts at midnight, the instant of a slot is in the
    day of the slot, and truncating it changes nothing. *)
Lemma midnightOf_day d :
  everyMidnightExists tz →
  Day (LocalTime tz (midnightOf tz d)) = d ∧
  setHours0 tz (midnightOf tz d) = midnightOf tz d.
Proof.
  intros Hmid. assert (Hday : Day (LocalTime tz (midnightOf tz d)) = d)
    by (by rewrite Hmid, Day_MakeDate).
  split; [done|]. by rewrite setHours0_midnightOf, Hday.
Qed.

(** C6. For a fixed today, running [processHistoryData] again on the
    [rawHistory] of its own output gives the same seven labels and the
    same seven values (and the same [rawHistory]). *)
Theorem processHistoryData_idempotent now now' history :
  Day (LocalTime tz now') = Day (LocalTime tz now) →
  let first := processHistoryData tz now history in
  let again := processHistoryData tz now' (rawHistory first) in
  labels again = labels first ∧
  dataPoints again = dataPoints first ∧
  rawHistory again = rawHistory first ∧
  length (labels again) = 7%nat ∧ length (dataPoints again) = 7%nat.
Proof.
  intros Htoday first again. subst first again.
  rewrite !processHistoryData_unfold. cbn [labels dataPoints rawHistory].
  by rewrite !setHours0_midnightOf, Htoday.
Qed.
End history.

Lemma fixedOffset_midnights offset : everyMidnightExists (fixedOffset offset).
Proof. intros d. unfold LocalTime, midnightOf. cbn. lia. Qed.

Lemma springForward_midnights : everyMidnightExists springForward.
Proof.
  intros d. unfold LocalTime, midnightOf, MakeDate, msPerDay. cbn.
  repeat case_decide; lia.
Qed.

(** Across the change of offset the seven slots still are the seven
    calendar days: today is March 10, a day of 23 hours, and the record of
    the evening of March 9 is shown in the slot of March 9. *)
Example series_across_spring_forward :
  processHistoryData springForward 1710100000000
    [mkRecord (Some 1710030000000) (JsNumber 3)] =
  {| labels := ["Mon, Mar 4"; "Tue, Mar 5"; "Wed, Mar 6"; "Thu, Mar 7";
                "Fri, Mar 8"; "Sat, Mar 9"; "Sun, Mar 10"];
     dataPoints := [JsNull; JsNull; JsNull; JsNull; JsNull; JsNumber 3; JsNull];
     rawHistory := [mkRecord (Some 1710030000000) (JsNumber 3)] |}.
Proof. vm_compute. reflexivity. Qed.

(** C1, where the code departs from it. Today is not given to
    [processHistoryData]: the function truncates the current time with
    [setHours(0, 0, 0, 0)], and where a change of offset skips midnight
    itself (as in Havana on 2024-03-10) the truncation is 01:00, not a
    midnight. On that day the dates of the six earlier slots keep the
    time 01:00, while the date of a record is truncated to the midnight
    of its own day, so that no record of these days is found: the slot
    labelled [Sat, Mar 9] shows [null] although the history has a record
    of Saturday, March 9, the first of that day in input order. *)
Theorem series_when_midnight_is_skipped :
  let tz := skipsMidnight in
  let now := 1710100000000 in
  let record := mkRecord (Some 1710010000000) (JsNumber 3) in
  let series := processHistoryData tz now [record] in
  let day := midnightOf tz (Day (LocalTime tz now) - 1) in
  ¬ todayAtMidnight tz now ∧
  LocalTime tz (setHours0 tz now) = MakeDate (Day (LocalTime tz now)) 3600000 ∧
  labels series !! 5%nat = Some (toLocaleDateString tz day) ∧
  toLocaleDateString tz day = "Sat, Mar 9" ∧
  onDay tz day record ∧
  dataPoints series !! 5%nat = Some JsNull ∧
  dataPoints series !! 5%nat ≠ Some (value record) ∧
  dataPoints series = replicate 7 JsNull.
Proof.
  cbv zeta. split_and!.
  - vm_compute. discriminate.
  - vm_compute. reflexivity.
  - vm_compute. reflexivity.
  - vm_compute. reflexivity.
  - exists 1710010000000. split; [reflexivity|]. vm_compute. reflexivity.
  - vm_compute. reflexivity.
  - vm_compute. discriminate.
  - vm_compute. reflexivity.
Qed.

(** The example of the specification: one record on 2024-01-10 and a
    today of 2024-01-10 give six absent slots, then the value 4. *)
Example series_of_one_record :
  processHistoryData (fixedOffset 0) 1704891600000 [mkRecord (Some 1704844800000) (JsNumber 4)] =
  {| labels := ["Thu, Jan 4"; "Fri, Jan 5"; "Sat, Jan 6"; "Sun, Jan 7";
                "Mon, Jan 8"; "Tue, Jan 9"; "Wed, Jan 10"];
     dataPoints := [JsNull; JsNull; JsNull; JsNull; JsNull; JsNull; JsNumber 4];
     rawHistory := [mkRecord (Some 1704844800000) (JsNumber 4)] |}.
Proof. vm_compute. reflexivity. Qed.

(** Of two records on the same calendar day, the first in input order is
    the one that is shown. *)
Example first_record_wins :
  dataPoints (processHistoryData (fixedOffset 0) 1704891600000
                [mkRecord (Some 1704850000000) (JsNumber 2);
                 mkRecord (Some 1704844800000) (JsNumber 4)]) =
  [JsNull; JsNull; JsNull; JsNull; JsNull; JsNull; JsNumber 2].
Proof. vm_compute. reflexivity. Qed.

Lemma processHistoryData_week_witness :
  todayAtMidnight (fixedOffset 0) 1704891600000 ∧ (6 < 7)%nat ∧
  labels (processHistoryData (fixedOffset 0) 1704891600000
            [mkRecord (Some 1704844800000) (JsNumber 4)]) !! 6%nat
  = Some (toLocaleDateString (fixedOffset 0)
            (midnightOf (fixedOffset 0)
               (Day (LocalTime (fixedOffset 0) 1704891600000) - (6 - Z.of_nat 6)))).
Proof.
  assert (Hmid : todayAtMidnight (fixedOffset 0) 1704891600000)
    by (vm_compute; reflexivity).
  split; [exact Hmid|]. split; [lia|].
  exact (proj1 (proj2 (proj2
    (processHistoryData_week (fixedOffset 0) 1704891600000
       [mkRecord (Some 1704844800000) (JsNumber 4)] 6 Hmid ltac:(lia))))).
Defined.

Lemma processHistoryData_idempotent_witness :
  labels (processHistoryData (fixedOffset 0) 1704891700000
            (rawHistory (processHistoryData (fixedOffset 0) 1704891600000
                           [mkRecord None JsNull])))
  = labels (processHistoryData (fixedOffset 0) 1704891600000 [mkRecord None JsNull]).
Proof.
  apply (processHistoryData_idempotent (fixedOffset 0) 1704891600000 1704891700000
           [mkRecord None JsNull]).
  vm_compute. reflexivity.
Defined.

(** ** The cache *)

Section cache.
Context {A : Type}.
Implicit Types (cache : gmap string (MoodCache.Item A)) (item : MoodCache.Item A).

Lemma get_absent cache key now :
  cache !! key = None → MoodCache.get now key cache = (None, cache).
Proof. intros Hkey. unfold MoodCache.get. by rewrite Hkey. Qed.

Lemma get_fresh cache key item now :
  cache !! key = Some item → ¬ now > MoodCache.expiry item →
  MoodCache.get now key cache = (Some (MoodCache.data item), cache).
Proof. intros Hkey Hnow. unfold MoodCache.get. rewrite Hkey. by case_decide. Qed.

Lemma get_expired cache key item now :
  cache !! key = Some item → now > MoodCache.expiry item →
  MoodCache.get now key cache = (None, delete key cache).
Proof. intros Hkey Hnow. unfold MoodCache.get. rewrite Hkey. by case_decide. Qed.

Lemma get_other cache key key' now :
  key ≠ key' → (MoodCache.get now key cache).2 !! key' = cache !! key'.
Proof.
  intros Hne. unfold MoodCache.get. destruct (cache !! key) as [item|]; [|done].
  case_decide; [|done]. by apply lookup_delete_ne.
Qed.

(** An entry stored at [t0] with a time to live [ttl] is served until
    [t0 + ttl] included, and dropped by the first [get] after that. *)
Lemma get_set cache key (payload : A) t0 ttl now :
  MoodCache.get now key (MoodCache.set t0 key payload ttl cache) =
  if decide (now > t0 + ttl) then (None, delete key cache)
  else (Some payload, MoodCache.set t0 key payload ttl cache).
Proof.
  unfold MoodCache.get, MoodCache.set. rewrite lookup_insert_eq. cbn.
  case_decide; [|done]. by rewrite delete_insert_eq.
Qed.

(** C3. When the cache has an entry for [key]: if the current time is
    not past the expiry of the entry, [get] returns its payload and
    leaves the cache as it is; if the time to live has elapsed, [get]
    returns [null] and deletes the entry, so that a [get] of the same key
    right after it, or at any later time, returns [null] as well. *)
Theorem get_returns_payload_until_expiry cache key item now :
  cache !! key = Some item →
  (now ≤ MoodCache.expiry item →
     MoodCache.get now key cache = (Some (MoodCache.data item), cache)) ∧
  (MoodCache.expiry item < now →
     MoodCache.get now key cache = (None, delete key cache) ∧
     delete key cache !! key = None ∧
     ∀ later, MoodCache.get later key (MoodCache.get now key cache).2
              = (None, delete key cache)).
Proof.
  intros Hkey. split.
  - intros Hnow. apply get_fresh; [done|lia].
  - intros Hnow. rewrite (get_expired cache key item now) by (done || lia).
    split_and!; [done|apply lookup_delete_eq|].
    intros later. apply get_absent, lookup_delete_eq.
Qed.
End cache.

Lemma get_returns_payload_until_expiry_witness :
  let cache : gmap string (MoodCache.Item Z) := MoodCache.set 1000 "mood_history" 7 300000 ∅ in
  cache !! "mood_history" = Some (MoodCache.mkItem 7 301000) ∧
  MoodCache.get 301000 "mood_history" cache = (Some 7, cache) ∧
  MoodCache.get 301001 "mood_history" cache = (None, delete "mood_history" cache).
Proof.
  intros cache.
  assert (Hkey : cache !! "mood_history" = Some (MoodCache.mkItem 7 301000))
    by (vm_compute; reflexivity).
  destruct (get_returns_payload_until_expiry cache "mood_history" _ 301000 Hkey) as [Hfresh _].
  destruct (get_returns_payload_until_expiry cache "mood_history" _ 301001 Hkey) as [_ Hexpired].
  split_and!; [exact Hkey|apply Hfresh; simpl; lia|apply Hexpired; simpl; lia].
Defined.

(** ** Validation *)

Lemma own_moods (s : string) :
  s ∈ (MOOD_MAPPINGS.*1) ↔ s = "Happy" ∨ s = "Good" ∨ s = "Okay" ∨ s = "Worried" ∨ s = "Sad".
Proof.
  cbn. rewrite !elem_of_cons, elem_of_nil. tauto.
Qed.

Lemma getProperty_own (s : string) :
  s ∈ (MOOD_MAPPINGS.*1) → ∃ attrs, getProperty s = OwnProperty attrs.
Proof.
  rewrite own_moods. intros [-> | [-> | [-> | [-> | ->]]]]; eexists; reflexivity.
Qed.

Lemma getProperty_Undefined (s : string) :
  getProperty s = Undefined ↔ (s ∉ (MOOD_MAPPINGS.*1)) ∧ (s ∉ ObjectPrototype).
Proof.
  split.
  - intros Hget. split.
    + intros [attrs Hown]%getProperty_own. congruence.
    + unfold getProperty in Hget. destruct (assoc s MOOD_MAPPINGS); [done|].
      by case_decide.
  - intros [Hown Hproto]. unfold getProperty.
    destruct (assoc s MOOD_MAPPINGS) as [attrs|] eqn:Hassoc.
    + exfalso. apply Hown, own_moods. cbn in Hassoc.
      repeat (case_decide; [naive_solver|]). done.
    + by case_decide.
Qed.

(** What [validateMoodInput] accepts: a non-empty string [s] for which
    [MOOD_MAPPINGS[s]] is truthy, with a value that parses to 1..5. *)
Lemma validateMoodInput_true mood value :
  validateMoodInput mood value = true ↔
  ∃ s n, mood = MoodString s ∧ s ≠ "" ∧ parseInt value = Some n ∧ 1 ≤ n ≤ 5 ∧
         truthy (getProperty s) = true.
Proof.
  unfold validateMoodInput. split.
  - destruct mood as [s|image]; [|done].
    destruct (decide (s = "")) as [Hs|Hs]; [done|].
    destruct (parseInt value) as [n|]; [|done].
    destruct (decide (n < 1 ∨ n > 5)) as [Hn|Hn]; [done|].
    destruct (truthy (getProperty s)) eqn:Ht; [|done].
    intros _. exists s, n. repeat split; auto; lia.
  - intros (s & n & Hmood & Hs & Hparse & Hn & Htruthy).
    rewrite Hmood, Hparse, Htruthy.
    destruct (decide (s = "")) as [Hs'|Hs']; [done|].
    destruct (decide (n < 1 ∨ n > 5)) as [Hn'|Hn']; [lia|done].
Qed.

(** ** The HTTP client *)

Lemma State_ext (σ σ' : State) :
  this σ = this σ' → env σ = env σ' → clock σ = clock σ' →
  fetches σ = fetches σ' → trace σ = trace σ' → suspended σ = suspended σ' →
  σ = σ'.
Proof. destruct σ, σ'. cbn. by intros -> -> -> -> -> ->. Qed.

(** Reads the fields of a state through the updates that built it, with
    the lists that grow in right-nested form. *)
Ltac state_simpl :=
  cbn [addEvent addSuspension elapse countFetch withThis
       setCache setIsLoading setChartInstance
       this env clock fetches trace suspended
       baseUrl cache isLoading chartInstance fst snd] in *;
  rewrite <- ?app_assoc; cbn [app].

(** Proves that a call runs to an outcome and a state, field by field. *)
Ltac run_eq :=
  apply (f_equal2 pair); [reflexivity|apply State_ext; state_simpl; reflexivity].

Section client.

Lemma request_run endpoint options σ :
  request endpoint options σ =
  (outcomeOf (network (env σ) (fetches σ)),
   afterRequest endpoint options (network (env σ) (fetches σ)) σ).
Proof.
  unfold request, outcomeOf, afterRequest, errorOf, fetch, responseJson, tryCatch,
    getField, emit, suspend, modify, getState, throw, urlFor, configFor.
  unfold mbind, M_bind, mret, M_ret. cbv beta iota zeta.
  destruct (settled (network (env σ) (fetches σ))) as [response|e];
    cbv beta iota; [|run_eq].
  destruct (ok response); cbv beta iota delta [negb].
  - destruct (json response); run_eq.
  - destruct (json response) as [[| |records|fields]|e]; cbv beta iota;
      [run_eq|run_eq|run_eq| |run_eq].
    destruct (nonEmpty (assoc "message" fields)); cbv beta iota; [run_eq|].
    destruct (nonEmpty (assoc "msg" fields)); run_eq.
Qed.

Lemma sleep_run ms σ : sleep ms σ = (Return (), afterSleep ms σ).
Proof.
  unfold sleep, emit, suspend, modify, afterSleep, mbind, M_bind.
  cbv beta iota. run_eq.
Qed.

Local Ltac loop_side :=
  first [ done | lia | by (intros ? ?; lia) | by (cbn; lia)
        | by (intros _; cbn; tauto)
        | (eexists; split; [reflexivity|]; destruct (settled _); repeat constructor) ].

Lemma retryLoop_run endpoint options attempts remaining :
  ∀ i σ,
    (i + remaining = attempts)%nat → (1 ≤ remaining)%nat →
    ∃ calls σ',
      retryLoop endpoint options attempts remaining i σ = (attempt σ (calls - 1), σ') ∧
      (1 ≤ calls ≤ remaining)%nat ∧
      (∀ k, (k < calls - 1)%nat → isThrow (attempt σ k)) ∧
      ((calls < remaining)%nat → ¬ isThrow (attempt σ (calls - 1))) ∧
      this σ' = this σ ∧ env σ' = env σ ∧
      fetches σ' = (fetches σ + calls)%nat ∧
      clock σ ≤ clock σ' ∧
      trace σ' = trace σ ++ loopEvents (urlFor σ endpoint) (configFor σ options)
                              (network (env σ)) (fetches σ) i calls ∧
      ∃ S, suspended σ' = suspended σ ++ S ∧ Forall (eq (this σ)) S.
Proof.
  induction remaining as [|remaining IH]; intros i σ Hi Hrem; [lia|].
  cbn [retryLoop]. unfold tryCatch. rewrite request_run.
  destruct (outcomeOf (network (env σ) (fetches σ))) as [v|e] eqn:Hout.
  - exists 1%nat, (afterRequest endpoint options (network (env σ) (fetches σ)) σ).
    unfold attempt. cbn [Nat.sub]. rewrite Nat.add_0_r, Hout.
    split_and!; loop_side.
  - destruct (decide (i = (attempts - 1)%nat)) as [Hlast|Hmore].
    + exists 1%nat, (afterRequest endpoint options (network (env σ) (fetches σ)) σ).
      unfold attempt, throw. cbn [Nat.sub]. rewrite Nat.add_0_r, Hout.
      split_and!; loop_side.
    + unfold mbind, M_bind. rewrite sleep_run.
      set (σ1 := afterRequest endpoint options (network (env σ) (fetches σ)) σ).
      set (σ2 := afterSleep (MOOD_CONFIG.RETRY_DELAY * (Z.of_nat i + 1)) σ1).
      destruct (IH (S i) σ2 ltac:(lia) ltac:(lia))
        as (calls & σ' & Hrun & Hcalls & Hfailed & Hearly & Hthis & Henv & Hfetches
            & Hclock & Htrace & S' & Hsusp & HS').
      assert (Hshift : ∀ k, attempt σ2 k = attempt σ (S k)).
      { intros k. unfold attempt. cbn. by rewrite Nat.add_succ_r. }
      exists (S calls), σ'. rewrite Hrun, Hshift.
      replace (S (calls - 1)) with (S calls - 1)%nat by lia.
      split_and!; try done; try lia.
      * intros [|k] Hk; [unfold attempt; by rewrite Nat.add_0_r, Hout|].
        rewrite <- Hshift. apply Hfailed. lia.
      * intros Hlt. replace (S calls - 1)%nat with (S (calls - 1)) by lia.
        rewrite <- Hshift. apply Hearly. lia.
      * rewrite Hfetches. cbn. lia.
      * etrans; [|exact Hclock]. cbn. unfold MOOD_CONFIG.RETRY_DELAY. lia.
      * rewrite Htrace. cbn [loopEvents]. destruct calls as [|calls']; [lia|].
        cbn [trace σ2 σ1 afterSleep afterRequest this env fetches].
        subst σ2 σ1. cbn [trace afterSleep afterRequest this env fetches urlFor configFor].
        rewrite <- !app_assoc. reflexivity.
      * eexists. split.
        { rewrite Hsusp. subst σ2 σ1. cbn [suspended afterSleep afterRequest this].
          rewrite <- !app_assoc. reflexivity. }
        apply Forall_app. split; [destruct (settled _); repeat constructor|].
        apply Forall_cons. split; [done|]. exact HS'.
Qed.

Lemma delays_cons e T :
  delays (e :: T) =
  match e with Delay ms => ms :: delays T | _ => delays T end.
Proof. by destruct e. Qed.

Lemma delays_loopEvents url config net calls :
  ∀ f i, delays (loopEvents url config net f i calls) =
         (λ k, MOOD_CONFIG.RETRY_DELAY * Z.of_nat k) <$> seq (S i) (calls - 1).
Proof.
  induction calls as [|calls IH]; intros f i; [done|].
  destruct calls as [|calls]; [done|].
  change (loopEvents url config net f i (S (S calls)))
    with (Fetch url config :: Settled (settled (net f))
          :: Delay (MOOD_CONFIG.RETRY_DELAY * (Z.of_nat i + 1))
          :: loopEvents url config net (S f) (S i) (S calls)).
  rewrite !delays_cons, (IH (S f) (S i)).
  cbn [Nat.sub seq fmap list_fmap]. rewrite Nat.sub_0_r.
  f_equal. f_equal. lia.
Qed.

Lemma netEvent_loopEvents url config net calls :
  ∀ f i, Forall (netEvent url) (loopEvents url config net f i calls).
Proof.
  induction calls as [|calls IH]; intros f i; [constructor|].
  cbn [loopEvents]. do 2 (constructor; [done|]).
  destruct calls; [constructor|]. constructor; [done|]. apply IH.
Qed.

Lemma loopEvents_head url config net f i calls :
  (1 ≤ calls)%nat →
  ∃ rest, loopEvents url config net f i calls = Fetch url config :: rest.
Proof. destruct calls as [|calls]; [lia|]. intros _. cbn [loopEvents]. eauto. Qed.

Lemma loopEvents_last url config net calls :
  ∀ f i, (1 ≤ calls)%nat →
    ∃ before, loopEvents url config net f i calls =
              before ++ [Settled (settled (net (f + (calls - 1))%nat))] ∧
              Forall (netEvent url) before.
Proof.
  induction calls as [|calls IH]; intros f i Hcalls; [lia|].
  destruct calls as [|calls].
  - exists [Fetch url config]. cbn [loopEvents Nat.sub]. rewrite Nat.add_0_r.
    split; [done|]. by repeat constructor.
  - destruct (IH (S f) (S i) ltac:(lia)) as (before & Hbefore & Hnet).
    exists (Fetch url config :: Settled (settled (net f))
            :: Delay (MOOD_CONFIG.RETRY_DELAY * (Z.of_nat i + 1)) :: before).
    change (loopEvents url config net f i (S (S calls)))
      with (Fetch url config :: Settled (settled (net f))
            :: Delay (MOOD_CONFIG.RETRY_DELAY * (Z.of_nat i + 1))
            :: loopEvents url config net (S f) (S i) (S calls)).
    rewrite Hbefore. split; [|by repeat constructor].
    by replace (f + (S (S calls) - 1))%nat with (S f + (S calls - 1))%nat by lia.
Qed.

Lemma outcomeOf_Return reply v :
  outcomeOf reply = Return v →
  ∃ response, settled reply = Return response ∧ ok response = true ∧
              json response = Return v.
Proof.
  unfold outcomeOf. destruct (settled reply) as [response|e]; [|done].
  destruct (ok response) eqn:Hok; [|done]. eauto.
Qed.

(** The outcome and the state of [retryRequest] with the configured
    number of attempts. *)
Lemma retryRequest_run endpoint options σ :
  ∃ calls σ',
    retryRequest endpoint options MOOD_CONFIG.RETRY_ATTEMPTS σ
      = (attempt σ (calls - 1), σ') ∧
    (1 ≤ calls)%nat ∧
    this σ' = this σ ∧ env σ' = env σ ∧
    fetches σ' = (fetches σ + calls)%nat ∧
    trace σ' = trace σ ++ loopEvents (urlFor σ endpoint) (configFor σ options)
                            (network (env σ)) (fetches σ) 0 calls.
Proof.
  destruct (retryLoop_run endpoint options 3 3 0 σ ltac:(lia) ltac:(lia))
    as (calls & σ' & Hrun & Hcalls & _ & _ & Hthis & Henv & Hfetches & _ & Htrace & _).
  exists calls, σ'. split_and!; [done|lia|done|done|done|done].
Qed.

(** C2. For every endpoint, options and number of attempts [n >= 1],
    [retryRequest] calls [request] at least once and at most [n] times
    (a call of [request] is one call of [fetch], by [request_run]). Its
    trace is one fetch per call with, after each failed call but the
    last one made, a wait of [RETRY_DELAY] times the number of the call
    (1000 ms after the first, 2000 ms after the second, and so on),
    whatever the failure is. Its result is that of the last call made,
    unchanged: the value of the first call that succeeds, if one does
    among the first [n], and else the error of call number [n]. *)
Theorem retryRequest_linear_backoff endpoint options (n : nat) σ :
  (1 ≤ n)%nat →
  let r := (retryRequest endpoint options n σ).1 in
  let σ' := (retryRequest endpoint options n σ).2 in
  let calls := (fetches σ' - fetches σ)%nat in
  let events := loopEvents (urlFor σ endpoint) (configFor σ options)
                  (network (env σ)) (fetches σ) 0 calls in
  (1 ≤ calls ≤ n)%nat ∧
  trace σ' = trace σ ++ events ∧
  delays events = (λ k, 1000 * Z.of_nat k) <$> seq 1 (calls - 1) ∧
  r = attempt σ (calls - 1) ∧
  (∀ k, (k < calls - 1)%nat → isThrow (attempt σ k)) ∧
  (∀ j v, (j < n)%nat → attempt σ j = Return v →
          (∀ k, (k < j)%nat → isThrow (attempt σ k)) →
          r = Return v ∧ calls = S j) ∧
  (∀ e, (∀ k, (k < n)%nat → isThrow (attempt σ k)) →
        attempt σ (n - 1) = Throw e →
        r = Throw e ∧ calls = n).
Proof.
  intros Hn r σ' calls events.
  destruct (retryLoop_run endpoint options n n 0 σ ltac:(lia) Hn)
    as (calls0 & σ0 & Hrun & Hcalls & Hfailed & Hearly & Hthis & Henv & Hfetches
        & Hclock & Htrace & _).
  assert (Hr : r = attempt σ (calls0 - 1)) by (subst r; unfold retryRequest; by rewrite Hrun).
  assert (Hσ : σ' = σ0) by (subst σ'; unfold retryRequest; by rewrite Hrun).
  assert (Hc : calls = calls0) by (subst calls; rewrite Hσ, Hfetches; lia).
  subst events. rewrite Hc, Hσ.
  split_and!; [lia|lia|done|apply delays_loopEvents|done|done| |].
  - intros j v Hj Hv Hbefore.
    assert (calls0 - 1 = j)%nat as Hlast.
    { destruct (Nat.lt_trichotomy (calls0 - 1) j) as [Hlt|[Heq|Hgt]]; [|done|].
      - exfalso. apply Hearly; [lia|]. by apply Hbefore.
      - exfalso. specialize (Hfailed j Hgt). by rewrite Hv in Hfailed. }
    split; [by rewrite Hr, Hlast|lia].
  - intros e Hall He.
    assert (calls0 = n) as Hlast.
    { destruct (decide (calls0 < n)%nat) as [Hlt|Hge]; [|lia].
      exfalso. apply (Hearly Hlt). apply Hall. lia. }
    split; [by rewrite Hr, Hlast|done].
Qed.
End client.

(** ** Calls of the tracker: what every call preserves *)

Global Instance frame_preorder : PreOrder frame.
Proof.
  split.
  - intros σ. split_and!; try done.
    + exists []. by rewrite app_nil_r.
    + exists []. split; [by rewrite app_nil_r|constructor].
  - intros σ1 σ2 σ3 (He1 & Hb1 & Hl1 & [T1 HT1] & S1 & HS1 & HF1)
                    (He2 & Hb2 & Hl2 & [T2 HT2] & S2 & HS2 & HF2).
    split_and!; try congruence.
    + exists (T1 ++ T2). by rewrite HT2, HT1, app_assoc.
    + exists (S1 ++ S2). split; [by rewrite HS2, HS1, app_assoc|].
      apply Forall_app. split; [done|].
      eapply Forall_impl; [exact HF2|]. intros t Ht. congruence.
Qed.

Section frames.
Context {A B : Type}.

Lemma Frames_ret (a : A) : Frames (mret a).
Proof. intros σ. reflexivity. Qed.

Lemma Frames_throw (e : JsError) : Frames (@throw A e).
Proof. intros σ. reflexivity. Qed.

Lemma Frames_bind (m : M A) (f : A → M B) :
  Frames m → (∀ a, Frames (f a)) → Frames (m ≫= f).
Proof.
  intros Hm Hf σ. unfold mbind, M_bind. specialize (Hm σ).
  destruct (m σ) as [[a|e] σ1]; cbn [snd] in *; [|done].
  etrans; [exact Hm|apply Hf].
Qed.

Lemma Frames_tryCatch (body : M A) (handler : JsError → M A) :
  Frames body → (∀ e, Frames (handler e)) → Frames (tryCatch body handler).
Proof.
  intros Hm Hf σ. unfold tryCatch. specialize (Hm σ).
  destruct (body σ) as [[a|e] σ1]; cbn [snd] in *; [done|].
  etrans; [exact Hm|apply Hf].
Qed.

Lemma Frames_modify (f : State → State) :
  (∀ σ, frame σ (f σ)) → Frames (modify f).
Proof. intros Hf σ. apply Hf. Qed.
End frames.

Lemma Frames_getState : Frames getState.
Proof. intros σ. reflexivity. Qed.

Lemma Frames_emit e : Frames (emit e).
Proof.
  intros σ. unfold emit, modify. cbn [snd]. split_and!; try done.
  - by exists [e].
  - exists []. split; [by rewrite app_nil_r|constructor].
Qed.

Lemma Frames_suspend : Frames suspend.
Proof.
  intros σ. unfold suspend, modify. cbn [snd]. split_and!; try done.
  - exists []. by rewrite app_nil_r.
  - exists [this σ]. split; [done|]. by constructor.
Qed.

Lemma frame_quiet (σ σ' : State) :
  env σ' = env σ → baseUrl (this σ') = baseUrl (this σ) →
  isLoading (this σ') = isLoading (this σ) →
  trace σ' = trace σ → suspended σ' = suspended σ →
  frame σ σ'.
Proof.
  intros He Hb Hl Ht Hs. split_and!; try done.
  - exists []. by rewrite app_nil_r.
  - exists []. split; [by rewrite app_nil_r|constructor].
Qed.

Lemma Frames_setCache (f : State → gmap string (MoodCache.Item ChartData)) :
  Frames (σ ← getState; modify (withThis (setCache (f σ)))).
Proof. intros σ. by apply frame_quiet. Qed.

Lemma Frames_retryRequest endpoint options (n : nat) :
  Frames (ApiClient.retryRequest endpoint options n).
Proof.
  intros σ. destruct n as [|n]; [reflexivity|].
  destruct (retryLoop_run endpoint options (S n) (S n) 0 σ ltac:(lia) ltac:(lia))
    as (calls & σ' & Hrun & _ & _ & _ & Hthis & Henv & _ & _ & Htrace & S' & Hsusp & HS').
  unfold ApiClient.retryRequest. rewrite Hrun. cbn [snd].
  split_and!; try congruence; [eauto|].
  exists S'. split; [done|]. eapply Forall_impl; [exact HS'|].
  by intros t <-.
Qed.

(** Decomposes a goal [Frames m] along the structure of [m]. *)
Ltac frames :=
  repeat first
    [ apply Frames_ret | apply Frames_throw | apply Frames_getState
    | apply Frames_emit | apply Frames_suspend | apply Frames_retryRequest
    | apply Frames_setCache
    | apply Frames_bind | apply Frames_tryCatch
    | progress intros
    | match goal with
      | |- Frames (match ?x with _ => _ end) => destruct x
      | |- Frames (if ?x then _ else _) => destruct x
      | |- Frames (let '(_, _) := ?x in _) => destruct x
      end ].

Section tracker.

Lemma Frames_cacheGet key : Frames (cacheGet key).
Proof.
  unfold cacheGet. apply Frames_bind; [apply Frames_emit|]. intros _.
  intros σ. unfold mbind, M_bind, getState.
  destruct (MoodCache.get (clock σ) key (cache (this σ))) as [result cache'].
  by apply frame_quiet.
Qed.

Lemma Frames_cacheSet key payload : Frames (cacheSet key payload).
Proof. unfold cacheSet. frames. Qed.

Lemma Frames_cacheClear : Frames cacheClear.
Proof.
  unfold cacheClear. apply Frames_bind; [apply Frames_emit|]. intros _.
  intros σ. by apply frame_quiet.
Qed.

Lemma Frames_showNotification msg type : Frames (showNotification msg type).
Proof. unfold showNotification. frames. Qed.

Lemma Frames_createMoodChart labels dataPoints :
  Frames (createMoodChart labels dataPoints).
Proof.
  unfold createMoodChart. frames.
Qed.

Lemma Frames_processHistory history : Frames (processHistory history).
Proof. unfold processHistory. frames. Qed.

Lemma Frames_handleMoodLogError e mood value :
  Frames (handleMoodLogError e mood value).
Proof.
  unfold handleMoodLogError, showErrorNotification. frames.
Qed.

Lemma Frames_fetchMoodHistory forceRefresh : Frames (fetchMoodHistory forceRefresh).
Proof.
  unfold fetchMoodHistory, showErrorNotification.
  apply Frames_bind; [destruct forceRefresh; [apply Frames_ret|apply Frames_cacheGet]|].
  intros [cachedData|]; [frames|].
  apply Frames_tryCatch; intros;
    repeat first
      [ apply Frames_retryRequest | apply Frames_processHistory
      | apply Frames_cacheSet | apply Frames_createMoodChart
      | apply Frames_showNotification | apply Frames_emit
      | apply Frames_ret | apply Frames_throw
      | apply Frames_bind | intro ].
Qed.
End tracker.

(** ** Calls of the tracker: what they do exactly *)

Section tracker_runs.

Lemma createMoodChart_run labels dataPoints σ :
  createMoodChart labels dataPoints σ = (Return (), afterChart labels dataPoints σ).
Proof.
  unfold createMoodChart, afterChart, chartEvents, emit, modify, getState, mbind, M_bind,
    mret, M_ret.
  cbv beta iota.
  destruct (moodChartElement (env σ)); cbv beta iota delta [negb].
  - destruct (chartInstance (this σ)); cbv beta iota; run_eq.
  - apply (f_equal2 pair); [reflexivity|].
    apply State_ext; state_simpl; try reflexivity. by rewrite app_nil_r.
Qed.

Lemma showNotification_run msg type σ :
  showNotification msg type σ = (Return (), afterNotification msg type σ).
Proof.
  unfold showNotification, afterNotification, notificationEvent, emit, modify, getState,
    mbind, M_bind.
  cbv beta iota. by destruct (showNotificationDefined (env σ)).
Qed.

Lemma cacheGet_run key σ :
  cacheGet key σ =
  (Return (MoodCache.get (clock σ) key (cache (this σ))).1,
   withThis (setCache (MoodCache.get (clock σ) key (cache (this σ))).2)
     (addEvent (CacheGet key) σ)).
Proof.
  unfold cacheGet, emit, modify, getState, mbind, M_bind, mret, M_ret.
  cbv beta iota. state_simpl.
  by destruct (MoodCache.get (clock σ) key (cache (this σ))).
Qed.

Lemma fetchMoodHistory_hit σ item :
  cache (this σ) !! "mood_history" = Some item →
  clock σ ≤ MoodCache.expiry item →
  fetchMoodHistory false σ =
  (Return (MoodCache.data item),
   afterChart (labels (MoodCache.data item)) (dataPoints (MoodCache.data item))
     (addEvent (CacheGet "mood_history") σ)).
Proof.
  intros Hkey Hfresh. unfold fetchMoodHistory, mbind, M_bind, mret, M_ret.
  cbv beta iota zeta delta [negb].
  rewrite cacheGet_run, (get_fresh _ _ item) by (done || lia).
  cbn [fst snd]. rewrite createMoodChart_run.
  apply (f_equal2 pair); [reflexivity|].
  unfold afterChart, chartEvents. apply State_ext; state_simpl; try reflexivity.
  destruct (moodChartElement (env σ)); [|by destruct (this σ)].
  reflexivity.
Qed.

(** C9. When [fetchMoodHistory] is called without [forceRefresh] and the
    cache holds, under ["mood_history"], a series that has not expired,
    the call hands the labels and the values of that series to
    [createMoodChart], and returns the series; it calls [fetch] not once,
    is never suspended, and leaves the cache as it was. *)
Theorem fetchMoodHistory_serves_cache σ item :
  cache (this σ) !! "mood_history" = Some item →
  clock σ ≤ MoodCache.expiry item →
  let series := MoodCache.data item in
  let r := (fetchMoodHistory false σ).1 in
  let σ' := (fetchMoodHistory false σ).2 in
  r = Return series ∧
  trace σ' = trace σ ++ CacheGet "mood_history"
               :: chartEvents σ (labels series) (dataPoints series) ∧
  Forall (λ e, ¬ network_event e) (chartEvents σ (labels series) (dataPoints series)) ∧
  (moodChartElement (env σ) = true →
     chartInstance (this σ') = Some (mkChart (labels series) (dataPoints series))) ∧
  fetches σ' = fetches σ ∧
  suspended σ' = suspended σ ∧
  cache (this σ') = cache (this σ).
Proof.
  intros Hkey Hfresh series r σ'. subst r σ'.
  rewrite (fetchMoodHistory_hit σ item Hkey Hfresh). fold series. cbn [fst snd].
  split_and!; [done| | | |done|done|].
  - unfold afterChart, chartEvents. state_simpl. reflexivity.
  - unfold chartEvents. destruct (moodChartElement (env σ)); [|constructor].
    destruct (chartInstance (this σ)); repeat constructor; by intros [].
  - intros Hel. unfold afterChart. state_simpl. by rewrite Hel.
  - unfold afterChart. state_simpl. by destruct (moodChartElement (env σ)).
Qed.

Lemma cacheSet_run key payload σ :
  cacheSet key payload σ =
  (Return (),
   withThis (setCache (MoodCache.set (clock σ) key payload CACHE_DURATION (cache (this σ))))
     (addEvent (CacheSet key) σ)).
Proof.
  unfold cacheSet, emit, modify, getState, mbind, M_bind. cbv beta iota.
  by state_simpl.
Qed.

(** A refresh of the history that finds nothing in the cache and
    succeeds: the requests to the history endpoint, then the cache and
    the chart. *)
Lemma fetchMoodHistory_miss_success σ series σ' :
  cache (this σ) !! "mood_history" = None →
  fetchMoodHistory false σ = (Return series, σ') →
  ∃ calls,
    (1 ≤ calls)%nat ∧
    trace σ' =
      trace σ ++ CacheGet "mood_history"
      :: loopEvents (urlFor σ HISTORY_ENDPOINT) (configFor σ noOptions)
           (network (env σ)) (fetches σ) 0 calls
      ++ CacheSet "mood_history"
      :: chartEvents σ (labels series) (dataPoints series).
Proof.
  intros Hmiss.
  unfold fetchMoodHistory, processHistory, showErrorNotification, tryCatch,
    emit, modify, getState, throw, mbind, M_bind, mret, M_ret.
  cbv beta iota zeta delta [negb].
  rewrite cacheGet_run, (get_absent _ _ _ Hmiss). cbn [fst snd].
  match goal with
  | |- context [ApiClient.retryRequest ?ep ?opts _ ?st] =>
      destruct (retryRequest_run ep opts st)
        as (calls & σ2 & Hrun & Hcalls & Hthis & Henv & Hfetches & Htrace)
  end.
  rewrite Hrun.
  destruct (attempt _ (calls - 1)) as [[| |records|fields]|e];
    try (rewrite showNotification_run, createMoodChart_run; discriminate).
  rewrite cacheSet_run, createMoodChart_run. intros [= <- <-].
  exists calls. split; [done|].
  unfold afterChart, chartEvents. state_simpl. rewrite Htrace, Hthis, Henv.
  unfold urlFor, configFor. state_simpl. reflexivity.
Qed.

(** *** [logMood] *)

Lemma logMood_invalid mood value σ :
  validateMoodInput mood value = false →
  logMood mood value σ = (Throw invalidMood, σ).
Proof. intros Hvalid. unfold logMood. by rewrite Hvalid. Qed.

Lemma logMood_busy mood value σ :
  validateMoodInput mood value = true → isLoading (this σ) = true →
  logMood mood value σ = (Throw inProgress, σ).
Proof.
  intros Hvalid Hbusy. unfold logMood, mbind, M_bind, getState.
  rewrite Hvalid. cbv beta iota delta [negb]. by rewrite Hbusy.
Qed.

Lemma logMood_started mood value σ :
  validateMoodInput mood value = true → isLoading (this σ) = false →
  logMood mood value σ =
  ((tryCatch (logMood_try mood value) (logMood_catch mood value) (submitting σ)).1,
   settledDown (tryCatch (logMood_try mood value) (logMood_catch mood value)
                  (submitting σ)).2).
Proof.
  intros Hvalid Hidle.
  unfold logMood, logMood_finally, showLoadingState, tryFinally, emit, modify, getState,
    mbind, M_bind, submitting, settledDown.
  rewrite Hvalid. cbv beta iota delta [negb]. rewrite Hidle. cbv beta iota.
  by destruct (tryCatch _ _ _).
Qed.

Lemma logMood_catch_run mood value e σ :
  logMood_catch mood value e σ =
  (Throw e,
   addEvent (notificationEvent σ (errorMessageFor (message e)) ErrorType)
     (addEvent (ConsoleError "Mood logging failed:" e) σ)).
Proof.
  unfold logMood_catch, handleMoodLogError, showErrorNotification, emit, modify, throw,
    mbind, M_bind.
  cbv beta iota. by rewrite showNotification_run.
Qed.

(** The trace of the [try] block: the requests that submit the mood
    and, when they succeed, the update of the page, the clearing of the
    cache and the refresh of the history. *)
Lemma logMood_try_trace s value σ :
  ∃ calls rest,
    (1 ≤ calls)%nat ∧
    env (logMood_try (MoodString s) value σ).2 = env σ ∧
    trace (logMood_try (MoodString s) value σ).2 =
      trace σ ++ loopEvents (urlFor σ API_ENDPOINT) (configFor σ (postOptions s value σ))
                   (network (env σ)) (fetches σ) 0 calls ++ rest ∧
    ∀ result,
      (logMood_try (MoodString s) value σ).1 = Return result →
      attempt σ (calls - 1) = Return result ∧
      ∃ refreshes series,
        (1 ≤ refreshes)%nat ∧
        rest = [MoodUI (MoodString s); CacheClear; CacheGet "mood_history"]
               ++ loopEvents (urlFor σ HISTORY_ENDPOINT) (configFor σ noOptions)
                    (network (env σ)) (fetches σ + calls) 0 refreshes
               ++ CacheSet "mood_history"
               :: chartEvents σ (labels series) (dataPoints series)
               ++ [notificationEvent σ (successText (MoodString s)) SuccessType].
Proof.
  unfold logMood_try, trimMood, updateMoodUI, cacheClear, showSuccessNotification,
    emit, modify, getState, mbind, M_bind, mret, M_ret.
  cbv beta iota zeta. fold (postOptions s value σ). fold (successText (MoodString s)).
  destruct (retryRequest_run API_ENDPOINT (postOptions s value σ) σ)
    as (calls & σ2 & Hrun & Hcalls & Hthis & Henv & Hfetches & Htrace).
  rewrite Hrun. exists calls.
  destruct (attempt σ (calls - 1)) as [result|e].
  2:{ exists []. cbn [fst snd]. rewrite app_nil_r. split_and!; done. }
  set (σ3 := withThis _ (addEvent CacheClear (addEvent _ σ2))).
  assert (Hmiss : cache (this σ3) !! "mood_history" = None) by apply lookup_empty.
  assert (Henv3 : env σ3 = env σ) by (subst σ3; state_simpl; done).
  assert (Hurl : ∀ endpoint, urlFor σ3 endpoint = urlFor σ endpoint).
  { intros endpoint. unfold urlFor. subst σ3. state_simpl. by rewrite Hthis. }
  assert (Hconfig : ∀ options, configFor σ3 options = configFor σ options).
  { intros options. unfold configFor. by rewrite Henv3. }
  assert (Hchart : ∀ l p, chartEvents σ3 l p = chartEvents σ l p).
  { intros l p. unfold chartEvents. rewrite Henv3. subst σ3. state_simpl.
    by rewrite Hthis. }
  assert (Hfetches3 : fetches σ3 = (fetches σ + calls)%nat) by (subst σ3; state_simpl; done).
  assert (Htrace3 : trace σ3 =
            trace σ ++ loopEvents (urlFor σ API_ENDPOINT) (configFor σ (postOptions s value σ))
                         (network (env σ)) (fetches σ) 0 calls
            ++ [MoodUI (MoodString s); CacheClear]).
  { subst σ3. state_simpl. rewrite Htrace, <- !app_assoc. reflexivity. }
  clearbody σ3.
  pose proof (Frames_fetchMoodHistory false σ3) as (Henv4 & _ & _ & [T4 HT4] & _).
  pose proof (fetchMoodHistory_miss_success σ3) as Hsuccess.
  destruct (fetchMoodHistory false σ3) as [[series|e] σ4]; cbn [fst snd] in *.
  - destruct (Hsuccess series σ4 Hmiss eq_refl) as (refreshes & Hrefreshes & Htrace4).
    rewrite Hurl, Hconfig, Hchart, Henv3, Hfetches3, Htrace3 in Htrace4.
    rewrite showNotification_run. cbn [fst snd].
    unfold afterNotification, notificationEvent. state_simpl.
    exists ([MoodUI (MoodString s); CacheClear; CacheGet "mood_history"]
            ++ loopEvents (urlFor σ HISTORY_ENDPOINT) (configFor σ noOptions)
                 (network (env σ)) (fetches σ + calls) 0 refreshes
            ++ CacheSet "mood_history"
            :: chartEvents σ (labels series) (dataPoints series)
            ++ [notificationEvent σ (successText (MoodString s)) SuccessType]).
    split_and!; [done|congruence| |].
    + rewrite Htrace4, Henv4, Henv3. unfold notificationEvent.
      rewrite <- !app_assoc. cbn [app]. rewrite <- !app_assoc. reflexivity.
    + intros result' [= <-]. split; [done|]. by exists refreshes, series.
  - exists (MoodUI (MoodString s) :: CacheClear :: T4).
    split_and!; [done|congruence| |done].
    rewrite HT4, Htrace3, <- !app_assoc. reflexivity.
Qed.

Lemma Frames_logMood_try mood value : Frames (logMood_try mood value).
Proof.
  unfold logMood_try, trimMood, updateMoodUI, showSuccessNotification.
  repeat first
    [ apply Frames_retryRequest | apply Frames_cacheClear
    | apply Frames_fetchMoodHistory | apply Frames_showNotification
    | apply Frames_emit | apply Frames_getState
    | apply Frames_ret | apply Frames_throw
    | match goal with |- Frames (match ?x with _ => _ end) => destruct x end
    | apply Frames_bind | intro ].
Qed.

Lemma Frames_logMood_catch mood value e : Frames (logMood_catch mood value e).
Proof. intros σ. rewrite logMood_catch_run. cbn [snd]. split_and!; try done.
  - eexists. state_simpl. reflexivity.
  - exists []. split; [by rewrite app_nil_r|constructor].
Qed.

(** While a call of [logMood] is suspended, [isLoading] is set. *)
Lemma logMood_suspended_loading mood value σ t :
  t ∈ drop (length (suspended σ)) (suspended (logMood mood value σ).2) →
  isLoading t = true.
Proof.
  destruct (validateMoodInput mood value) eqn:Hvalid.
  2:{ rewrite logMood_invalid by done. cbn [snd]. rewrite drop_all. by intros ?%elem_of_nil. }
  destruct (isLoading (this σ)) eqn:Hidle.
  { rewrite logMood_busy by done. cbn [snd]. rewrite drop_all. by intros ?%elem_of_nil. }
  rewrite logMood_started by done. cbn [snd].
  pose proof (Frames_tryCatch _ _ (Frames_logMood_try mood value)
                (Frames_logMood_catch mood value) (submitting σ))
    as (_ & _ & _ & _ & S & HS & Hall).
  unfold settledDown. state_simpl. rewrite HS. unfold submitting. state_simpl.
  rewrite drop_app_length. intros Ht.
  by apply (proj1 (Forall_forall _ _) Hall t Ht).
Qed.

(** C5, as the code has it. While a call of [logMood] is in flight, that
    is, at any of the points where it is suspended, a second call fails
    at once: with the error of the guard when its input passes the
    validation, and with the validation error when it does not. Either
    way the second call leaves the whole state as it found it: it makes
    no request, and the first call resumes from the fields, the trace and
    the network replies it would have found without the second call. *)
Theorem logMood_rejected_while_in_flight mood1 value1 σ0 mood2 value2 σ :
  this σ ∈ drop (length (suspended σ0)) (suspended (logMood mood1 value1 σ0).2) →
  logMood mood2 value2 σ =
  (Throw (if validateMoodInput mood2 value2 then inProgress else invalidMood), σ).
Proof.
  intros Hflight%logMood_suspended_loading.
  destruct (validateMoodInput mood2 value2) eqn:Hvalid.
  - by apply logMood_busy.
  - by apply logMood_invalid.
Qed.

Lemma append_inj_r (s a b : string) : s +:+ a = s +:+ b → a = b.
Proof. induction s as [|c s IH]; cbn; [done|]. intros [= H]. by apply IH. Qed.

Lemma quiet_chartEvents σ l p :
  Forall (λ e, ¬ network_event e ∧ e ≠ CacheClear) (chartEvents σ l p).
Proof.
  unfold chartEvents. destruct (moodChartElement (env σ)); [|constructor].
  destruct (chartInstance (this σ));
    repeat (constructor; [split; [by intros []|done]|]); constructor.
Qed.

Lemma quiet_notificationEvent σ msg type :
  ¬ network_event (notificationEvent σ msg type) ∧ notificationEvent σ msg type ≠ CacheClear.
Proof.
  unfold notificationEvent.
  destruct (showNotificationDefined (env σ)); (split; [by intros []|done]).
Qed.

(** A call that passes the validation and the guard submits the mood: the
    first thing it does after showing the loading state is the request. *)
Lemma logMood_submits s value σ :
  validateMoodInput (MoodString s) value = true →
  isLoading (this σ) = false →
  ∃ rest,
    trace (logMood (MoodString s) value σ).2 =
      trace σ ++ LoadingState true
      :: Fetch (urlFor σ API_ENDPOINT) (configFor σ (postOptions s value σ))
      :: rest.
Proof.
  intros Hvalid Hidle. rewrite logMood_started by done. cbn [snd].
  destruct (logMood_try_trace s value (submitting σ))
    as (calls & rest & Hcalls & _ & Htrace & _).
  destruct (loopEvents_head (urlFor (submitting σ) API_ENDPOINT)
              (configFor (submitting σ) (postOptions s value (submitting σ)))
              (network (env (submitting σ))) (fetches (submitting σ)) 0 calls Hcalls)
    as [more Hhead].
  rewrite Hhead in Htrace. unfold tryCatch.
  destruct (logMood_try (MoodString s) value (submitting σ)) as [[v|e] σ2];
    cbn [snd] in Htrace.
  - exists (more ++ rest ++ [LoadingState false]).
    unfold settledDown. state_simpl. rewrite Htrace. unfold submitting. state_simpl.
    reflexivity.
  - rewrite logMood_catch_run. cbn [snd]. eexists.
    unfold settledDown. state_simpl. rewrite Htrace. unfold submitting. state_simpl.
    reflexivity.
Qed.

(** C8. In every call of [logMood] that succeeds, the last request of
    the submission has settled, with a response that is [ok], before the
    cache is cleared, and the cache is cleared before the first request
    of the refresh of the history is issued: the trace of the call is the
    requests to the mood endpoint, then the update of the page and the
    clearing of the cache, then the requests to the history endpoint, and
    after these no request at all. *)
Theorem logMood_submits_clears_then_refreshes mood value σ result :
  (logMood mood value σ).1 = Return result →
  ∃ posts submission gets tail,
    trace (logMood mood value σ).2 =
      trace σ ++ LoadingState true :: posts ++ Settled (Return submission)
      :: MoodUI mood :: CacheClear :: CacheGet "mood_history" :: gets ++ tail ∧
    Forall (netEvent (urlFor σ API_ENDPOINT)) posts ∧
    ok submission = true ∧
    json submission = Return result ∧
    (∃ config rest, gets = Fetch (urlFor σ HISTORY_ENDPOINT) config :: rest) ∧
    Forall (netEvent (urlFor σ HISTORY_ENDPOINT)) gets ∧
    Forall (λ e, ¬ network_event e ∧ e ≠ CacheClear) tail ∧
    urlFor σ API_ENDPOINT ≠ urlFor σ HISTORY_ENDPOINT.
Proof.
  destruct (validateMoodInput mood value) eqn:Hvalid;
    [|by rewrite logMood_invalid].
  destruct (isLoading (this σ)) eqn:Hidle; [by rewrite logMood_busy|].
  rewrite logMood_started by done. cbn [fst snd].
  destruct (proj1 (validateMoodInput_true _ _) Hvalid) as (s & n & -> & _).
  destruct (logMood_try_trace s value (submitting σ))
    as (calls & rest & Hcalls & _ & Htrace & Hsuccess).
  unfold tryCatch.
  destruct (logMood_try (MoodString s) value (submitting σ)) as [[v|e] σ2];
    cbn [fst snd] in *; [|by rewrite logMood_catch_run].
  intros [= ->].
  destruct (Hsuccess result eq_refl) as (Hattempt & refreshes & series & Hrefreshes & ->).
  destruct (outcomeOf_Return _ _ Hattempt) as (submission & Hsettled & Hok & Hjson).
  change (env (submitting σ)) with (env σ) in Hsettled.
  change (fetches (submitting σ)) with (fetches σ) in Hsettled.
  destruct (loopEvents_last (urlFor σ API_ENDPOINT)
              (configFor σ (postOptions s value σ)) (network (env σ)) calls
              (fetches σ) 0 Hcalls) as (posts & Hposts & Hnet).
  destruct (loopEvents_head (urlFor σ HISTORY_ENDPOINT) (configFor σ noOptions)
              (network (env σ)) (fetches σ + calls) 0 refreshes Hrefreshes)
    as [more Hhead].
  exists posts, submission,
    (loopEvents (urlFor σ HISTORY_ENDPOINT) (configFor σ noOptions)
       (network (env σ)) (fetches σ + calls) 0 refreshes),
    (CacheSet "mood_history" :: chartEvents σ (labels series) (dataPoints series)
     ++ [notificationEvent σ (successText (MoodString s)) SuccessType;
         LoadingState false]).
  split_and!; [|done|done|done|by eauto|apply netEvent_loopEvents| |].
  - unfold settledDown. state_simpl. rewrite Htrace.
    change (urlFor (submitting σ) API_ENDPOINT) with (urlFor σ API_ENDPOINT).
    change (configFor (submitting σ) (postOptions s value (submitting σ)))
      with (configFor σ (postOptions s value σ)).
    change (env (submitting σ)) with (env σ).
    change (fetches (submitting σ)) with (fetches σ).
    change (urlFor (submitting σ) HISTORY_ENDPOINT) with (urlFor σ HISTORY_ENDPOINT).
    change (configFor (submitting σ) noOptions) with (configFor σ noOptions).
    change (chartEvents (submitting σ)) with (chartEvents σ).
    change (notificationEvent (submitting σ)) with (notificationEvent σ).
    rewrite Hposts, Hsettled. unfold submitting. state_simpl.
    rewrite <- ?app_assoc. cbn [app]. rewrite <- ?app_assoc. reflexivity.
  - constructor; [split; [by intros []|done]|].
    apply Forall_app. split; [apply quiet_chartEvents|].
    constructor; [apply quiet_notificationEvent|].
    constructor; [split; [by intros []|done]|constructor].
  - unfold urlFor. by intros ?%append_inj_r.
Qed.
End tracker_runs.

(** ** Validation and submission *)

Lemma validateMoodInput_rejects_value mood value :
  (parseInt value = None ∨ ∃ n, parseInt value = Some n ∧ (n < 1 ∨ 5 < n)) →
  validateMoodInput mood value = false.
Proof.
  intros Hvalue. destruct (validateMoodInput mood value) eqn:Hvalid; [|done].
  apply validateMoodInput_true in Hvalid as (s & n & _ & _ & Hparse & Hn & _).
  destruct Hvalue as [Hnan|(n' & Hparse' & Hn')]; [congruence|].
  rewrite Hparse in Hparse'. injection Hparse' as <-. lia.
Qed.

Lemma validateMoodInput_rejects_mood mood value :
  (∀ s, mood = MoodString s → (s ∉ (MOOD_MAPPINGS.*1)) ∧ (s ∉ ObjectPrototype)) →
  validateMoodInput mood value = false.
Proof.
  intros Hmood. destruct (validateMoodInput mood value) eqn:Hvalid; [|done].
  apply validateMoodInput_true in Hvalid as (s & n & -> & _ & _ & _ & Htruthy).
  specialize (Hmood s eq_refl). apply getProperty_Undefined in Hmood.
  by rewrite Hmood in Htruthy.
Qed.

(** The names that every object inherits pass the test of the table. *)
Lemma validateMoodInput_accepts_inherited (s value : string) (n : Z) :
  s ∈ ObjectPrototype → parseInt value = Some n → 1 ≤ n ≤ 5 →
  validateMoodInput (MoodString s) value = true.
Proof.
  intros Hproto Hparse Hn. apply validateMoodInput_true. exists s, n.
  assert (Htruthy : truthy (getProperty s) = true).
  { unfold getProperty. destruct (assoc s MOOD_MAPPINGS); [done|].
    by destruct (decide (s ∈ ObjectPrototype)). }
  split_and!; [done| |done|lia|lia|done].
  intros ->. revert Hproto. unfold ObjectPrototype.
  rewrite !elem_of_cons, elem_of_nil. intros H.
  repeat (destruct H as [H|H]; [discriminate|]). done.
Qed.

(** A call that fails the validation has done nothing at all: no request
    and no event, whatever state the tracker is in. *)
Lemma logMood_rejected_input mood value σ :
  validateMoodInput mood value = false →
  MoodTracker.logMood mood value σ = (Throw invalidMood, σ).
Proof. apply logMood_invalid. Qed.

(** C10. [validateMoodInput] does not compare the value with the one the
    table gives for the mood: for every mood of the table and every value
    that parses to an integer from 1 to 5, the validation succeeds, and a
    tracker that is not loading goes on to submit the mood with that
    value. *)
Theorem validateMoodInput_accepts_any_value_in_range (s value : string) (n : Z) :
  s ∈ (MOOD_MAPPINGS.*1) →
  parseInt value = Some n →
  1 ≤ n ≤ 5 →
  validateMoodInput (MoodString s) value = true ∧
  ∀ σ, isLoading (this σ) = false →
       ∃ rest,
         trace (MoodTracker.logMood (MoodString s) value σ).2 =
           trace σ ++ LoadingState true
           :: Fetch (urlFor σ MOOD_CONFIG.API_ENDPOINT) (configFor σ (postOptions s value σ))
           :: rest.
Proof.
  intros Hown Hparse Hn.
  assert (Hvalid : validateMoodInput (MoodString s) value = true).
  { apply validateMoodInput_true. exists s, n.
    destruct (getProperty_own s Hown) as [attrs Hattrs].
    split_and!; [done| |done|lia|lia|by rewrite Hattrs].
    apply own_moods in Hown. by destruct Hown as [-> | [-> | [-> | [-> | ->]]]]. }
  split; [done|]. intros σ Hidle. by apply logMood_submits.
Qed.

(** ** The properties on the sample data *)

(** The scenario of the specification: two failed attempts, then a
    success, make three calls with waits of 1000 ms and 2000 ms. *)
Example retryRequest_third_attempt :
  let '(r, σ') := ApiClient.retryRequest "/api/mood" noOptions 3 sampleState in
  r = Return (VObject [("msg", "Mood saved")]) ∧
  fetches σ' = 3%nat ∧
  delays (trace σ') = [1000; 2000].
Proof. vm_compute. done. Qed.

Lemma retryRequest_linear_backoff_witness :
  (1 ≤ 3)%nat ∧
  let σ' := (ApiClient.retryRequest "/api/mood" noOptions 3 sampleState).2 in
  (1 ≤ fetches σ' - fetches sampleState ≤ 3)%nat.
Proof.
  split; [lia|].
  exact (proj1 (retryRequest_linear_backoff "/api/mood" noOptions 3 sampleState ltac:(lia))).
Defined.

Lemma fetchMoodHistory_serves_cache_witness :
  (MoodTracker.fetchMoodHistory false cachedState).1 = Return cachedSeries.
Proof.
  apply (fetchMoodHistory_serves_cache cachedState
           (MoodCache.mkItem cachedSeries (1704891540000 + MOOD_CONFIG.CACHE_DURATION))).
  - vm_compute. reflexivity.
  - vm_compute. discriminate.
Defined.

(** C4, where the code departs from it: ["constructor"] is no mood of the
    table, yet [MOOD_MAPPINGS["constructor"]] is the constructor that every
    object inherits, which is truthy; the validation accepts it and
    [logMood] sends it to the server. *)
Theorem logMood_submits_inherited_property_name :
  ("constructor" ∉ (MOOD_MAPPINGS.*1)) ∧
  validateMoodInput (MoodString "constructor") "3" = true ∧
  let σ' := (MoodTracker.logMood (MoodString "constructor") "3" sampleState).2 in
  fetches σ' = 4%nat ∧
  ∃ config data rest,
    trace σ' = LoadingState true :: Fetch "http://localhost:5000/api/mood" config :: rest ∧
    configMethod config = Some "POST" ∧
    configBody config = Some data ∧
    mood data = "constructor" ∧ numValue data = Some 3.
Proof.
  split; [|split; [reflexivity|]].
  - rewrite own_moods. intros [H | [H | [H | [H | H]]]]; discriminate.
  - intros σ'. split; [vm_compute; reflexivity|].
    subst σ'. vm_compute. do 3 eexists. split_and!; reflexivity.
Qed.

Lemma logMood_rejected_while_in_flight_witness :
  MoodTracker.logMood (MoodString "Sad") "1" busyState = (Throw inProgress, busyState).
Proof.
  apply (logMood_rejected_while_in_flight (MoodString "Happy") "5" sampleState
           (MoodString "Sad") "1" busyState).
  vm_compute. apply list_elem_of_here.
Defined.

(** C5 as it is stated fails for a second call with an input that does
    not pass the validation: while the first call is suspended, the second
    one fails with the validation error, not with the error of the
    guard. *)
Lemma second_call_with_invalid_input :
  this busyState ∈ drop (length (suspended sampleState))
                     (suspended (MoodTracker.logMood (MoodString "Happy") "5" sampleState).2) ∧
  (MoodTracker.logMood (MoodString "Bogus") "3" busyState).1 = Throw invalidMood ∧
  (MoodTracker.logMood (MoodString "Bogus") "3" busyState).1 ≠ Throw inProgress.
Proof.
  split_and!.
  - vm_compute. apply list_elem_of_here.
  - reflexivity.
  - discriminate.
Qed.

(** C7 as it is stated fails for the errors of the validation and of the
    guard: they are thrown before the [try] block, and the caller gets
    them without any notification, indeed without any event at all. *)
Lemma validation_and_guard_errors_are_not_notified :
  MoodTracker.logMood (MoodString "Bogus") "3" sampleState = (Throw invalidMood, sampleState) ∧
  trace sampleState = [] ∧
  MoodTracker.logMood (MoodString "Happy") "5" busyState = (Throw inProgress, busyState) ∧
  trace busyState = [].
Proof. split_and!; reflexivity. Qed.

Lemma logMood_submits_clears_then_refreshes_witness :
  ∃ posts submission gets tail,
    trace (MoodTracker.logMood (MoodString "Happy") "5" sampleState).2 =
      trace sampleState ++ LoadingState true :: posts ++ Settled (Return submission)
      :: MoodUI (MoodString "Happy") :: CacheClear :: CacheGet "mood_history"
      :: gets ++ tail ∧
    Forall (netEvent (urlFor sampleState MOOD_CONFIG.API_ENDPOINT)) posts ∧
    ok submission = true ∧
    json submission = Return (VObject [("msg", "Mood saved")]) ∧
    (∃ config rest, gets = Fetch (urlFor sampleState MOOD_CONFIG.HISTORY_ENDPOINT) config :: rest) ∧
    Forall (netEvent (urlFor sampleState MOOD_CONFIG.HISTORY_ENDPOINT)) gets ∧
    Forall (λ e, ¬ network_event e ∧ e ≠ CacheClear) tail ∧
    urlFor sampleState MOOD_CONFIG.API_ENDPOINT ≠ urlFor sampleState MOOD_CONFIG.HISTORY_ENDPOINT.
Proof.
  apply (logMood_submits_clears_then_refreshes (MoodString "Happy") "5" sampleState
           (VObject [("msg", "Mood saved")])).
  vm_compute. reflexivity.
Defined.

(** The example of C10: ['Happy'] has the value 5 in the table, and
    [logMood('Happy', 1)] passes the validation all the same. *)
Lemma validateMoodInput_accepts_any_value_in_range_witness :
  assoc "Happy" MOOD_MAPPINGS = Some (mkMood 5 "😊" "#10B981") ∧
  validateMoodInput (MoodString "Happy") "1" = true.
Proof.
  split; [reflexivity|].
  apply (validateMoodInput_accepts_any_value_in_range "Happy" "1" 1).
  - simpl. apply list_elem_of_here.
  - reflexivity.
  - lia.
Defined.

(** The call of the example goes on to post the mood with the value 1. *)
Example logMood_Happy_1_is_submitted :
  ∃ config data rest,
    trace (MoodTracker.logMood (MoodString "Happy") "1" sampleState).2 =
      LoadingState true :: Fetch "http://localhost:5000/api/mood" config :: rest ∧
    configBody config = Some data ∧
    mood data = "Happy" ∧ numValue data = Some 1.
Proof. vm_compute. do 3 eexists. split_and!; reflexivity. Qed.

(** * Further properties *)

(** ** The cache: storing, reading and their frame *)

Section cache_more.
Context {A : Type}.
Implicit Types (cache : gmap string (MoodCache.Item A)).

(** X1. A payload stored by [set] at the time [t0] with the time to live
    [ttl] is what [get] returns for its key until [t0 + ttl] included,
    whatever the cache held under the key before; after [t0 + ttl] the
    first [get] returns [null] and leaves the cache without the key. A
    second [set] of the key replaces the first payload and its expiry. *)
Theorem set_then_get cache key (first second : A) t0 t1 ttl0 ttl1 now :
  MoodCache.get now key (MoodCache.set t0 key first ttl0 cache) =
    (if decide (now > t0 + ttl0) then (None, delete key cache)
     else (Some first, MoodCache.set t0 key first ttl0 cache)) ∧
  MoodCache.set t1 key second ttl1 (MoodCache.set t0 key first ttl0 cache) =
    MoodCache.set t1 key second ttl1 cache ∧
  MoodCache.get now key
    (MoodCache.set t1 key second ttl1 (MoodCache.set t0 key first ttl0 cache)) =
    (if decide (now > t1 + ttl1) then (None, delete key cache)
     else (Some second, MoodCache.set t1 key second ttl1 cache)).
Proof.
  assert (Hagain : MoodCache.set t1 key second ttl1 (MoodCache.set t0 key first ttl0 cache)
                   = MoodCache.set t1 key second ttl1 cache)
    by apply insert_insert_eq.
  split_and!; [apply get_set|done|]. rewrite Hagain. apply get_set.
Qed.

(** X2. [get] never adds an entry and never touches the entry of another
    key: every lookup in the cache it leaves is the lookup in the cache
    it found, but for the key it was asked, when it answered [null]. And
    [set] changes the entry of its own key only. *)
Theorem get_and_set_leave_other_keys cache key key' (payload : A) t0 ttl now :
  ((MoodCache.get now key cache).2 !! key' = cache !! key'
   ∨ (key' = key ∧ (MoodCache.get now key cache).1 = None ∧
      (MoodCache.get now key cache).2 !! key' = None)) ∧
  dom (MoodCache.get now key cache).2 ⊆ dom cache ∧
  (MoodCache.set t0 key payload ttl cache !! key' = cache !! key' ∨ key' = key).
Proof.
  split_and!.
  - unfold MoodCache.get. destruct (cache !! key) as [item|] eqn:Hkey; [|by left].
    case_decide; [|by left]. cbn [fst snd].
    destruct (decide (key' = key)) as [->|Hne].
    + right. by rewrite lookup_delete_eq.
    + left. by rewrite lookup_delete_ne.
  - unfold MoodCache.get. destruct (cache !! key) as [item|]; [|done].
    case_decide; [|done]. cbn [snd]. rewrite dom_delete_L.
    apply subseteq_difference_l. done.
  - destruct (decide (key' = key)) as [->|Hne]; [by right|left].
    unfold MoodCache.set. by rewrite lookup_insert_ne.
Qed.
End cache_more.

(** ** The history processor: records of other days, and longer histories *)

Section history_more.
Context (tz : TimeZone).

Lemma find_filter {A} (p q : A → bool) (l : list A) :
  (∀ x, p x = true → q x = true) →
  List.find p (List.filter q l) = List.find p l.
Proof.
  intros Hpq. induction l as [|a l IH]; [done|]. cbn [List.filter List.find].
  destruct (q a) eqn:Hq; cbn [List.find].
  - by rewrite IH.
  - destruct (p a) eqn:Hp; [|done]. rewrite (Hpq a Hp) in Hq. discriminate.
Qed.

Lemma find_app {A} (p : A → bool) (l1 l2 : list A) :
  List.find p (l1 ++ l2) = if existsb p l1 then List.find p l1 else List.find p l2.
Proof.
  induction l1 as [|a l1 IH]; [done|]. cbn [app List.find existsb].
  by destruct (p a).
Qed.

Lemma loopDay_cases (P : nat → Prop) :
  (∀ i, (i ≤ 6)%nat → P i) → Forall P [6; 5; 4; 3; 2; 1; 0]%nat.
Proof. intros HP. repeat (constructor; [apply HP; lia|]). constructor. Qed.

(** X3. Records that are on none of the seven days of the loop have no
    effect on the series: removing them from the history, in any number
    and at any place, leaves the labels and the values as they are. So
    do, in particular, the records whose date is invalid. *)
Theorem processHistoryData_ignores_other_days now history (keep : HistoryRecord → bool) :
  (∀ h (i : nat), (i ≤ 6)%nat → sameDay tz (loopDay tz now i) h = true → keep h = true) →
  labels (processHistoryData tz now (List.filter keep history))
    = labels (processHistoryData tz now history) ∧
  dataPoints (processHistoryData tz now (List.filter keep history))
    = dataPoints (processHistoryData tz now history) ∧
  dataPoints (processHistoryData tz now
                (List.filter (λ h, bool_decide (is_Some (date h))) history))
    = dataPoints (processHistoryData tz now history).
Proof.
  intros Hkeep. rewrite !processHistoryData_unfold. cbn [labels dataPoints].
  split_and!; [done| |].
  - apply Forall_fmap_ext_1. apply loopDay_cases. intros i Hi.
    fold (loopDay tz now i). rewrite find_filter; [done|]. intros h. by apply Hkeep.
  - apply Forall_fmap_ext_1. apply loopDay_cases. intros i Hi.
    rewrite find_filter; [done|]. intros h. unfold sameDay.
    destruct (date h); [|done]. intros _. by apply bool_decide_eq_true.
Qed.

(** X4. The series of a history followed by another: a slot shows the
    record of the first history when it has one on the day of the slot,
    whatever follows, and what the second history alone would show
    otherwise. Records added at the end never replace what is shown. *)
Theorem processHistoryData_app now history more (k : nat) :
  (k < 7)%nat →
  dataPoints (processHistoryData tz now (history ++ more)) !! k =
    if existsb (sameDay tz (loopDay tz now (6 - k))) history
    then dataPoints (processHistoryData tz now history) !! k
    else dataPoints (processHistoryData tz now more) !! k.
Proof.
  intros Hk. rewrite !processHistoryData_unfold. cbn [dataPoints].
  rewrite !list_lookup_fmap, (slots_lookup k Hk). cbn [fmap option_fmap option_map].
  fold (loopDay tz now (6 - k)). rewrite find_app.
  by destruct (existsb (sameDay tz (loopDay tz now (6 - k))) history).
Qed.
End history_more.

Lemma processHistoryData_ignores_other_days_witness :
  dataPoints (processHistoryData (fixedOffset 0) 1704891600000
                (List.filter (λ h, bool_decide (is_Some (date h)))
                   [mkRecord None (JsNumber 2); mkRecord (Some 1704844800000) (JsNumber 4)]))
  = dataPoints (processHistoryData (fixedOffset 0) 1704891600000
                  [mkRecord None (JsNumber 2); mkRecord (Some 1704844800000) (JsNumber 4)]).
Proof.
  apply (processHistoryData_ignores_other_days (fixedOffset 0) 1704891600000
           [mkRecord None (JsNumber 2); mkRecord (Some 1704844800000) (JsNumber 4)]
           (λ h, bool_decide (is_Some (date h)))).
  intros h i _. unfold sameDay. destruct (date h); simpl; [reflexivity|discriminate].
Defined.

Lemma processHistoryData_app_witness :
  dataPoints (processHistoryData (fixedOffset 0) 1704891600000
                ([mkRecord (Some 1704844800000) (JsNumber 4)]
                 ++ [mkRecord (Some 1704850000000) (JsNumber 1)])) !! 6%nat
  = Some (JsNumber 4).
Proof.
  rewrite (processHistoryData_app (fixedOffset 0) 1704891600000
             [mkRecord (Some 1704844800000) (JsNumber 4)]
             [mkRecord (Some 1704850000000) (JsNumber 1)] 6 ltac:(lia)).
  vm_compute. reflexivity.
Defined.

(** ** The HTTP client: what is sent, what comes back *)

Lemma newEvents_app σ σ' T : trace σ' = trace σ ++ T → newEvents σ σ' = T.
Proof. intros Htrace. unfold newEvents. by rewrite Htrace, drop_app_length. Qed.

Section client_more.

(** X5. A call of [request] is exactly one call of [fetch], to the base
    URL followed by the endpoint, with the method and the body of the
    options. Its headers are the JSON content type and, when the local
    storage holds a non-empty token, the token; but options that bring
    headers of their own replace these altogether, token included. The
    call changes no field of the tracker. *)
Theorem request_sends_one_fetch endpoint options σ :
  let σ' := (request endpoint options σ).2 in
  let config :=
    {| configHeaders := match headers options with
                        | Some given => given
                        | None => defaultHeaders σ
                        end;
       configMethod := method options;
       configBody := body options |} in
  newEvents σ σ' = [Fetch (baseUrl (this σ) +:+ endpoint) config;
                    Settled (settled (network (env σ) (fetches σ)))] ∧
  fetches σ' = S (fetches σ) ∧
  this σ' = this σ ∧
  env σ' = env σ.
Proof.
  intros σ' config. subst σ'. rewrite request_run. cbn [snd].
  split_and!; [|done|done|done].
  apply newEvents_app. unfold afterRequest. cbn [trace]. do 2 f_equal.
  unfold config. unfold urlFor, configFor, makeConfig, defaultHeaders, nonEmpty.
  destruct (headers options) as [given|]; [done|].
  cbn [default]. rewrite app_nil_r.
  destruct (token (env σ)) as [t|]; [|done].
  cbn [default]. destruct (decide (t = "")) as [Ht|Ht].
  - by rewrite bool_decide_eq_true_2.
  - by rewrite bool_decide_eq_false_2.
Qed.

(** X6. [request] returns a value for one kind of reply only: a response
    that is [ok] and whose body parses, and the value is then that body.
    A response that is not [ok] never gives a value, whatever its body
    holds. *)
Theorem request_returns_ok_body endpoint options σ v :
  (request endpoint options σ).1 = Return v ↔
  ∃ response,
    settled (network (env σ) (fetches σ)) = Return response ∧
    ok response = true ∧
    json response = Return v.
Proof.
  rewrite request_run. cbn [fst]. split; [apply outcomeOf_Return|].
  intros (response & Hsettled & Hok & Hjson). unfold outcomeOf.
  by rewrite Hsettled, Hok.
Qed.

(** X7. For a response that is not [ok], [request] throws an error whose
    message is the [message] of the body when the body is an object that
    has one (not empty), else its [msg] when it has one, and else, also
    for a body that does not parse or is an array, the text
    [HTTP <status>: <statusText>]. *)
Theorem request_error_message endpoint options σ response :
  settled (network (env σ) (fetches σ)) = Return response →
  ok response = false →
  let thrown := (request endpoint options σ).1 in
  let fallback :=
    Error ("HTTP " +:+ pretty (status response) +:+ ": " +:+ statusText response) in
  (∀ fields m, json response = Return (VObject fields) →
               assoc "message" fields = Some m → m ≠ "" →
               thrown = Throw (Error m)) ∧
  (∀ fields m, json response = Return (VObject fields) →
               nonEmpty (assoc "message" fields) = false →
               assoc "msg" fields = Some m → m ≠ "" →
               thrown = Throw (Error m)) ∧
  (∀ fields, json response = Return (VObject fields) →
             nonEmpty (assoc "message" fields) = false →
             nonEmpty (assoc "msg" fields) = false →
             thrown = Throw fallback) ∧
  (∀ records, json response = Return (VArray records) → thrown = Throw fallback) ∧
  (∀ e, json response = Throw e → thrown = Throw fallback).
Proof.
  intros Hsettled Hok thrown fallback. subst thrown.
  rewrite request_run. cbn [fst]. unfold outcomeOf. rewrite Hsettled, Hok.
  unfold errorOf. fold fallback.
  split_and!.
  - intros fields m -> Hm Hne. rewrite Hm. cbn [nonEmpty default].
    by rewrite bool_decide_eq_false_2.
  - intros fields m -> Hnone Hm Hne. rewrite Hnone, Hm. cbn [nonEmpty default].
    by rewrite bool_decide_eq_false_2.
  - intros fields -> Hnone Hnone'. by rewrite Hnone, Hnone'.
  - by intros records ->.
  - by intros e ->.
Qed.

(** X8. A response that is not [ok] and whose body is the JSON value
    [null] makes [request] throw a [TypeError], not the error of the
    status: reading [message] from [null] fails after the body was
    parsed. *)
Theorem request_null_error_body endpoint options σ response :
  settled (network (env σ) (fetches σ)) = Return response →
  ok response = false →
  json response = Return VNull →
  (request endpoint options σ).1 =
    Throw (TypeError "Cannot read properties of null (reading 'message')").
Proof.
  intros Hsettled Hok Hjson. rewrite request_run. cbn [fst]. unfold outcomeOf.
  rewrite Hsettled, Hok. unfold errorOf. by rewrite Hjson.
Qed.

Lemma sum_app (l1 l2 : list Z) :
  foldr Z.add 0 (l1 ++ l2) = foldr Z.add 0 l1 + foldr Z.add 0 l2.
Proof. induction l1 as [|x l1 IH]; cbn [app foldr]; lia. Qed.

Lemma sum_delays (m : nat) :
  foldr Z.add 0 ((λ k, MOOD_CONFIG.RETRY_DELAY * Z.of_nat k) <$> seq 1 m)
  = 500 * Z.of_nat m * (Z.of_nat m + 1).
Proof.
  induction m as [|m IH]; [done|].
  rewrite seq_S, fmap_app, sum_app, IH. cbn [fmap list_fmap foldr].
  unfold MOOD_CONFIG.RETRY_DELAY. lia.
Qed.

Lemma fetch_loopEvents url config net calls :
  ∀ f i, Forall (λ e, match e with
                      | Fetch u c => u = url ∧ c = config
                      | Settled _ | Delay _ => True
                      | _ => False
                      end) (loopEvents url config net f i calls).
Proof.
  induction calls as [|calls IH]; intros f i; [constructor|].
  cbn [loopEvents]. do 2 (constructor; [done|]).
  destruct calls; [constructor|]. constructor; [done|]. apply IH.
Qed.

(** What [retryRequest] does for every number of attempts, none
    included. *)
Lemma retryRequest_any endpoint options (n : nat) σ :
  ∃ calls,
    (calls ≤ n)%nat ∧
    fetches (retryRequest endpoint options n σ).2 = (fetches σ + calls)%nat ∧
    this (retryRequest endpoint options n σ).2 = this σ ∧
    env (retryRequest endpoint options n σ).2 = env σ ∧
    trace (retryRequest endpoint options n σ).2 =
      trace σ ++ loopEvents (urlFor σ endpoint) (configFor σ options)
                   (network (env σ)) (fetches σ) 0 calls.
Proof.
  destruct n as [|n].
  - exists 0%nat. cbn. rewrite app_nil_r. split_and!; [lia|lia|done|done|done].
  - destruct (retryLoop_run endpoint options (S n) (S n) 0 σ ltac:(lia) ltac:(lia))
      as (calls & σ' & Hrun & Hcalls & _ & _ & Hthis & Henv & Hfetches & _ & Htrace & _).
    exists calls. unfold retryRequest. rewrite Hrun. cbn [snd].
    split_and!; [lia|done|done|done|done].
Qed.

(** X9. Whatever the number of attempts and the replies, the waits of a
    call of [retryRequest] add up to 500 ms times [calls * (calls - 1)]
    for the [calls] calls it makes: nothing for one call, 1000 ms for
    two, 3000 ms for three, which is the most that the configured three
    attempts can wait. With no attempt allowed it makes no call, waits
    for nothing and returns [undefined]. *)
Theorem retryRequest_total_wait endpoint options (n : nat) σ :
  let σ' := (retryRequest endpoint options n σ).2 in
  let calls := (fetches σ' - fetches σ)%nat in
  let waited := foldr Z.add 0 (delays (newEvents σ σ')) in
  (calls ≤ n)%nat ∧
  waited = 500 * Z.of_nat calls * (Z.of_nat calls - 1) ∧
  0 ≤ waited ≤ 500 * Z.of_nat n * (Z.of_nat n - 1) ∧
  (n = MOOD_CONFIG.RETRY_ATTEMPTS → waited ≤ 3000) ∧
  (n = 0%nat → (retryRequest endpoint options n σ).1 = Return VUndefined).
Proof.
  intros σ' calls waited.
  destruct (retryRequest_any endpoint options n σ)
    as (calls0 & Hcalls & Hfetches & _ & _ & Htrace).
  assert (Hc : calls = calls0) by (subst calls σ'; lia).
  assert (Hw : waited = 500 * Z.of_nat calls * (Z.of_nat calls - 1)).
  { subst waited σ'. rewrite (newEvents_app _ _ _ Htrace), delays_loopEvents.
    rewrite Hc. destruct calls0 as [|m]; [done|].
    cbn [Nat.sub]. rewrite Nat.sub_0_r, sum_delays. lia. }
  split_and!; [lia|done|nia|nia| |].
  - intros ->. unfold MOOD_CONFIG.RETRY_ATTEMPTS in *. nia.
  - by intros ->.
Qed.

(** X10. All the calls that [retryRequest] makes send the same request:
    every fetch of the call goes to the same URL with the same
    configuration, body included, and the call adds nothing to the trace
    but fetches, their settlements and waits. It changes no field of the
    tracker. *)
Theorem retryRequest_resends_the_same_request endpoint options (n : nat) σ :
  let σ' := (retryRequest endpoint options n σ).2 in
  Forall (λ e, match e with
               | Fetch url config =>
                   url = baseUrl (this σ) +:+ endpoint ∧ config = configFor σ options
               | Settled _ | Delay _ => True
               | _ => False
               end) (newEvents σ σ') ∧
  this σ' = this σ ∧
  env σ' = env σ.
Proof.
  intros σ'. destruct (retryRequest_any endpoint options n σ)
    as (calls & _ & _ & Hthis & Henv & Htrace).
  subst σ'. rewrite (newEvents_app _ _ _ Htrace).
  split_and!; [|done|done]. apply fetch_loopEvents.
Qed.
End client_more.

Lemma request_error_message_witness :
  (request "/api/mood" noOptions sampleState).1
  = Throw (Error "HTTP 503: Service Unavailable").
Proof.
  destruct (request_error_message "/api/mood" noOptions sampleState
              (mkResponse false 503 "Service Unavailable"
                 (Throw (mkError "SyntaxError" "Unexpected end of JSON input")))
              eq_refl eq_refl) as (_ & _ & _ & _ & Hunparsed).
  exact (Hunparsed _ eq_refl).
Defined.

Lemma request_null_error_body_witness :
  (request "/api/mood" noOptions
     (initialState (newTracker "http://localhost:5000")
        (mkEnv (fixedOffset 0) None
           (λ _, mkReply (Return (mkResponse false 500 "Internal Server Error" (Return VNull))) 0)
           true true "agent" "UTC")
        0)).1
  = Throw (TypeError "Cannot read properties of null (reading 'message')").
Proof.
  apply (request_null_error_body "/api/mood" noOptions _
           (mkResponse false 500 "Internal Server Error" (Return VNull)));
    reflexivity.
Defined.

(** ** The history: refreshes from the network *)

Section history_runs.
Import MoodTracker MOOD_CONFIG ApiClient.

Lemma fetchMoodHistory_refresh σ :
  let call := retryRequest HISTORY_ENDPOINT noOptions RETRY_ATTEMPTS σ in
  fetchMoodHistory true σ =
  (refreshed call.2 call.1, afterRefresh call.2 (refreshed call.2 call.1)).
Proof.
  intros call. subst call.
  unfold fetchMoodHistory, showErrorNotification, tryCatch, mbind, M_bind, mret, M_ret.
  cbv beta iota zeta delta [negb].
  destruct (retryRequest HISTORY_ENDPOINT noOptions RETRY_ATTEMPTS σ) as [[history|e] σ2];
    cbn [fst snd refreshed afterRefresh].
  - unfold processHistory, getState, throw, emit, modify, mbind, M_bind, mret, M_ret.
    destruct history as [| |records|fields]; cbv beta iota; cbn [fst snd afterRefresh];
      first [ by rewrite cacheSet_run, createMoodChart_run
            | by rewrite showNotification_run, createMoodChart_run ].
  - unfold throw, emit, modify. cbv beta iota.
    by rewrite showNotification_run, createMoodChart_run.
Qed.

Lemma fetchMoodHistory_miss σ :
  cached σ = None → fetchMoodHistory false σ = fetchMoodHistory true (afterMiss σ).
Proof.
  unfold cached. intros Hmiss. unfold fetchMoodHistory at 1. unfold mbind, M_bind.
  cbv beta iota zeta delta [negb]. rewrite cacheGet_run, Hmiss. reflexivity.
Qed.
End history_runs.

Section history_network.
Import MoodTracker MOOD_CONFIG ApiClient.

(** The cache that a [get] of the history leaves when it answers
    [null]: the cache without the entry. *)
Lemma afterMiss_cache σ :
  cached σ = None →
  cache (this (afterMiss σ)) = delete "mood_history" (cache (this σ)).
Proof.
  unfold cached, afterMiss, MoodCache.get. state_simpl.
  destruct (cache (this σ) !! "mood_history") as [item|] eqn:Hkey.
  - by case_decide.
  - intros _. by rewrite delete_id.
Qed.

(** The state in which a call turns to the network. *)
Lemma fetchMoodHistory_network forceRefresh σ :
  forceRefresh = true ∨ cached σ = None →
  ∃ σ0,
    fetchMoodHistory forceRefresh σ = fetchMoodHistory true σ0 ∧
    env σ0 = env σ ∧ clock σ0 = clock σ ∧ fetches σ0 = fetches σ ∧
    baseUrl (this σ0) = baseUrl (this σ) ∧
    chartInstance (this σ0) = chartInstance (this σ) ∧
    isLoading (this σ0) = isLoading (this σ) ∧
    cache (this σ0) = (if forceRefresh then cache (this σ)
                       else delete "mood_history" (cache (this σ))) ∧
    trace σ0 = trace σ ++ (if forceRefresh then [] else [CacheGet "mood_history"]).
Proof.
  destruct forceRefresh.
  - intros _. exists σ. rewrite app_nil_r. by split_and!.
  - intros [?|Hmiss]; [done|]. exists (afterMiss σ).
    split_and!; [by apply fetchMoodHistory_miss|done|done|done|done|done|done| |done].
    by apply afterMiss_cache.
Qed.

(** The requests of a call of [retryRequest] whose first [k] attempts
    fail, and whose next attempt succeeds or is the last one allowed. *)
Lemma retryRequest_settles endpoint options σ (k : nat) :
  (k < 3)%nat →
  (∀ j, (j < k)%nat → isThrow (attempt σ j)) →
  ¬ isThrow (attempt σ k) ∨ k = 2%nat →
  ∃ σ',
    retryRequest endpoint options RETRY_ATTEMPTS σ = (attempt σ k, σ') ∧
    this σ' = this σ ∧ env σ' = env σ ∧
    fetches σ' = (fetches σ + S k)%nat ∧
    clock σ ≤ clock σ' ∧
    trace σ' = trace σ ++ loopEvents (urlFor σ endpoint) (configFor σ options)
                            (network (env σ)) (fetches σ) 0 (S k).
Proof.
  intros Hk Hfail Hlast.
  destruct (retryLoop_run endpoint options 3 3 0 σ ltac:(lia) ltac:(lia))
    as (calls & σ' & Hrun & Hcalls & Hfailed & Hearly & Hthis & Henv & Hfetches
        & Hclock & Htrace & _).
  assert (calls = S k) as ->.
  { destruct (decide (calls - 1 < k)%nat) as [Hlt|Hge].
    - exfalso. apply Hearly; [lia|]. by apply Hfail.
    - destruct (decide (k < calls - 1)%nat) as [Hgt|Hle]; [|lia].
      destruct Hlast as [Hok| ->]; [|lia]. exfalso. apply Hok. by apply Hfailed. }
  exists σ'. replace (S k - 1)%nat with k in Hrun by lia.
  by split_and!.
Qed.

Lemma attempt_ext σ σ0 k :
  env σ0 = env σ → fetches σ0 = fetches σ → attempt σ0 k = attempt σ k.
Proof. unfold attempt. by intros -> ->. Qed.

(** What a refresh whose request returns the records [records] leaves. *)
Lemma fetchMoodHistory_refresh_success σ (k : nat) records :
  (k < 3)%nat →
  (∀ j, (j < k)%nat → isThrow (attempt σ j)) →
  attempt σ k = Return (VArray records) →
  ∃ σ2,
    this σ2 = this σ ∧ env σ2 = env σ ∧ fetches σ2 = (fetches σ + S k)%nat ∧
    clock σ ≤ clock σ2 ∧
    trace σ2 = trace σ ++ loopEvents (urlFor σ HISTORY_ENDPOINT) (configFor σ noOptions)
                            (network (env σ)) (fetches σ) 0 (S k) ∧
    fetchMoodHistory true σ =
      (Return (processHistoryData (tz (env σ)) (clock σ2) records),
       afterRefresh σ2 (Return (processHistoryData (tz (env σ)) (clock σ2) records))).
Proof.
  intros Hk Hfail Hok.
  destruct (retryRequest_settles HISTORY_ENDPOINT noOptions σ k Hk Hfail)
    as (σ2 & Hrun & Hthis & Henv & Hfetches & Hclock & Htrace).
  { left. rewrite Hok. cbn. tauto. }
  exists σ2. split_and!; [done|done|done|done|done|].
  rewrite fetchMoodHistory_refresh. cbv zeta. rewrite Hrun, Hok.
  cbn [fst snd refreshed]. unfold processHistory, getState, mbind, M_bind, mret, M_ret.
  cbn [fst]. by rewrite Henv.
Qed.

(** X11. A call of [fetchMoodHistory] that turns to the network, forced
    or for want of a fresh entry, and whose request succeeds with an
    array after [k] failed attempts ([k] is 0, 1 or 2) returns the series
    of these records for the seven days that end on the day the reply
    arrived. It has called [fetch] [k + 1] times, has stored the series
    under [mood_history] with an expiry five minutes after the arrival
    of the reply, and where the page has the chart element the chart
    shows the series. *)
Theorem fetchMoodHistory_from_network forceRefresh σ (k : nat) records :
  forceRefresh = true ∨ cached σ = None →
  (k < 3)%nat →
  (∀ j, (j < k)%nat → isThrow (attempt σ j)) →
  attempt σ k = Return (VArray records) →
  let σ' := (fetchMoodHistory forceRefresh σ).2 in
  let series := processHistoryData (tz (env σ)) (clock σ') records in
  (fetchMoodHistory forceRefresh σ).1 = Return series ∧
  fetches σ' = (fetches σ + S k)%nat ∧
  clock σ ≤ clock σ' ∧
  cache (this σ') =
    <["mood_history" := MoodCache.mkItem series (clock σ' + 300000)]> (cache (this σ)) ∧
  chartInstance (this σ') =
    (if moodChartElement (env σ) then Some (mkChart (labels series) (dataPoints series))
     else chartInstance (this σ)).
Proof.
  intros Hnet Hk Hfail Hok σ' series. subst series σ'.
  destruct (fetchMoodHistory_network forceRefresh σ Hnet)
    as (σ0 & -> & Henv0 & Hclock0 & Hfetches0 & _ & Hchart0 & _ & Hcache0 & _).
  destruct (fetchMoodHistory_refresh_success σ0 k records Hk)
    as (σ2 & Hthis & Henv & Hfetches & Hclock & _ & ->).
  { intros j Hj. rewrite (attempt_ext σ σ0) by done. by apply Hfail. }
  { by rewrite (attempt_ext σ σ0). }
  cbn [fst snd afterRefresh]. unfold afterChart. state_simpl.
  rewrite Henv, Henv0, Hthis.
  split_and!; [done|lia|lia| |].
  - unfold MoodCache.set, CACHE_DURATION.
    destruct (moodChartElement (env σ)); state_simpl; rewrite Hcache0;
      destruct forceRefresh; by rewrite ?insert_delete_eq.
  - destruct (moodChartElement (env σ)); state_simpl; [done|]. by rewrite Hchart0.
Qed.

(** X12. The series that a call of [fetchMoodHistory] has fetched from
    the network and stored is what [fetchMoodHistory()] returns,
    without any call of [fetch], in every later state with the same
    cache whose clock is at most five minutes past the arrival of the
    reply; past these five minutes the call turns to the network
    again. *)
Theorem fetchMoodHistory_then_served forceRefresh σ (k : nat) records later :
  forceRefresh = true ∨ cached σ = None →
  (k < 3)%nat →
  (∀ j, (j < k)%nat → isThrow (attempt σ j)) →
  attempt σ k = Return (VArray records) →
  let σ' := (fetchMoodHistory forceRefresh σ).2 in
  cache (this later) = cache (this σ') →
  (clock later ≤ clock σ' + 300000 →
     (fetchMoodHistory false later).1 = (fetchMoodHistory forceRefresh σ).1 ∧
     fetches (fetchMoodHistory false later).2 = fetches later) ∧
  (clock σ' + 300000 < clock later →
     (fetches later < fetches (fetchMoodHistory false later).2)%nat).
Proof.
  intros Hnet Hk Hfail Hok σ' Hcache.
  assert (Hitem : ∃ series,
             (fetchMoodHistory forceRefresh σ).1 = Return series ∧
             cache (this later) !! "mood_history"
               = Some (MoodCache.mkItem series (clock σ' + 300000))).
  { subst σ'. revert Hcache.
    destruct (fetchMoodHistory_network forceRefresh σ Hnet)
      as (σ0 & -> & Henv0 & _ & Hfetches0 & _).
    destruct (fetchMoodHistory_refresh_success σ0 k records Hk)
      as (σ2 & _ & _ & _ & _ & _ & ->).
    { intros j Hj. rewrite (attempt_ext σ σ0) by done. by apply Hfail. }
    { by rewrite (attempt_ext σ σ0). }
    cbn [fst snd afterRefresh]. unfold afterChart. state_simpl. intros ->.
    eexists. split; [done|].
    unfold MoodCache.set, CACHE_DURATION.
    destruct (moodChartElement (env σ2)); state_simpl; by rewrite lookup_insert_eq. }
  destruct Hitem as (series & -> & Hitem). clearbody σ'. split.
  - intros Hfresh.
    rewrite (fetchMoodHistory_hit later _ Hitem) by (cbn; lia). cbn [fst snd].
    split; [done|]. unfold afterChart. by state_simpl.
  - intros Hstale.
    assert (Hmiss : cached later = None).
    { unfold cached. rewrite (get_expired _ _ _ _ Hitem) by (cbn; lia). done. }
    rewrite (fetchMoodHistory_miss later Hmiss), fetchMoodHistory_refresh. cbv zeta.
    destruct (retryRequest_run HISTORY_ENDPOINT noOptions (afterMiss later))
      as (calls & σ2 & -> & Hcalls & _ & _ & Hfetches & _).
    cbn [fst snd]. unfold afterRefresh, afterChart, afterNotification.
    destruct (refreshed σ2 _); state_simpl; rewrite Hfetches; cbn; lia.
Qed.
End history_network.

Section history_failure.
Import MoodTracker MOOD_CONFIG ApiClient.

Lemma no_cache_event_loopEvents url config net calls :
  ∀ f i, Forall network_event (loopEvents url config net f i calls).
Proof.
  induction calls as [|calls IH]; intros f i; [constructor|].
  cbn [loopEvents]. do 2 (constructor; [done|]).
  destruct calls; [constructor|]. constructor; [done|]. apply IH.
Qed.

Lemma chartEvents_no_get σ l p :
  Forall (λ e, ∀ key, e ≠ CacheGet key) (chartEvents σ l p).
Proof.
  unfold chartEvents. destruct (moodChartElement (env σ)); [|constructor].
  destruct (chartInstance (this σ)); repeat constructor; done.
Qed.

(** The trace of a refresh: its requests, then what it does with their
    outcome. *)
Lemma fetchMoodHistory_refresh_trace σ :
  ∃ calls σ2,
    (1 ≤ calls ≤ 3)%nat ∧
    this σ2 = this σ ∧ env σ2 = env σ ∧ fetches σ2 = (fetches σ + calls)%nat ∧
    trace σ2 = trace σ ++ loopEvents (urlFor σ HISTORY_ENDPOINT) (configFor σ noOptions)
                            (network (env σ)) (fetches σ) 0 calls ∧
    fetchMoodHistory true σ =
      (refreshed σ2 (attempt σ (calls - 1)),
       afterRefresh σ2 (refreshed σ2 (attempt σ (calls - 1)))).
Proof.
  destruct (retryLoop_run HISTORY_ENDPOINT noOptions 3 3 0 σ ltac:(lia) ltac:(lia))
    as (calls & σ2 & Hrun & Hcalls & _ & _ & Hthis & Henv & Hfetches & _ & Htrace & _).
  exists calls, σ2. split_and!; [lia|lia|done|done|done|done|].
  rewrite fetchMoodHistory_refresh. cbv zeta.
  change (retryRequest HISTORY_ENDPOINT noOptions RETRY_ATTEMPTS σ)
    with (retryLoop HISTORY_ENDPOINT noOptions 3 3 0 σ).
  by rewrite Hrun.
Qed.

(** X13. When [fetchMoodHistory] throws, it has been to the network,
    has reported the error on the console and then with the
    notification that the history cannot be loaded, and has last
    replaced the chart by an empty one; the error is the one it caught.
    It has stored nothing: a call that was forced leaves the cache as it
    was, entry of the history included, and a call that was not leaves
    it without that entry. *)
Theorem fetchMoodHistory_failure forceRefresh σ e :
  (fetchMoodHistory forceRefresh σ).1 = Throw e →
  let σ' := (fetchMoodHistory forceRefresh σ).2 in
  (∃ T, newEvents σ σ' =
        T ++ ConsoleError "Failed to fetch mood history:" e
          :: notificationEvent σ historyFailure ErrorType
          :: chartEvents σ [] [] ∧
        Forall (λ e, ∀ key, e ≠ CacheSet key) T) ∧
  (fetches σ < fetches σ' ≤ fetches σ + 3)%nat ∧
  cache (this σ') = (if forceRefresh then cache (this σ)
                     else delete "mood_history" (cache (this σ))) ∧
  chartInstance (this σ') =
    (if moodChartElement (env σ) then Some (mkChart [] []) else chartInstance (this σ)).
Proof.
  intros Hthrow σ'. subst σ'.
  assert (Hnet : forceRefresh = true ∨ cached σ = None).
  { destruct forceRefresh; [by left|right].
    destruct (cached σ) as [series|] eqn:Hcached; [|done]. exfalso. revert Hthrow.
    unfold fetchMoodHistory, mbind, M_bind, mret, M_ret.
    cbv beta iota zeta delta [negb]. rewrite cacheGet_run. fold (cached σ).
    rewrite Hcached, createMoodChart_run. done. }
  revert Hthrow.
  destruct (fetchMoodHistory_network forceRefresh σ Hnet)
    as (σ0 & -> & Henv0 & _ & Hfetches0 & Hurl0 & Hchart0 & _ & Hcache0 & Htrace0).
  destruct (fetchMoodHistory_refresh_trace σ0)
    as (calls & σ2 & Hcalls & Hthis & Henv & Hfetches & Htrace & ->).
  cbn [fst snd]. intros ->. cbn [afterRefresh].
  assert (Hevents : chartEvents (afterNotification historyFailure ErrorType
                                   (addEvent (ConsoleError "Failed to fetch mood history:" e) σ2))
                      [] [] = chartEvents σ [] []).
  { unfold chartEvents, afterNotification. state_simpl.
    by rewrite Henv, Henv0, Hthis, Hchart0. }
  assert (Hnote : notificationEvent
                    (addEvent (ConsoleError "Failed to fetch mood history:" e) σ2)
                    historyFailure ErrorType
                  = notificationEvent σ historyFailure ErrorType).
  { unfold notificationEvent. state_simpl. by rewrite Henv, Henv0. }
  unfold afterChart. rewrite Hevents. unfold afterNotification. rewrite Hnote.
  state_simpl. rewrite Henv, Henv0.
  split_and!.
  - exists ((if forceRefresh then [] else [CacheGet "mood_history"])
            ++ loopEvents (urlFor σ0 HISTORY_ENDPOINT) (configFor σ0 noOptions)
                 (network (env σ0)) (fetches σ0) 0 calls).
    split.
    + apply newEvents_app. rewrite Htrace, Htrace0.
      rewrite <- ?app_assoc. cbn [app]. reflexivity.
    + apply Forall_app. split; [destruct forceRefresh; repeat constructor; done|].
      eapply Forall_impl; [apply no_cache_event_loopEvents|].
      intros ev Hnetwork key'; by destruct ev.
  - lia.
  - lia.
  - destruct (moodChartElement (env σ)); state_simpl; by rewrite Hthis, Hcache0.
  - destruct (moodChartElement (env σ)); state_simpl; [done|]. by rewrite Hthis, Hchart0.
Qed.

(** X14. A forced call never reads the cache: whatever the cache holds,
    [fetchMoodHistory(true)] starts with a request to the history
    endpoint, makes from one to three requests, and asks the cache for
    nothing. *)
Theorem fetchMoodHistory_forced_skips_cache σ :
  let σ' := (fetchMoodHistory true σ).2 in
  (∃ rest, newEvents σ σ' =
           Fetch (baseUrl (this σ) +:+ HISTORY_ENDPOINT) (configFor σ noOptions) :: rest) ∧
  Forall (λ e, ∀ key, e ≠ CacheGet key) (newEvents σ σ') ∧
  (fetches σ < fetches σ' ≤ fetches σ + 3)%nat.
Proof.
  intros σ'. subst σ'.
  destruct (fetchMoodHistory_refresh_trace σ)
    as (calls & σ2 & Hcalls & Hthis & Henv & Hfetches & Htrace & ->).
  cbn [snd].
  assert (Hnew : ∃ tail,
             trace (afterRefresh σ2 (refreshed σ2 (attempt σ (calls - 1))))
             = trace σ2 ++ tail ∧
             Forall (λ e, ∀ key, e ≠ CacheGet key) tail ∧
             fetches (afterRefresh σ2 (refreshed σ2 (attempt σ (calls - 1))))
             = fetches σ2).
  { destruct (refreshed σ2 _) as [series|e]; cbn [afterRefresh];
      unfold afterChart, afterNotification; state_simpl; eexists;
      (split; [reflexivity|split; [|reflexivity]]).
    - constructor; [done|]. apply chartEvents_no_get.
    - constructor; [done|]. constructor; [|apply chartEvents_no_get].
      unfold notificationEvent. by destruct (showNotificationDefined _). }
  destruct Hnew as (tail & Htail & Hquiet & Hsame).
  destruct (loopEvents_head (urlFor σ HISTORY_ENDPOINT) (configFor σ noOptions)
              (network (env σ)) (fetches σ) 0 calls ltac:(lia)) as [more Hhead].
  rewrite (newEvents_app σ _ (loopEvents (urlFor σ HISTORY_ENDPOINT) (configFor σ noOptions)
                                (network (env σ)) (fetches σ) 0 calls ++ tail))
    by (by rewrite Htail, Htrace, app_assoc).
  split_and!; [|apply Forall_app; split; [|done]|lia|lia].
  - rewrite Hhead. by eexists.
  - eapply Forall_impl; [apply no_cache_event_loopEvents|].
    intros ev Hnetwork key'; by destruct ev.
Qed.

(** X15. A call that is not forced and finds an entry whose expiry has
    passed deletes the entry and then does what a forced call does: it
    is the forced call on the tracker without the entry. The payload of
    the entry is never drawn nor returned. *)
Theorem fetchMoodHistory_expired σ item :
  cache (this σ) !! "mood_history" = Some item →
  MoodCache.expiry item < clock σ →
  fetchMoodHistory false σ =
    fetchMoodHistory true
      (withThis (setCache (delete "mood_history" (cache (this σ))))
         (addEvent (CacheGet "mood_history") σ)) ∧
  (fetches σ < fetches (fetchMoodHistory false σ).2)%nat.
Proof.
  intros Hitem Hstale.
  assert (Hget : MoodCache.get (clock σ) "mood_history" (cache (this σ))
                 = (None, delete "mood_history" (cache (this σ))))
    by (apply (get_expired _ _ item); [done|lia]).
  assert (Hmiss : cached σ = None) by (unfold cached; by rewrite Hget).
  rewrite (fetchMoodHistory_miss σ Hmiss). unfold afterMiss. rewrite Hget. cbn [snd].
  split; [done|].
  match goal with |- context [fetchMoodHistory true ?s] =>
    destruct (fetchMoodHistory_refresh_trace s)
      as (calls & σ2 & Hcalls & _ & _ & Hfetches & _ & ->) end.
  cbn [snd]. unfold afterRefresh, afterChart, afterNotification.
  destruct (refreshed σ2 _); state_simpl; rewrite Hfetches; cbn; lia.
Qed.
End history_failure.

(** ** [logMood]: the whole call *)

Section logMood_runs.
Import MoodTracker MOOD_CONFIG ApiClient.

Lemma logMood_try_run s value σ :
  let post := retryRequest API_ENDPOINT (postOptions s value σ) RETRY_ATTEMPTS σ in
  let refresh := fetchMoodHistory false (afterSubmission s post.2) in
  logMood_try (MoodString s) value σ =
  match post.1 with
  | Throw e => (Throw e, post.2)
  | Return result =>
      match refresh.1 with
      | Throw e => (Throw e, refresh.2)
      | Return _ =>
          (Return result,
           afterNotification (successText (MoodString s)) SuccessType refresh.2)
      end
  end.
Proof.
  intros post refresh. subst refresh post.
  unfold logMood_try, trimMood, updateMoodUI, cacheClear, showSuccessNotification,
    emit, modify, getState, mbind, M_bind, mret, M_ret.
  cbv beta iota zeta. fold (postOptions s value σ). fold (successText (MoodString s)).
  destruct (retryRequest API_ENDPOINT (postOptions s value σ) RETRY_ATTEMPTS σ)
    as [[result|e] σ2]; cbn [fst snd]; [|done].
  fold (afterSubmission s σ2).
  destruct (fetchMoodHistory false (afterSubmission s σ2)) as [[series|e] σ4];
    cbn [fst snd]; [|done].
  by rewrite showNotification_run.
Qed.

Lemma fetchMoodHistory_fetches forceRefresh σ :
  (fetches σ ≤ fetches (fetchMoodHistory forceRefresh σ).2 ≤ fetches σ + 3)%nat.
Proof.
  assert (Hnet : ∀ σ0, (fetches σ0 ≤ fetches (fetchMoodHistory true σ0).2
                        ≤ fetches σ0 + 3)%nat).
  { intros σ0. destruct (fetchMoodHistory_refresh_trace σ0)
      as (calls & σ2 & Hcalls & _ & _ & Hfetches & _ & ->).
    cbn [snd]. unfold afterRefresh, afterChart, afterNotification.
    destruct (refreshed σ2 _); state_simpl; lia. }
  destruct forceRefresh; [apply Hnet|].
  destruct (cached σ) as [series|] eqn:Hcached.
  - unfold fetchMoodHistory, mbind, M_bind, mret, M_ret.
    cbv beta iota zeta delta [negb]. rewrite cacheGet_run. fold (cached σ).
    rewrite Hcached, createMoodChart_run. cbn [snd]. unfold afterChart. state_simpl. lia.
  - rewrite (fetchMoodHistory_miss σ Hcached). apply (Hnet (afterMiss σ)).
Qed.

Lemma logMood_try_fetches s value σ :
  (fetches σ ≤ fetches (logMood_try (MoodString s) value σ).2 ≤ fetches σ + 6)%nat.
Proof.
  rewrite logMood_try_run. cbv zeta.
  destruct (retryRequest_any API_ENDPOINT (postOptions s value σ) RETRY_ATTEMPTS σ)
    as (calls & Hcalls & Hfetches & _).
  unfold RETRY_ATTEMPTS in Hcalls.
  destruct (retryRequest API_ENDPOINT (postOptions s value σ) RETRY_ATTEMPTS σ)
    as [[result|e] σ2]; cbn [fst snd] in *; [|lia].
  pose proof (fetchMoodHistory_fetches false (afterSubmission s σ2)) as Hrefresh.
  change (fetches (afterSubmission s σ2)) with (fetches σ2) in Hrefresh.
  destruct (fetchMoodHistory false (afterSubmission s σ2)) as [[series|e] σ4];
    cbn [fst snd] in *; [|lia].
  unfold afterNotification. state_simpl. lia.
Qed.

(** X16. Every call of [logMood], whatever its arguments, the state of
    the tracker and the replies of the network, calls [fetch] at most
    six times, three for the submission and three for the refresh; a
    call that the validation or the guard rejects calls it not once. *)
Theorem logMood_fetch_bound mood value σ :
  let σ' := (logMood mood value σ).2 in
  (fetches σ ≤ fetches σ' ≤ fetches σ + 6)%nat ∧
  (validateMoodInput mood value = false ∨ isLoading (this σ) = true →
   fetches σ' = fetches σ).
Proof.
  intros σ'. subst σ'.
  destruct (validateMoodInput mood value) eqn:Hvalid.
  2:{ rewrite logMood_invalid by done. cbn [snd]. split; [lia|done]. }
  destruct (isLoading (this σ)) eqn:Hidle.
  { rewrite logMood_busy by done. cbn [snd]. split; [lia|done]. }
  split; [|by intros [?|?]].
  rewrite logMood_started by done. cbn [snd].
  destruct (proj1 (validateMoodInput_true _ _) Hvalid) as (s & n & -> & _).
  pose proof (logMood_try_fetches s value (submitting σ)) as Htry.
  change (fetches (submitting σ)) with (fetches σ) in Htry.
  unfold tryCatch, settledDown.
  destruct (logMood_try (MoodString s) value (submitting σ)) as [[v|e] σ2];
    cbn [snd] in *; [state_simpl; lia|].
  rewrite logMood_catch_run. cbn [snd]. state_simpl. lia.
Qed.

(** X17. Every call of [logMood] leaves the guard as it found it: a
    call that starts on an idle tracker ends with the tracker idle,
    whether it returns or throws, and a call that is rejected while
    another is in flight does not release the guard of that one. The
    base URL and the environment are never changed. *)
Theorem logMood_restores_guard mood value σ :
  let σ' := (logMood mood value σ).2 in
  isLoading (this σ') = isLoading (this σ) ∧
  baseUrl (this σ') = baseUrl (this σ) ∧
  env σ' = env σ.
Proof.
  intros σ'. subst σ'.
  destruct (validateMoodInput mood value) eqn:Hvalid;
    [|by rewrite logMood_invalid].
  destruct (isLoading (this σ)) eqn:Hidle; [by rewrite logMood_busy|].
  rewrite logMood_started by done. cbn [snd].
  pose proof (Frames_tryCatch _ _ (Frames_logMood_try mood value)
                (Frames_logMood_catch mood value) (submitting σ))
    as (Henv & Hurl & _).
  unfold settledDown. state_simpl. by rewrite Henv, Hurl.
Qed.
End logMood_runs.

Section logMood_entry.
Import MoodTracker MOOD_CONFIG ApiClient.

Lemma assoc_Some_elem {A} key (l : list (string * A)) a :
  assoc key l = Some a → key ∈ l.*1.
Proof.
  induction l as [|[k b] l IH]; [done|]. cbn [assoc fmap list_fmap fst].
  destruct (decide (k = key)) as [->|Hne]; [intros _; apply list_elem_of_here|].
  intros Ha. apply list_elem_of_further. by apply IH.
Qed.

(** The names that the validation accepts hold no white space. *)
Lemma trim_accepted s : truthy (getProperty s) = true → trim s = s.
Proof.
  intros Htruthy.
  assert (Hin : s ∈ MOOD_MAPPINGS.*1 ++ ObjectPrototype).
  { apply elem_of_app. revert Htruthy. unfold getProperty.
    destruct (assoc s MOOD_MAPPINGS) as [attrs|] eqn:Hown.
    - intros _. left. by apply (assoc_Some_elem _ _ attrs).
    - destruct (decide (s ∈ ObjectPrototype)); [by right|done]. }
  clear Htruthy. revert s Hin. apply Forall_forall.
  repeat (constructor; [vm_compute; reflexivity|]). constructor.
Qed.

Lemma configFor_defaults σ options :
  headers options = None →
  configFor σ options =
    {| configHeaders := defaultHeaders σ;
       configMethod := method options;
       configBody := body options |}.
Proof.
  intros Hnone. unfold configFor, makeConfig, defaultHeaders, nonEmpty. rewrite Hnone.
  cbn [default]. rewrite app_nil_r. f_equal. f_equal.
  destruct (token (env σ)) as [t|]; [|done].
  cbn [default]. destruct (decide (t = "")) as [Ht|Ht].
  - by rewrite bool_decide_eq_true_2.
  - by rewrite bool_decide_eq_false_2.
Qed.

(** X18. The entry that an accepted call submits is made of its
    arguments as they are: the first thing the call does after showing
    the loading state is a POST to the mood endpoint whose body has the
    mood that was passed, which [trim] leaves unchanged since no
    accepted name holds white space, the integer between 1 and 5 that
    [parseInt] reads in the value, and the time of the call. *)
Theorem logMood_sends_the_entry mood value σ :
  validateMoodInput mood value = true →
  isLoading (this σ) = false →
  ∃ s n rest,
    mood = MoodString s ∧ parseInt value = Some n ∧ 1 ≤ n ≤ 5 ∧
    newEvents σ (logMood mood value σ).2 =
      LoadingState true
      :: Fetch (baseUrl (this σ) +:+ API_ENDPOINT)
           {| configHeaders := defaultHeaders σ;
              configMethod := Some "POST";
              configBody := Some {| mood := s;
                                    numValue := Some n;
                                    timestamp := clock σ;
                                    userAgentInfo := userAgent (env σ);
                                    timezoneInfo := timeZone (env σ) |} |}
      :: rest.
Proof.
  intros Hvalid Hidle.
  destruct (proj1 (validateMoodInput_true _ _) Hvalid)
    as (s & n & -> & Hs & Hparse & Hn & Htruthy).
  destruct (logMood_submits s value σ Hvalid Hidle) as [rest Htrace].
  exists s, n, rest. split_and!; [done|done|lia|lia|].
  rewrite (newEvents_app _ _ _ Htrace).
  rewrite configFor_defaults by done. unfold postOptions, urlFor. cbn [method body].
  by rewrite (trim_accepted s Htruthy), Hparse.
Qed.
End logMood_entry.

Section logMood_outcomes.
Import MoodTracker MOOD_CONFIG ApiClient.

Lemma chartEvents_ext σ0 σ l p :
  env σ0 = env σ → chartInstance (this σ0) = chartInstance (this σ) →
  chartEvents σ0 l p = chartEvents σ l p.
Proof. unfold chartEvents. by intros -> ->. Qed.

Lemma notificationEvent_ext σ0 σ msg type :
  env σ0 = env σ → notificationEvent σ0 msg type = notificationEvent σ msg type.
Proof. unfold notificationEvent. by intros ->. Qed.

(** What a refresh whose three requests fail leaves. *)
Lemma fetchMoodHistory_refresh_gives_up σ e :
  (∀ j, (j < 2)%nat → isThrow (attempt σ j)) →
  attempt σ 2 = Throw e →
  ∃ σ2,
    this σ2 = this σ ∧ env σ2 = env σ ∧ fetches σ2 = (fetches σ + 3)%nat ∧
    trace σ2 = trace σ ++ loopEvents (urlFor σ HISTORY_ENDPOINT) (configFor σ noOptions)
                            (network (env σ)) (fetches σ) 0 3 ∧
    fetchMoodHistory true σ = (Throw e, afterRefresh σ2 (Throw e)).
Proof.
  intros Hfail Hlast.
  destruct (retryRequest_settles HISTORY_ENDPOINT noOptions σ 2 ltac:(lia) Hfail)
    as (σ2 & Hrun & Hthis & Henv & Hfetches & _ & Htrace); [by right|].
  exists σ2. split_and!; [done|done|done|done|].
  rewrite fetchMoodHistory_refresh. cbv zeta. by rewrite Hrun, Hlast.
Qed.

(** A call of [logMood] whose submission is accepted after [k] failed
    attempts, up to the refresh of the history; [σ3] is the state in
    which the refresh turns to the network. *)
Lemma logMood_accepted s value σ (k : nat) result :
  validateMoodInput (MoodString s) value = true →
  isLoading (this σ) = false →
  (k < 3)%nat →
  (∀ j, (j < k)%nat → isThrow (attempt σ j)) →
  attempt σ k = Return result →
  ∃ σ3,
    env σ3 = env σ ∧ fetches σ3 = (fetches σ + S k)%nat ∧
    baseUrl (this σ3) = baseUrl (this σ) ∧
    chartInstance (this σ3) = chartInstance (this σ) ∧
    cache (this σ3) = ∅ ∧
    trace σ3 =
      trace σ ++ LoadingState true
      :: loopEvents (urlFor σ API_ENDPOINT) (configFor σ (postOptions s value σ))
           (network (env σ)) (fetches σ) 0 (S k)
      ++ [MoodUI (MoodString s); CacheClear; CacheGet "mood_history"] ∧
    logMood (MoodString s) value σ =
      match (fetchMoodHistory true σ3).1 with
      | Return _ =>
          (Return result,
           settledDown (afterNotification (successText (MoodString s)) SuccessType
                          (fetchMoodHistory true σ3).2))
      | Throw e =>
          (Throw e,
           settledDown
             (addEvent (notificationEvent σ (errorMessageFor (message e)) ErrorType)
                (addEvent (ConsoleError "Mood logging failed:" e)
                   (fetchMoodHistory true σ3).2)))
      end.
Proof.
  intros Hvalid Hidle Hk Hfail Hok.
  destruct (retryRequest_settles API_ENDPOINT (postOptions s value (submitting σ))
              (submitting σ) k Hk Hfail)
    as (σ2 & Hrun & Hthis & Henv & Hfetches & _ & Htrace).
  { left. change (attempt (submitting σ) k) with (attempt σ k). rewrite Hok. cbn. tauto. }
  change (attempt (submitting σ) k) with (attempt σ k) in Hrun. rewrite Hok in Hrun.
  assert (Hmiss : cached (afterSubmission s σ2) = None) by done.
  exists (afterMiss (afterSubmission s σ2)).
  split_and!.
  - unfold afterMiss, afterSubmission. state_simpl. exact Henv.
  - unfold afterMiss, afterSubmission. state_simpl. exact Hfetches.
  - unfold afterMiss, afterSubmission. state_simpl. by rewrite Hthis.
  - unfold afterMiss, afterSubmission. state_simpl. by rewrite Hthis.
  - rewrite afterMiss_cache by done. unfold afterSubmission. state_simpl.
    apply delete_empty.
  - unfold afterMiss, afterSubmission. state_simpl. rewrite Htrace.
    unfold submitting. state_simpl. reflexivity.
  - rewrite logMood_started by done. unfold tryCatch.
    rewrite logMood_try_run. cbv zeta. rewrite Hrun. cbn [fst snd].
    rewrite (fetchMoodHistory_miss _ Hmiss).
    pose proof (Frames_fetchMoodHistory true (afterMiss (afterSubmission s σ2)))
      as (Henv4 & _).
    destruct (fetchMoodHistory true (afterMiss (afterSubmission s σ2)))
      as [[series|e] σ4]; cbn [fst snd] in *; [done|].
    rewrite logMood_catch_run. cbn [fst snd].
    rewrite (notificationEvent_ext σ4 σ); [done|].
    rewrite Henv4. unfold afterMiss, afterSubmission. state_simpl. exact Henv.
Qed.

(** X19. When the server accepts the submission, after [k] failed
    attempts, and then delivers the history as an array, after [k']
    failed attempts ([k] and [k'] at most 2), [logMood] returns what
    the server answered to the submission. It has called [fetch]
    [k + 1] and [k' + 1] times, and it ends with the tracker idle, the
    series of the delivered records as the only entry of the cache,
    fresh for five minutes, the chart showing that series and, last
    before the loading state is reset, the notification of the success
    with the name of the mood and its emoji. *)
Theorem logMood_succeeds s value σ (k k' : nat) result records :
  validateMoodInput (MoodString s) value = true →
  isLoading (this σ) = false →
  (k < 3)%nat →
  (∀ j, (j < k)%nat → isThrow (attempt σ j)) →
  attempt σ k = Return result →
  (k' < 3)%nat →
  (∀ j, (j < k')%nat → isThrow (attempt σ (S k + j))) →
  attempt σ (S k + k') = Return (VArray records) →
  let σ' := (logMood (MoodString s) value σ).2 in
  let series := processHistoryData (tz (env σ)) (clock σ') records in
  (logMood (MoodString s) value σ).1 = Return result ∧
  fetches σ' = (fetches σ + S k + S k')%nat ∧
  isLoading (this σ') = false ∧
  cache (this σ') = {["mood_history" := MoodCache.mkItem series (clock σ' + 300000)]} ∧
  chartInstance (this σ') =
    (if moodChartElement (env σ) then Some (mkChart (labels series) (dataPoints series))
     else chartInstance (this σ)) ∧
  ∃ T, newEvents σ σ' =
       T ++ [notificationEvent σ
               ("Mood logged successfully: " +:+ s +:+ " " +:+ emojiOf (MoodString s))
               SuccessType;
             LoadingState false].
Proof.
  intros Hvalid Hidle Hk Hfail Hok Hk' Hfail' Hok' σ' series. subst series σ'.
  destruct (logMood_accepted s value σ k result Hvalid Hidle Hk Hfail Hok)
    as (σ3 & Henv3 & Hfetches3 & _ & Hchart3 & Hcache3 & Htrace3 & ->).
  assert (Hshift : ∀ j, attempt σ3 j = attempt σ (S k + j)).
  { intros j. unfold attempt. rewrite Henv3, Hfetches3. f_equal. f_equal. lia. }
  pose proof (Frames_fetchMoodHistory true σ3) as (_ & _ & _ & [T4 HT4] & _).
  destruct (fetchMoodHistory_refresh_success σ3 k' records Hk')
    as (σ4 & Hthis4 & Henv4 & Hfetches4 & _ & _ & Hrefresh).
  { intros j Hj. rewrite Hshift. by apply Hfail'. }
  { by rewrite Hshift. }
  rewrite Hrefresh in HT4 |- *. cbn [fst snd] in *.
  split_and!; [done| | | | |].
  - cbn [afterRefresh]. unfold settledDown, afterNotification, afterChart.
    state_simpl. lia.
  - unfold settledDown. by state_simpl.
  - cbn [afterRefresh]. unfold settledDown, afterNotification, afterChart.
    state_simpl. rewrite !Henv4, !Henv3. unfold MoodCache.set, CACHE_DURATION.
    destruct (moodChartElement (env σ)); state_simpl; by rewrite Hthis4, Hcache3.
  - cbn [afterRefresh]. unfold settledDown, afterNotification, afterChart.
    state_simpl. rewrite !Henv4, !Henv3.
    destruct (moodChartElement (env σ)); state_simpl; [done|]. by rewrite Hthis4.
  - exists (LoadingState true
            :: loopEvents (urlFor σ API_ENDPOINT) (configFor σ (postOptions s value σ))
                 (network (env σ)) (fetches σ) 0 (S k)
            ++ [MoodUI (MoodString s); CacheClear; CacheGet "mood_history"] ++ T4).
    apply newEvents_app. unfold settledDown, afterNotification.
    rewrite (notificationEvent_ext _ σ).
    2:{ pose proof (Frames_fetchMoodHistory true σ3) as (Henv' & _).
        rewrite Hrefresh in Henv'. cbn [snd] in Henv'. congruence. }
    cbn [trace addEvent withThis]. rewrite HT4, Htrace3.
    unfold successText. cbn [moodText].
    rewrite <- ?app_assoc. cbn [app]. rewrite <- ?app_assoc. cbn [app].
    reflexivity.
Qed.

(** X20. When the server accepts the submission but the three requests
    of the refresh fail, [logMood] throws the error of the last of
    them, although the entry is stored on the server: the page was
    updated for the mood, the cache is left empty, the chart is
    replaced by an empty one, and the user is notified twice of a
    failure (the history cannot be loaded, the mood could not be
    logged) and never of the success. *)
Theorem logMood_fails_when_refresh_fails s value σ (k : nat) result e :
  validateMoodInput (MoodString s) value = true →
  isLoading (this σ) = false →
  (k < 3)%nat →
  (∀ j, (j < k)%nat → isThrow (attempt σ j)) →
  attempt σ k = Return result →
  (∀ j, (j < 2)%nat → isThrow (attempt σ (S k + j))) →
  attempt σ (S k + 2) = Throw e →
  let σ' := (logMood (MoodString s) value σ).2 in
  (logMood (MoodString s) value σ).1 = Throw e ∧
  fetches σ' = (fetches σ + S k + 3)%nat ∧
  isLoading (this σ') = false ∧
  cache (this σ') = ∅ ∧
  chartInstance (this σ') =
    (if moodChartElement (env σ) then Some (mkChart [] []) else chartInstance (this σ)) ∧
  newEvents σ σ' =
    LoadingState true
    :: loopEvents (urlFor σ API_ENDPOINT) (configFor σ (postOptions s value σ))
         (network (env σ)) (fetches σ) 0 (S k)
    ++ [MoodUI (MoodString s); CacheClear; CacheGet "mood_history"]
    ++ loopEvents (urlFor σ HISTORY_ENDPOINT) (configFor σ noOptions)
         (network (env σ)) (fetches σ + S k) 0 3
    ++ [ConsoleError "Failed to fetch mood history:" e;
        notificationEvent σ historyFailure ErrorType]
    ++ chartEvents σ [] []
    ++ [ConsoleError "Mood logging failed:" e;
        notificationEvent σ (errorMessageFor (message e)) ErrorType;
        LoadingState false].
Proof.
  intros Hvalid Hidle Hk Hfail Hok Hfail' Hlast σ'. subst σ'.
  destruct (logMood_accepted s value σ k result Hvalid Hidle Hk Hfail Hok)
    as (σ3 & Henv3 & Hfetches3 & Hurl3 & Hchart3 & Hcache3 & Htrace3 & ->).
  assert (Hshift : ∀ j, attempt σ3 j = attempt σ (S k + j)).
  { intros j. unfold attempt. rewrite Henv3, Hfetches3. f_equal. f_equal. lia. }
  destruct (fetchMoodHistory_refresh_gives_up σ3 e)
    as (σ4 & Hthis4 & Henv4 & Hfetches4 & Htrace4 & ->).
  { intros j Hj. rewrite Hshift. by apply Hfail'. }
  { by rewrite Hshift. }
  cbn [fst snd afterRefresh]. unfold settledDown.
  assert (Hevents : chartEvents (afterNotification historyFailure ErrorType
                                   (addEvent (ConsoleError "Failed to fetch mood history:" e) σ4))
                      [] [] = chartEvents σ [] []).
  { apply chartEvents_ext; unfold afterNotification; state_simpl.
    - by rewrite Henv4.
    - by rewrite Hthis4. }
  unfold afterChart. rewrite Hevents. unfold afterNotification.
  rewrite (notificationEvent_ext
             (addEvent (ConsoleError "Failed to fetch mood history:" e) σ4) σ)
    by (state_simpl; by rewrite Henv4).
  state_simpl. rewrite !Henv4, !Henv3.
  split_and!; [done|lia| | | |].
  - by destruct (moodChartElement (env σ)).
  - destruct (moodChartElement (env σ)); state_simpl; by rewrite Hthis4, Hcache3.
  - destruct (moodChartElement (env σ)); state_simpl; [done|]. by rewrite Hthis4.
  - apply newEvents_app.
    assert (Hurl : urlFor σ3 HISTORY_ENDPOINT = urlFor σ HISTORY_ENDPOINT)
      by (unfold urlFor; by rewrite Hurl3).
    assert (Hconfig : configFor σ3 noOptions = configFor σ noOptions)
      by (unfold configFor; by rewrite Henv3).
    rewrite Hurl, Hconfig, Henv3, Hfetches3 in Htrace4.
    rewrite Htrace4, Htrace3. state_simpl.
    rewrite <- ?app_assoc. cbn [app]. rewrite <- ?app_assoc. cbn [app].
    reflexivity.
Qed.
End logMood_outcomes.

(** ** The properties of the refreshes and of [logMood] on sample data *)

Lemma fetchMoodHistory_from_network_witness :
  fetches (MoodTracker.fetchMoodHistory false historyState).2 = 2%nat.
Proof.
  refine (proj1 (proj2 (fetchMoodHistory_from_network false historyState 1
                          [mkRecord (Some 1704844800000) (JsNumber 4)] _ _ _ _))).
  - right. vm_compute. reflexivity.
  - lia.
  - intros j Hj. destruct j as [|j]; [vm_compute; exact I|lia].
  - vm_compute. reflexivity.
Defined.

Lemma fetchMoodHistory_then_served_witness :
  (MoodTracker.fetchMoodHistory false
     (elapse 300000 (MoodTracker.fetchMoodHistory true historyState).2)).1
  = (MoodTracker.fetchMoodHistory true historyState).1.
Proof.
  refine (proj1 (proj1 (fetchMoodHistory_then_served true historyState 1
                          [mkRecord (Some 1704844800000) (JsNumber 4)]
                          (elapse 300000 (MoodTracker.fetchMoodHistory true historyState).2)
                          _ _ _ _ _) _)).
  - left. reflexivity.
  - lia.
  - intros j Hj. destruct j as [|j]; [vm_compute; exact I|lia].
  - vm_compute. reflexivity.
  - vm_compute. reflexivity.
  - vm_compute. discriminate.
Defined.

Lemma fetchMoodHistory_failure_witness :
  chartInstance (this (MoodTracker.fetchMoodHistory false offlineState).2)
  = Some (mkChart [] []).
Proof.
  refine (proj2 (proj2 (proj2 (fetchMoodHistory_failure false offlineState
                                 (TypeError "Failed to fetch") _)))).
  vm_compute. reflexivity.
Defined.

Lemma fetchMoodHistory_expired_witness :
  (fetches staleState < fetches (MoodTracker.fetchMoodHistory false staleState).2)%nat.
Proof.
  refine (proj2 (fetchMoodHistory_expired staleState
                   (MoodCache.mkItem cachedSeries (1704888000000 + MOOD_CONFIG.CACHE_DURATION))
                   _ _)).
  - vm_compute. reflexivity.
  - vm_compute. reflexivity.
Defined.

Lemma logMood_sends_the_entry_witness :
  ∃ s n rest,
    MoodString "Happy" = MoodString s ∧ parseInt "5" = Some n ∧ 1 ≤ n ≤ 5 ∧
    newEvents sampleState (MoodTracker.logMood (MoodString "Happy") "5" sampleState).2 =
      LoadingState true
      :: Fetch (baseUrl (this sampleState) +:+ MOOD_CONFIG.API_ENDPOINT)
           {| configHeaders := defaultHeaders sampleState;
              configMethod := Some "POST";
              configBody := Some {| mood := s;
                                    numValue := Some n;
                                    timestamp := clock sampleState;
                                    userAgentInfo := userAgent (env sampleState);
                                    timezoneInfo := timeZone (env sampleState) |} |}
      :: rest.
Proof.
  apply (logMood_sends_the_entry (MoodString "Happy") "5" sampleState).
  - vm_compute. reflexivity.
  - reflexivity.
Defined.

Lemma logMood_succeeds_witness :
  (MoodTracker.logMood (MoodString "Happy") "5" sampleState).1
  = Return (VObject [("msg", "Mood saved")]).
Proof.
  refine (proj1 (logMood_succeeds "Happy" "5" sampleState 2 0
                   (VObject [("msg", "Mood saved")])
                   [mkRecord (Some 1704844800000) (JsNumber 4)] _ _ _ _ _ _ _ _)).
  - vm_compute. reflexivity.
  - reflexivity.
  - lia.
  - intros j Hj. destruct j as [|[|j]]; [vm_compute; exact I|vm_compute; exact I|lia].
  - vm_compute. reflexivity.
  - lia.
  - intros j Hj. lia.
  - vm_compute. reflexivity.
Defined.

Lemma logMood_fails_when_refresh_fails_witness :
  (MoodTracker.logMood (MoodString "Happy") "5" acceptingState).1
  = Throw (TypeError "Failed to fetch").
Proof.
  refine (proj1 (logMood_fails_when_refresh_fails "Happy" "5" acceptingState 0
                   (VObject [("msg", "Mood saved")]) (TypeError "Failed to fetch")
                   _ _ _ _ _ _ _)).
  - vm_compute. reflexivity.
  - reflexivity.
  - lia.
  - intros j Hj. lia.
  - vm_compute. reflexivity.
  - intros j Hj. destruct j as [|[|j]]; [vm_compute; exact I|vm_compute; exact I|lia].
  - vm_compute. reflexivity.
Defined.

(** ** What every call keeps: the charts and the cache *)

Section keeps.
Context {A B : Type} (I : State → Prop).

Lemma Keeps_ret (a : A) : Keeps I (mret a).
Proof. by intros σ. Qed.

Lemma Keeps_throw (e : JsError) : Keeps I (@throw A e).
Proof. by intros σ. Qed.

Lemma Keeps_getState : Keeps I getState.
Proof. by intros σ. Qed.

Lemma Keeps_bind (m : M A) (f : A → M B) :
  Keeps I m → (∀ a, Keeps I (f a)) → Keeps I (m ≫= f).
Proof.
  intros Hm Hf σ Hσ. unfold mbind, M_bind. specialize (Hm σ Hσ).
  destruct (m σ) as [[a|e] σ1]; cbn [snd] in *; [|done]. by apply Hf.
Qed.

Lemma Keeps_tryCatch (body : M A) (handler : JsError → M A) :
  Keeps I body → (∀ e, Keeps I (handler e)) → Keeps I (tryCatch body handler).
Proof.
  intros Hm Hf σ Hσ. unfold tryCatch. specialize (Hm σ Hσ).
  destruct (body σ) as [[a|e] σ1]; cbn [snd] in *; [done|]. by apply Hf.
Qed.

Lemma Keeps_tryFinally (body : M A) (final : M unit) :
  Keeps I body → Keeps I final → Keeps I (tryFinally body final).
Proof.
  intros Hm Hf σ Hσ. unfold tryFinally. specialize (Hm σ Hσ).
  destruct (body σ) as [r σ1]; cbn [snd] in *. specialize (Hf σ1 Hm).
  by destruct (final σ1) as [[[]|e] σ2].
Qed.
End keeps.

(** Decomposes a goal [Keeps I m] along the structure of [m]; [leaf]
    proves what the steps of [m] keep. *)
Ltac keeps leaf :=
  repeat first
    [ apply Keeps_ret | apply Keeps_throw | apply Keeps_getState
    | leaf
    | apply Keeps_bind | apply Keeps_tryCatch | apply Keeps_tryFinally
    | progress intros
    | match goal with
      | |- Keeps _ (match ?x with _ => _ end) => destruct x
      | |- Keeps _ (if ?x then _ else _) => destruct x
      | |- Keeps _ (let '(_, _) := ?x in _) => destruct x
      end ].

Section invariants.
Import MoodTracker MOOD_CONFIG ApiClient.

Lemma liveCharts_app T1 T2 : liveCharts (T1 ++ T2) = liveCharts T1 + liveCharts T2.
Proof.
  induction T1 as [|e T1 IH]; [done|]. cbn [app liveCharts].
  destruct e; rewrite ?IH; lia.
Qed.

Lemma liveCharts_network T : Forall network_event T → liveCharts T = 0.
Proof.
  induction 1 as [|e T He _ IH]; [done|]. cbn [liveCharts]. by destruct e.
Qed.

(** *** The charts *)

Lemma charts_emit e : liveCharts [e] = 0 → Keeps chartsBalanced (emit e).
Proof.
  intros He σ. unfold chartsBalanced, emit, modify. state_simpl.
  rewrite liveCharts_app, He. intros <-. lia.
Qed.

Lemma charts_withThis f :
  (∀ t, chartInstance (f t) = chartInstance t) →
  Keeps chartsBalanced (modify (withThis f)).
Proof. intros Hf σ. unfold chartsBalanced, modify. state_simpl. by rewrite Hf. Qed.

Lemma charts_retryRequest endpoint options (n : nat) :
  Keeps chartsBalanced (retryRequest endpoint options n).
Proof.
  intros σ. unfold chartsBalanced.
  destruct (retryRequest_any endpoint options n σ)
    as (calls & _ & _ & -> & _ & ->).
  rewrite liveCharts_app, (liveCharts_network (loopEvents _ _ _ _ _ _))
    by apply no_cache_event_loopEvents.
  intros <-. lia.
Qed.

Lemma charts_createMoodChart labels dataPoints :
  Keeps chartsBalanced (createMoodChart labels dataPoints).
Proof.
  intros σ. rewrite createMoodChart_run. unfold chartsBalanced, afterChart, chartEvents.
  state_simpl. rewrite liveCharts_app.
  destruct (moodChartElement (env σ)); [|cbn [liveCharts]; intros <-; lia].
  state_simpl. destruct (chartInstance (this σ)); cbn [liveCharts]; lia.
Qed.

Local Ltac charts_leaf :=
  first [ apply charts_createMoodChart | apply charts_retryRequest
        | apply charts_emit; reflexivity
        | apply charts_withThis; intros; reflexivity ].

Lemma charts_fetchMoodHistory forceRefresh :
  Keeps chartsBalanced (fetchMoodHistory forceRefresh).
Proof.
  unfold fetchMoodHistory, cacheGet, cacheSet, processHistory, showErrorNotification,
    showNotification.
  keeps charts_leaf.
Qed.

Lemma charts_logMood mood value : Keeps chartsBalanced (logMood mood value).
Proof.
  unfold logMood, logMood_try, logMood_catch, logMood_finally, trimMood, updateMoodUI,
    showLoadingState, handleMoodLogError, showErrorNotification, showSuccessNotification,
    showNotification, cacheClear.
  keeps ltac:(first [apply charts_fetchMoodHistory | charts_leaf]).
Qed.

Lemma charts_destroy : Keeps chartsBalanced destroy.
Proof.
  intros σ. unfold destroy, cacheClear, chartsBalanced, emit, modify, getState,
    mbind, M_bind, mret, M_ret.
  cbv beta iota.
  destruct (chartInstance (this σ)) eqn:Hchart; cbv beta iota; state_simpl;
    rewrite ?liveCharts_app; cbn [liveCharts]; rewrite ?Hchart; lia.
Qed.

(** X21. Charts never accumulate. In a new tracker, and after every
    call of [createMoodChart], [fetchMoodHistory], [logMood],
    [destroy] and the functions of the page, whatever the call returns
    or throws, the charts that were created and not destroyed are the
    one chart that [chartInstance] holds, or none when it holds none:
    every chart but the last was destroyed before the next was
    created. *)
Theorem charts_never_accumulate :
  (∀ apiUrl e now, chartsBalanced (initialState (newTracker apiUrl) e now)) ∧
  (∀ labels dataPoints, Keeps chartsBalanced (createMoodChart labels dataPoints)) ∧
  (∀ forceRefresh, Keeps chartsBalanced (fetchMoodHistory forceRefresh)) ∧
  (∀ mood value, Keeps chartsBalanced (logMood mood value)) ∧
  Keeps chartsBalanced destroy ∧
  (∀ mood value, Keeps chartsBalanced (Page.logMood mood value)) ∧
  Keeps chartsBalanced Page.fetchMoodHistory ∧
  (∀ labels dataPoints, Keeps chartsBalanced (Page.createMoodChart labels dataPoints)).
Proof.
  split_and!.
  - done.
  - apply charts_createMoodChart.
  - apply charts_fetchMoodHistory.
  - apply charts_logMood.
  - apply charts_destroy.
  - intros mood value. unfold Page.logMood.
    keeps ltac:(first [apply charts_logMood | charts_leaf]).
  - unfold Page.fetchMoodHistory.
    keeps ltac:(first [apply charts_fetchMoodHistory | charts_leaf]).
  - apply charts_createMoodChart.
Qed.
End invariants.

Section cache_invariant.
Import MoodTracker MOOD_CONFIG ApiClient.

Lemma bounded_emit e : Keeps cacheBounded (emit e).
Proof. by intros σ. Qed.

Lemma bounded_withThis f :
  (∀ t, cache (f t) = cache t) → Keeps cacheBounded (modify (withThis f)).
Proof. intros Hf σ. unfold cacheBounded, modify. state_simpl. by rewrite Hf. Qed.

Lemma bounded_retryRequest endpoint options (n : nat) :
  Keeps cacheBounded (retryRequest endpoint options n).
Proof.
  intros σ. unfold cacheBounded.
  by destruct (retryRequest_any endpoint options n σ) as (calls & _ & _ & -> & _).
Qed.

Lemma bounded_createMoodChart labels dataPoints :
  Keeps cacheBounded (createMoodChart labels dataPoints).
Proof.
  intros σ. rewrite createMoodChart_run. unfold cacheBounded, afterChart. state_simpl.
  by destruct (moodChartElement (env σ)).
Qed.

Lemma bounded_cacheGet key : Keeps cacheBounded (cacheGet key).
Proof.
  intros σ. rewrite cacheGet_run. unfold cacheBounded, MoodCache.get. state_simpl.
  destruct (cache (this σ) !! key) as [item|]; [|done].
  case_decide; [|done]. cbn [snd]. rewrite dom_delete_L. intros Hdom.
  etrans; [|exact Hdom]. by apply subseteq_difference_l.
Qed.

Lemma bounded_cacheSet data : Keeps cacheBounded (cacheSet "mood_history" data).
Proof.
  intros σ. rewrite cacheSet_run. unfold cacheBounded, MoodCache.set. state_simpl.
  rewrite dom_insert_L. intros Hdom. by apply union_least.
Qed.

Lemma bounded_cacheClear : Keeps cacheBounded cacheClear.
Proof.
  intros σ _. unfold cacheBounded, cacheClear, MoodCache.clear, emit, modify, mbind, M_bind.
  state_simpl. rewrite dom_empty_L. apply empty_subseteq.
Qed.

Local Ltac bounded_leaf :=
  first [ apply bounded_createMoodChart | apply bounded_retryRequest
        | apply bounded_cacheGet | apply bounded_cacheSet | apply bounded_cacheClear
        | apply bounded_emit
        | apply bounded_withThis; intros; reflexivity ].

Lemma bounded_fetchMoodHistory forceRefresh :
  Keeps cacheBounded (fetchMoodHistory forceRefresh).
Proof.
  unfold fetchMoodHistory, processHistory, showErrorNotification, showNotification.
  cbv zeta. keeps bounded_leaf.
Qed.

Lemma bounded_logMood mood value : Keeps cacheBounded (logMood mood value).
Proof.
  unfold logMood, logMood_try, logMood_catch, logMood_finally, trimMood, updateMoodUI,
    showLoadingState, handleMoodLogError, showErrorNotification, showSuccessNotification,
    showNotification.
  keeps ltac:(first [apply bounded_fetchMoodHistory | bounded_leaf]).
Qed.

Lemma bounded_destroy : Keeps cacheBounded destroy.
Proof.
  unfold destroy.
  keeps ltac:(first [bounded_leaf | apply bounded_withThis; intros []; reflexivity]).
Qed.

(** X22. The cache never grows: in a new tracker, and after every call
    of [createMoodChart], [fetchMoodHistory], [logMood], [destroy] and
    the functions of the page, the cache holds no key but
    [mood_history], hence one entry at most. *)
Theorem cache_holds_one_key :
  (∀ apiUrl e now, cacheBounded (initialState (newTracker apiUrl) e now)) ∧
  (∀ σ, cacheBounded σ → (size (cache (this σ)) ≤ 1)%nat) ∧
  (∀ labels dataPoints, Keeps cacheBounded (createMoodChart labels dataPoints)) ∧
  (∀ forceRefresh, Keeps cacheBounded (fetchMoodHistory forceRefresh)) ∧
  (∀ mood value, Keeps cacheBounded (logMood mood value)) ∧
  Keeps cacheBounded destroy ∧
  (∀ mood value, Keeps cacheBounded (Page.logMood mood value)) ∧
  Keeps cacheBounded Page.fetchMoodHistory ∧
  (∀ labels dataPoints, Keeps cacheBounded (Page.createMoodChart labels dataPoints)).
Proof.
  split_and!.
  - intros apiUrl e now. unfold cacheBounded. cbn. rewrite dom_empty_L.
    apply empty_subseteq.
  - intros σ Hdom. rewrite <- size_dom.
    etrans; [apply (subseteq_size _ _ Hdom)|]. by rewrite size_singleton.
  - apply bounded_createMoodChart.
  - apply bounded_fetchMoodHistory.
  - apply bounded_logMood.
  - apply bounded_destroy.
  - intros mood value. unfold Page.logMood.
    keeps ltac:(first [apply bounded_logMood | bounded_leaf]).
  - unfold Page.fetchMoodHistory.
    keeps ltac:(first [apply bounded_fetchMoodHistory | bounded_leaf]).
  - apply bounded_createMoodChart.
Qed.
End cache_invariant.

(** ** [destroy], the functions of the page and the callbacks of the chart *)

Section page.
Import MoodTracker MOOD_CONFIG ApiClient.

Lemma destroy_run σ :
  destroy σ =
  (Return (),
   mkState (mkTracker (baseUrl (this σ)) ∅ (isLoading (this σ)) None)
     (env σ) (clock σ) (fetches σ)
     (trace σ ++ match chartInstance (this σ) with
                 | Some _ => [ChartDestroy; CacheClear]
                 | None => [CacheClear]
                 end)
     (suspended σ)).
Proof.
  unfold destroy, cacheClear, MoodCache.clear, emit, modify, getState,
    mbind, M_bind, mret, M_ret.
  cbv beta iota.
  destruct (chartInstance (this σ)) eqn:Hchart; cbv beta iota;
    (apply (f_equal2 pair); [reflexivity|]);
    apply State_ext; state_simpl; unfold setCache; rewrite ?Hchart; reflexivity.
Qed.

(** X23. [destroy] never throws. It destroys the chart that the
    tracker holds, if it holds one, and then clears the cache; it
    leaves the tracker without a chart and with an empty cache, and
    changes nothing else, [isLoading] included. A second [destroy]
    destroys no chart, and the next [fetchMoodHistory()] turns to the
    network. *)
Theorem destroy_releases σ :
  let σ' := (destroy σ).2 in
  (destroy σ).1 = Return () ∧
  this σ' = mkTracker (baseUrl (this σ)) ∅ (isLoading (this σ)) None ∧
  newEvents σ σ' = match chartInstance (this σ) with
                   | Some _ => [ChartDestroy; CacheClear]
                   | None => [CacheClear]
                   end ∧
  fetches σ' = fetches σ ∧
  newEvents σ' (destroy σ').2 = [CacheClear] ∧
  this (destroy σ').2 = this σ' ∧
  (fetches σ' < fetches (fetchMoodHistory false σ').2)%nat.
Proof.
  intros σ'. subst σ'. rewrite !destroy_run. cbn [fst snd this fetches].
  split_and!; [done|done|by apply newEvents_app|done|by apply newEvents_app|done|].
  set (σ' := mkState _ _ _ _ _ _).
  assert (Hmiss : cached σ' = None) by done.
  rewrite (fetchMoodHistory_miss σ' Hmiss).
  destruct (fetchMoodHistory_refresh_trace (afterMiss σ'))
    as (calls & σ2 & Hcalls & _ & _ & Hfetches & _ & ->).
  cbn [snd]. unfold afterRefresh, afterChart, afterNotification.
  destruct (refreshed σ2 _); state_simpl; rewrite Hfetches; cbn; lia.
Qed.

(** X24. The functions [logMood] and [fetchMoodHistory] of the page
    never throw: they return [undefined] whatever the tracker does, and
    when the call of the tracker throws, validation and guard errors
    included, all they add is a line on the console with the error.
    What the tracker did is unchanged. *)
Theorem page_functions_never_throw :
  (∀ mood value σ,
     (Page.logMood mood value σ).1 = Return () ∧
     this (Page.logMood mood value σ).2 = this (logMood mood value σ).2 ∧
     fetches (Page.logMood mood value σ).2 = fetches (logMood mood value σ).2 ∧
     trace (Page.logMood mood value σ).2 =
       trace (logMood mood value σ).2 ++
       match (logMood mood value σ).1 with
       | Return _ => []
       | Throw e => [ConsoleError "Mood logging error:" e]
       end) ∧
  (∀ σ,
     (Page.fetchMoodHistory σ).1 = Return () ∧
     this (Page.fetchMoodHistory σ).2 = this (fetchMoodHistory false σ).2 ∧
     fetches (Page.fetchMoodHistory σ).2 = fetches (fetchMoodHistory false σ).2 ∧
     trace (Page.fetchMoodHistory σ).2 =
       trace (fetchMoodHistory false σ).2 ++
       match (fetchMoodHistory false σ).1 with
       | Return _ => []
       | Throw e => [ConsoleError "Mood history fetch error:" e]
       end).
Proof.
  split.
  - intros mood value σ. unfold Page.logMood, tryCatch, emit, modify, mbind, M_bind,
      mret, M_ret.
    destruct (logMood mood value σ) as [[v|e] σ']; cbn [fst snd]; state_simpl;
      rewrite ?app_nil_r; done.
  - intros σ. unfold Page.fetchMoodHistory, tryCatch, emit, modify, mbind, M_bind,
      mret, M_ret.
    destruct (fetchMoodHistory false σ) as [[v|e] σ']; cbn [fst snd]; state_simpl;
      rewrite ?app_nil_r; done.
Qed.

Lemma moodNameOf_cases v :
  moodNameOf v =
    if decide (v = 5) then Some "Happy"
    else if decide (v = 4) then Some "Good"
    else if decide (v = 3) then Some "Okay"
    else if decide (v = 2) then Some "Worried"
    else if decide (v = 1) then Some "Sad"
    else None.
Proof.
  unfold moodNameOf, MOOD_MAPPINGS. cbn [List.find snd moodValue].
  repeat (case_bool_decide; [subst; repeat case_decide; try lia; reflexivity|]).
  repeat case_decide; try lia; reflexivity.
Qed.

(** X25. The callbacks of the chart look a value up in the table of the
    moods backwards: for the value of a mood of the table they find the
    name of that mood, so that the label of a tick is the name followed
    by the value, and that of a tooltip the name followed by the value
    out of five; for every other integer the tick is the number itself
    and the tooltip says [Unknown]; and a point without a value has the
    tooltip [No mood logged]. *)
Theorem chart_callbacks_name_moods :
  (∀ name attrs, (name, attrs) ∈ MOOD_MAPPINGS →
     moodNameOf (moodValue attrs) = Some name ∧
     tickLabel (moodValue attrs)
       = inl (name +:+ " (" +:+ pretty (moodValue attrs) +:+ ")") ∧
     tooltipLabel (Some (moodValue attrs))
       = name +:+ " (" +:+ pretty (moodValue attrs) +:+ "/5)") ∧
  (∀ v, 1 ≤ v ≤ 5 → ∃ name attrs, (name, attrs) ∈ MOOD_MAPPINGS ∧ moodValue attrs = v) ∧
  (∀ v, ¬ 1 ≤ v ≤ 5 →
     moodNameOf v = None ∧
     tickLabel v = inr v ∧
     tooltipLabel (Some v) = "Unknown (" +:+ pretty v +:+ "/5)") ∧
  tooltipLabel None = "No mood logged".
Proof.
  split_and!; [| | |done].
  - intros name attrs Hin. unfold MOOD_MAPPINGS in Hin.
    repeat (apply elem_of_cons in Hin as [[= -> ->]|Hin]; [by split_and!|]).
    by apply elem_of_nil in Hin.
  - intros v Hv. pose proof (moodNameOf_cases v) as Hcases. unfold moodNameOf in *.
    destruct (List.find _ MOOD_MAPPINGS) as [[name attrs]|] eqn:Hfind.
    + apply find_some in Hfind as [Hin Hp]. exists name, attrs.
      split; [by apply list_elem_of_In|]. cbn [snd] in Hp.
      by apply bool_decide_eq_true in Hp.
    + cbn [fmap option_fmap option_map] in Hcases.
      repeat case_decide; first [lia|discriminate].
  - intros v Hv. unfold tickLabel, tooltipLabel. rewrite moodNameOf_cases.
    repeat (case_decide; [lia|]). done.
Qed.
End page.

Section more_edges.
Import MoodTracker MOOD_CONFIG ApiClient.

(** X26. [createMoodChart] on a page without the chart element does
    nothing at all. On a page with the element it destroys the chart
    that the tracker holds, if any, creates a chart of the labels and
    the values it is given and keeps it; it changes nothing else, and
    never throws. A second call with the same arguments destroys the
    chart of the first and leaves the same tracker. *)
Theorem createMoodChart_replaces labels dataPoints σ :
  let σ' := (createMoodChart labels dataPoints σ).2 in
  (createMoodChart labels dataPoints σ).1 = Return () ∧
  (moodChartElement (env σ) = false → σ' = σ) ∧
  (moodChartElement (env σ) = true →
     this σ' = setChartInstance (Some (mkChart labels dataPoints)) (this σ) ∧
     newEvents σ σ' = match chartInstance (this σ) with
                      | Some _ => [ChartDestroy; ChartCreate labels dataPoints]
                      | None => [ChartCreate labels dataPoints]
                      end ∧
     this (createMoodChart labels dataPoints σ').2 = this σ' ∧
     newEvents σ' (createMoodChart labels dataPoints σ').2
       = [ChartDestroy; ChartCreate labels dataPoints]) ∧
  env σ' = env σ ∧ clock σ' = clock σ ∧ fetches σ' = fetches σ ∧
  suspended σ' = suspended σ.
Proof.
  intros σ'. subst σ'. rewrite !createMoodChart_run. cbn [fst snd].
  split_and!; [done| | |done|done|done|done].
  - intros Hel. apply State_ext; unfold afterChart, chartEvents; state_simpl;
      rewrite ?Hel; try reflexivity. by rewrite app_nil_r.
  - intros Hel. unfold afterChart, chartEvents. state_simpl. rewrite !Hel. state_simpl.
    split_and!; [done|by apply newEvents_app|done|].
    apply newEvents_app. cbn [trace]. by rewrite ?app_assoc.
Qed.

(** X27. When the server answers the request for the history with a
    body that is not an array (an object, or [null]), the request has
    succeeded and is not retried, but the processing of the history
    throws a [TypeError]; [fetchMoodHistory] handles it as a failed
    fetch: it notifies that the history cannot be loaded, draws the
    empty chart, throws the [TypeError] and stores nothing. *)
Theorem fetchMoodHistory_rejects_other_bodies σ body :
  attempt σ 0 = Return body →
  (∀ records, body ≠ VArray records) →
  let σ' := (fetchMoodHistory true σ).2 in
  (∃ msg, (fetchMoodHistory true σ).1 = Throw (TypeError msg) ∧
          (∀ fields, body = VObject fields → msg = "history.find is not a function")) ∧
  fetches σ' = S (fetches σ) ∧
  cache (this σ') = cache (this σ) ∧
  chartInstance (this σ') =
    (if moodChartElement (env σ) then Some (mkChart [] []) else chartInstance (this σ)) ∧
  ∃ e, newEvents σ σ' =
       [Fetch (urlFor σ HISTORY_ENDPOINT) (configFor σ noOptions);
        Settled (settled (network (env σ) (fetches σ)));
        ConsoleError "Failed to fetch mood history:" e;
        notificationEvent σ historyFailure ErrorType]
       ++ chartEvents σ [] [].
Proof.
  intros Hok Hbody σ'. subst σ'.
  destruct (retryRequest_settles HISTORY_ENDPOINT noOptions σ 0 ltac:(lia))
    as (σ2 & Hrun & Hthis & Henv & Hfetches & _ & Htrace).
  { intros j Hj. lia. }
  { left. rewrite Hok. cbn. tauto. }
  rewrite fetchMoodHistory_refresh. cbv zeta. rewrite Hrun, Hok. cbn [fst snd refreshed].
  assert (Hthrow : ∃ msg, (processHistory body σ2).1 = Throw (TypeError msg) ∧
                          (∀ fields, body = VObject fields →
                                     msg = "history.find is not a function")).
  { destruct body as [| |records|fields]; [| |by destruct (Hbody records)|];
      eexists; (split; [reflexivity|]); by intros fields' [=]. }
  destruct Hthrow as (msg & Hthrow & Hmsg). rewrite Hthrow. cbn [afterRefresh].
  assert (Hevents : chartEvents (afterNotification historyFailure ErrorType
                                   (addEvent (ConsoleError "Failed to fetch mood history:"
                                                (TypeError msg)) σ2))
                      [] [] = chartEvents σ [] []).
  { apply chartEvents_ext; unfold afterNotification; state_simpl.
    - done.
    - by rewrite Hthis. }
  unfold afterChart. rewrite Hevents. unfold afterNotification.
  rewrite (notificationEvent_ext
             (addEvent (ConsoleError "Failed to fetch mood history:" (TypeError msg)) σ2) σ)
    by (state_simpl; done).
  state_simpl. rewrite !Henv.
  split_and!; [by exists msg|lia| | |].
  - destruct (moodChartElement (env σ)); state_simpl; by rewrite Hthis.
  - destruct (moodChartElement (env σ)); state_simpl; [done|]. by rewrite Hthis.
  - exists (TypeError msg). apply newEvents_app. rewrite Htrace. cbn [loopEvents].
    rewrite <- ?app_assoc. cbn [app]. reflexivity.
Qed.

Lemma logMood_try_extends s value σ :
  let post := retryRequest API_ENDPOINT (postOptions s value σ) RETRY_ATTEMPTS σ in
  trace post.2 `prefix_of`
    trace (tryCatch (logMood_try (MoodString s) value)
             (logMood_catch (MoodString s) value) σ).2.
Proof.
  intros post. subst post. unfold tryCatch. rewrite logMood_try_run. cbv zeta.
  destruct (retryRequest API_ENDPOINT (postOptions s value σ) RETRY_ATTEMPTS σ)
    as [[result|e] σ2]; cbn [fst snd].
  - pose proof (Frames_fetchMoodHistory false (afterSubmission s σ2))
      as (_ & _ & _ & [T HT] & _).
    destruct (fetchMoodHistory false (afterSubmission s σ2)) as [[series|e] σ4];
      cbn [fst snd] in *.
    + unfold afterNotification. cbn [trace addEvent]. rewrite HT.
      unfold afterSubmission. state_simpl. by eexists.
    + rewrite logMood_catch_run. cbn [snd trace addEvent]. rewrite HT.
      unfold afterSubmission. state_simpl. by eexists.
  - rewrite logMood_catch_run. cbn [snd trace addEvent]. state_simpl. by eexists.
Qed.

(** X28. An entry can be submitted more than once. When the server
    answers the first request of the submission with a status that is
    [ok] but a body that does not parse, [logMood] takes the request
    for failed, waits a second and sends the same entry again. *)
Theorem logMood_resubmits_accepted_entry s value σ response e :
  validateMoodInput (MoodString s) value = true →
  isLoading (this σ) = false →
  settled (network (env σ) (fetches σ)) = Return response →
  ok response = true →
  json response = Throw e →
  ∃ rest,
    newEvents σ (logMood (MoodString s) value σ).2 =
      LoadingState true
      :: Fetch (urlFor σ API_ENDPOINT) (configFor σ (postOptions s value σ))
      :: Settled (Return response)
      :: Delay 1000
      :: Fetch (urlFor σ API_ENDPOINT) (configFor σ (postOptions s value σ))
      :: rest.
Proof.
  intros Hvalid Hidle Hsettled Hok Hjson.
  rewrite logMood_started by done. cbn [snd].
  destruct (logMood_try_extends s value (submitting σ)) as [T HT]. cbv zeta in HT.
  destruct (retryLoop_run API_ENDPOINT (postOptions s value (submitting σ)) 3 3 0
              (submitting σ) ltac:(lia) ltac:(lia))
    as (calls & σ2 & Hrun & Hcalls & _ & Hearly & _ & _ & _ & _ & Htrace & _).
  change (retryRequest API_ENDPOINT (postOptions s value (submitting σ)) RETRY_ATTEMPTS
            (submitting σ))
    with (retryLoop API_ENDPOINT (postOptions s value (submitting σ)) 3 3 0 (submitting σ))
    in HT.
  rewrite Hrun in HT. cbn [snd] in HT.
  assert (Hfirst : attempt (submitting σ) 0 = Throw e).
  { unfold attempt, outcomeOf. rewrite Nat.add_0_r.
    change (network (env (submitting σ)) (fetches (submitting σ)))
      with (network (env σ) (fetches σ)).
    by rewrite Hsettled, Hok. }
  assert (Hmore : (2 ≤ calls)%nat).
  { destruct (decide (calls = 1%nat)) as [->|Hne]; [|lia].
    exfalso. apply Hearly; [lia|]. cbn [Nat.sub]. by rewrite Hfirst. }
  destruct calls as [|[|calls]]; [lia|lia|].
  change (loopEvents ?u ?c ?net ?f 0 (S (S calls)))
    with (Fetch u c :: Settled (settled (net f))
          :: Delay (RETRY_DELAY * (Z.of_nat 0 + 1))
          :: loopEvents u c net (S f) 1 (S calls)) in Htrace.
  destruct (loopEvents_head (urlFor (submitting σ) API_ENDPOINT)
              (configFor (submitting σ) (postOptions s value (submitting σ)))
              (network (env (submitting σ))) (S (fetches (submitting σ))) 1 (S calls)
              ltac:(lia)) as [more Hhead].
  rewrite Hhead in Htrace.
  change (network (env (submitting σ)) (fetches (submitting σ)))
    with (network (env σ) (fetches σ)) in Htrace.
  rewrite Hsettled in Htrace.
  exists (more ++ T ++ [LoadingState false]).
  apply newEvents_app. unfold settledDown. cbn [trace addEvent withThis].
  rewrite HT, Htrace. unfold submitting. state_simpl.
  rewrite <- ?app_assoc. cbn [app]. reflexivity.
Qed.
End more_edges.

Lemma fetchMoodHistory_rejects_other_bodies_witness :
  fetches (MoodTracker.fetchMoodHistory true acceptingState).2 = 1%nat.
Proof.
  refine (proj1 (proj2 (fetchMoodHistory_rejects_other_bodies acceptingState
                          (VObject [("msg", "Mood saved")]) _ _))).
  - vm_compute. reflexivity.
  - intros records. discriminate.
Defined.

Lemma logMood_resubmits_accepted_entry_witness :
  ∃ rest,
    newEvents garbledState (MoodTracker.logMood (MoodString "Happy") "5" garbledState).2 =
      LoadingState true
      :: Fetch (urlFor garbledState MOOD_CONFIG.API_ENDPOINT)
           (configFor garbledState (postOptions "Happy" "5" garbledState))
      :: Settled (Return (mkResponse true 200 "OK"
                            (Throw (mkError "SyntaxError" "Unexpected end of JSON input"))))
      :: Delay 1000
      :: Fetch (urlFor garbledState MOOD_CONFIG.API_ENDPOINT)
           (configFor garbledState (postOptions "Happy" "5" garbledState))
      :: rest.
Proof.
  apply (logMood_resubmits_accepted_entry "Happy" "5" garbledState
           (mkResponse true 200 "OK"
              (Throw (mkError "SyntaxError" "Unexpected end of JSON input")))
           (mkError "SyntaxError" "Unexpected end of JSON input")).
  - vm_compute. reflexivity.
  - reflexivity.
  - reflexivity.
  - reflexivity.
  - reflexivity.
Defined.

(** ** The errors of [logMood] *)

Section logMood_errors.
Import MoodTracker MOOD_CONFIG ApiClient.

(** C7, as the code has it. Once the validation and the guard have
    passed, [logMood] ends as its [try] block does: it returns what the
    block returns and throws what the block throws, unchanged. Every
    error of the block, of the submission or of the refresh of the
    history, is first reported, on the console and with a notification
    whose text is chosen by the markers that the message of the error
    contains, and is then thrown to the caller; the loading state is
    reset last. So when the three requests of the submission fail,
    [logMood] throws the error of the third after exactly these three
    requests, the report and the reset. *)
Theorem logMood_notifies_then_rethrows mood value σ e :
  validateMoodInput mood value = true →
  isLoading (this σ) = false →
  let msg := message e in
  let text :=
    if includes "network" msg || includes "fetch" msg
    then "Failed to log mood. Please check your internet connection."
    else if includes "401" msg || includes "unauthorized" msg
    then "Failed to log mood. Please log in again."
    else if includes "429" msg
    then "Failed to log mood. Too many requests. Please wait a moment."
    else "Failed to log mood. Please try again later." in
  let reported :=
    [ConsoleError "Mood logging failed:" e;
     notificationEvent σ text ErrorType;
     LoadingState false] in
  (logMood mood value σ).1 = (logMood_try mood value (submitting σ)).1 ∧
  ((logMood_try mood value (submitting σ)).1 = Throw e →
     (logMood mood value σ).1 = Throw e ∧
     ∃ T, trace (logMood mood value σ).2 =
          trace σ ++ LoadingState true :: T ++ reported) ∧
  ((∀ j, (j < 2)%nat → isThrow (attempt σ j)) →
   attempt σ 2 = Throw e →
     (logMood mood value σ).1 = Throw e ∧
     fetches (logMood mood value σ).2 = (fetches σ + 3)%nat ∧
     trace (logMood mood value σ).2 =
       trace σ ++ LoadingState true
       :: loopEvents (urlFor σ API_ENDPOINT)
            (configFor σ (postOptions (moodText mood) value σ))
            (network (env σ)) (fetches σ) 0 3
       ++ reported).
Proof.
  intros Hvalid Hidle msg text reported.
  assert (Htext : errorMessageFor (message e) = text).
  { subst text msg. unfold errorMessageFor.
    by repeat match goal with |- context [if ?b then _ else _] => destruct b end. }
  subst reported. clearbody text. clear msg.
  rewrite logMood_started by done. cbn [fst snd]. unfold tryCatch.
  split_and!.
  - destruct (logMood_try mood value (submitting σ)) as [[v|e0] σ2]; [done|].
    by rewrite logMood_catch_run.
  - pose proof (Frames_logMood_try mood value (submitting σ))
      as (Henv & _ & _ & [T HT] & _).
    destruct (logMood_try mood value (submitting σ)) as [[v|e0] σ2]; [done|].
    rewrite logMood_catch_run. cbn [fst snd] in *. intros [= ->].
    split; [done|]. exists T. unfold settledDown. state_simpl. rewrite HT.
    unfold submitting. state_simpl.
    do 4 f_equal. unfold notificationEvent. rewrite Henv, Htext. reflexivity.
  - intros Hfail Hlast.
    destruct (proj1 (validateMoodInput_true _ _) Hvalid) as (s & n & -> & _).
    cbn [moodText].
    destruct (retryRequest_settles API_ENDPOINT (postOptions s value (submitting σ))
                (submitting σ) 2 ltac:(lia) Hfail)
      as (σ2 & Hrun & _ & Henv & Hfetches & _ & Htrace); [by right|].
    change (attempt (submitting σ) 2) with (attempt σ 2) in Hrun.
    rewrite Hlast in Hrun.
    rewrite logMood_try_run. cbv zeta. rewrite Hrun. cbn [fst snd].
    rewrite logMood_catch_run. cbn [fst snd].
    split; [done|]. unfold settledDown. state_simpl.
    split; [exact Hfetches|].
    rewrite Htrace. unfold submitting. state_simpl.
    unfold notificationEvent. rewrite Henv, Htext. state_simpl.
    rewrite <- ?app_assoc. cbn [app]. reflexivity.
Qed.
End logMood_errors.

Lemma logMood_notifies_then_rethrows_witness :
  (MoodTracker.logMood (MoodString "Happy") "5" offlineState).1
  = Throw (TypeError "Failed to fetch").
Proof.
  refine (proj1 (proj2 (proj2 (logMood_notifies_then_rethrows (MoodString "Happy") "5"
                                 offlineState (TypeError "Failed to fetch") _ _)) _ _)).
  - vm_compute. reflexivity.
  - reflexivity.
  - intros j Hj. destruct j as [|[|j]]; [vm_compute; exact I|vm_compute; exact I|lia].
  - vm_compute. reflexivity.
Defined.

